(** * mcp-weixin-spider: the article extractors and the tool server

    A shallow embedding of
      - [src/mcp_weixin_spider/server.py]   (the tool functions),
      - [weixin_spider_simple.py]           (the Selenium spider, [WeixinSpider]),
      - [weixin_spider_agentbrowser.py]     (the agent-browser spider, [WeixinSpiderAB]),
    together with the properties of the extraction contract.

    Python values are modelled as the interpreter has them: a [str] is a
    sequence of code points, an [int] is unbounded, a [float] is a binary64,
    a raised exception is a value of [pyexn] carried by the error side of
    [result].  Everything outside the interpreter (Chrome, the agent-browser
    subprocess, the network, the disk, the library parsers) is an interface
    whose operations take and return the state of the outside world. *)

From Stdlib Require Import ZArith NArith List Lia Bool String Ascii.
From Stdlib Require Import Permutation Sorted SpecFloat.
Import ListNotations.

Set Warnings "-register-all".
Local Open Scope Z_scope.

(** ** Python strings *)

Module Py.

(** A [str] is a sequence of Unicode code points; [len], slicing and the
    comparisons below count code points, as Python does. *)
Definition codepoint := N.
Definition pystr := list codepoint.

(** A literal of the source, all of whose characters are ASCII. *)
Definition lit (s : string) : pystr :=
  map N_of_ascii (list_ascii_of_string s).

Definition len {A} (s : list A) : Z := Z.of_nat (List.length s).

(** [s[:n]] for a non-negative constant [n]. *)
Definition slice_to {A} (n : nat) (s : list A) : list A := firstn n s.

Fixpoint str_eqb (a b : pystr) : bool :=
  match a, b with
  | [], [] => true
  | x :: a', y :: b' => N.eqb x y && str_eqb a' b'
  | _, _ => false
  end.

(** [s.startswith(p)] *)
Fixpoint startswith (p s : pystr) : bool :=
  match p, s with
  | [], _ => true
  | x :: p', y :: s' => N.eqb x y && startswith p' s'
  | _ :: _, [] => false
  end.

(** [s.endswith(p)] *)
Definition endswith (p s : pystr) : bool := startswith (rev p) (rev s).

(** [p in s] on strings: [p] occurs as a contiguous run of [s]. *)
Fixpoint contains (p s : pystr) : bool :=
  startswith p s ||
  match s with
  | [] => false
  | _ :: s' => contains p s'
  end.

(** [c.isspace()]: the code points that [str.strip()] removes. *)
Definition isspace (c : codepoint) : bool :=
  ((9 <=? c) && (c <=? 13) || (28 <=? c) && (c <=? 32) ||
   (c =? 133) || (c =? 160) || (c =? 5760) ||
   (8192 <=? c) && (c <=? 8202) || (c =? 8232) || (c =? 8233) ||
   (c =? 8239) || (c =? 8287) || (c =? 12288))%N.

Fixpoint lstrip (s : pystr) : pystr :=
  match s with
  | c :: s' => if isspace c then lstrip s' else s
  | [] => []
  end.

(** [s.strip()] *)
Definition strip (s : pystr) : pystr := rev (lstrip (rev (lstrip s))).

(** [s.split('\n')] *)
Fixpoint split_lines (s : pystr) : list pystr :=
  match s with
  | [] => [[]]
  | c :: s' =>
      if (c =? 10)%N then [] :: split_lines s'
      else match split_lines s' with
           | l :: ls => (c :: l) :: ls
           | [] => [[c]]
           end
  end.

(** [re.sub(cls, repl, s)] for a pattern [cls] that is one character class:
    every character of the class is replaced by [repl], the others stay. *)
Fixpoint re_sub_class (cls : codepoint -> bool) (repl : pystr) (s : pystr) : pystr :=
  match s with
  | [] => []
  | c :: s' => (if cls c then repl else [c]) ++ re_sub_class cls repl s'
  end.

(** Decimal digits of a non-negative [int], most significant first
    ([str(n)], and the [d] of an f-string). *)
Fixpoint digits_fuel (fuel : nat) (n : N) (acc : pystr) : pystr :=
  match fuel with
  | O => acc
  | S fuel' =>
      let acc' := (48 + n mod 10)%N :: acc in
      if (n <? 10)%N then acc' else digits_fuel fuel' (n / 10)%N acc'
  end.

Definition str_of_nonneg (n : N) : pystr :=
  digits_fuel (S (N.to_nat (N.log2 n))) n [].

(** [str(z)] for an [int]. *)
Definition str_of_int (z : Z) : pystr :=
  match z with
  | Zneg p => 45%N :: str_of_nonneg (Npos p)
  | _ => str_of_nonneg (Z.to_N z)
  end.

(** [f"{z:03d}"]: zero-padded to width 3, the sign first. *)
Definition format_03d (z : Z) : pystr :=
  let pad (w : nat) (d : pystr) := repeat 48%N (w - List.length d) ++ d in
  match z with
  | Zneg p => 45%N :: pad 2%nat (str_of_nonneg (Npos p))
  | _ => pad 3%nat (str_of_nonneg (Z.to_N z))
  end.

(** [posixpath.join(a, b)] *)
Definition os_path_join (a b : pystr) : pystr :=
  if startswith (lit "/") b then b
  else if match a with [] => true | _ => endswith (lit "/") a end then a ++ b
  else a ++ lit "/" ++ b.

(** ** Exceptions *)

(** The exception classes the code raises, names in an [except] clause or
    meets; [OtherException name bases] is any further subclass of
    [Exception]: its name, and those of the classes listed before it that it
    derives from ([JSONDecodeError] and [UnicodeEncodeError] derive from
    [ValueError]). *)
Inductive exn_class :=
  | ValueError | RuntimeError | TypeError | AttributeError | KeyError
  | ZeroDivisionError | OverflowError
  | TimeoutException | NoSuchElementException
  | OtherException (name : pystr) (bases : list exn_class).

(** [type(e).__name__] *)
Definition class_name (c : exn_class) : pystr :=
  match c with
  | ValueError => lit "ValueError"
  | RuntimeError => lit "RuntimeError"
  | TypeError => lit "TypeError"
  | AttributeError => lit "AttributeError"
  | KeyError => lit "KeyError"
  | ZeroDivisionError => lit "ZeroDivisionError"
  | OverflowError => lit "OverflowError"
  | TimeoutException => lit "TimeoutException"
  | NoSuchElementException => lit "NoSuchElementException"
  | OtherException n _ => n
  end.

(** [c is d] for a class [d] of the list. *)
Definition same_class (c d : exn_class) : bool :=
  match c, d with
  | ValueError, ValueError | RuntimeError, RuntimeError
  | TypeError, TypeError | AttributeError, AttributeError
  | KeyError, KeyError | ZeroDivisionError, ZeroDivisionError
  | OverflowError, OverflowError | TimeoutException, TimeoutException
  | NoSuchElementException, NoSuchElementException => true
  | _, _ => false
  end.

(** [issubclass(c, d)] for a class [d] of the list: none of the listed
    classes derives from another one. *)
Definition issubclass (c d : exn_class) : bool :=
  same_class c d ||
  match c with
  | OtherException _ bases => existsb (fun b => same_class b d) bases
  | _ => false
  end.

(** An exception object: its class and [str(e)]. *)
Record pyexn := Exn { exn_type : exn_class; exn_str : pystr }.

(** [isinstance(e, d)]: what a clause [except d] tests. *)
Definition isinstance (e : pyexn) (d : exn_class) : bool :=
  issubclass (exn_type e) d.

(** The outcome of an expression: it raises or it has a value. *)
Inductive result (A : Type) :=
  | Raise (e : pyexn)
  | Ok (a : A).
Arguments Raise {A} e.
Arguments Ok {A} a.

Definition rbind {A B} (r : result A) (k : A -> result B) : result B :=
  match r with
  | Raise e => Raise e
  | Ok a => k a
  end.

Definition rmap {A B} (f : A -> B) (r : result A) : result B :=
  rbind r (fun a => Ok (f a)).

Definition is_ok {A} (r : result A) : bool :=
  match r with Ok _ => true | Raise _ => false end.

(** ** Bytes *)

(** The code points U+D800 to U+DFFF, which no codec encodes. *)
Definition is_surrogate (c : codepoint) : bool :=
  ((55296 <=? c) && (c <=? 57343))%N.

(** The UTF-8 bytes of a code point that is no surrogate. *)
Definition utf8 (c : codepoint) : list N :=
  (if c <? 128 then [c]
   else if c <? 2048 then [192 + c / 64; 128 + c mod 64]
   else if c <? 65536
   then [224 + c / 4096; 128 + (c / 64) mod 64; 128 + c mod 64]
   else [240 + c / 262144; 128 + (c / 4096) mod 64; 128 + (c / 64) mod 64;
         128 + c mod 64])%N.

Definition hex_digit (n : N) : codepoint :=
  (if n <? 10 then 48 + n else 87 + n)%N.

(** The number of surrogates [s] starts with. *)
Fixpoint surrogate_run (s : pystr) : N :=
  match s with
  | c :: s' => if is_surrogate c then (1 + surrogate_run s')%N else 0%N
  | [] => 0%N
  end.

Definition UnicodeEncodeError : exn_class :=
  OtherException (lit "UnicodeEncodeError") [ValueError].

(** [str(e)] of the [UnicodeEncodeError] for the surrogate [c] at [pos],
    followed by [more] further surrogates. *)
Definition surrogate_message (pos : N) (c : codepoint) (more : N) : pystr :=
  if (more =? 0)%N
  then lit "'utf-8' codec can't encode character '\u"
       ++ [hex_digit (c / 4096); hex_digit ((c / 256) mod 16);
           hex_digit ((c / 16) mod 16); hex_digit (c mod 16)]%N
       ++ lit "' in position " ++ str_of_nonneg pos
       ++ lit ": surrogates not allowed"
  else lit "'utf-8' codec can't encode characters in position "
       ++ str_of_nonneg pos ++ lit "-" ++ str_of_nonneg (pos + more)
       ++ lit ": surrogates not allowed".

(** [s.encode()] from the position [pos] on: the UTF-8 bytes of [s], or
    the [UnicodeEncodeError] of its first run of surrogates. *)
Fixpoint encode_from (pos : N) (s : pystr) : result (list N) :=
  match s with
  | [] => Ok []
  | c :: s' =>
      if is_surrogate c
      then Raise (Exn UnicodeEncodeError
                      (surrogate_message pos c (surrogate_run s')))
      else rmap (app (utf8 c)) (encode_from (pos + 1) s')
  end.

(** [s.encode()] *)
Definition encode (s : pystr) : result (list N) := encode_from 0 s.

(** ** Floats *)

(** A [float] is a binary64, with the operations of the IEEE specification
    of the standard library. *)
Definition float := spec_float.
Definition prec : Z := 53.
Definition emax : Z := 1024.

(** The quotient of two [int]s, rounded once to the nearest binary64. *)
Definition int_quot (a b : Z) : float :=
  match a, b with
  | Z0, _ => S754_zero (b <? 0)
  | _, Z0 => S754_nan
  | Zpos p, Zpos q => SFdiv prec emax (S754_finite false p 0) (S754_finite false q 0)
  | Zpos p, Zneg q => SFdiv prec emax (S754_finite false p 0) (S754_finite true q 0)
  | Zneg p, Zpos q => SFdiv prec emax (S754_finite true p 0) (S754_finite false q 0)
  | Zneg p, Zneg q => SFdiv prec emax (S754_finite true p 0) (S754_finite true q 0)
  end.

(** [a / b] on [int]s: true division, correctly rounded; [ZeroDivisionError]
    for a zero divisor, [OverflowError] for a quotient beyond the floats. *)
Definition truediv (a b : Z) : result float :=
  if b =? 0 then Raise (Exn ZeroDivisionError (lit "division by zero"))
  else match int_quot a b with
       | S754_infinity _ | S754_nan =>
           Raise (Exn OverflowError (lit "integer division result too large for a float"))
       | q => Ok q
       end.

(** Round-half-even of [m / 2^k] to an integer, for [m >= 0]. *)
Definition div_pow2_half_even (m : Z) (k : Z) : Z :=
  let d := 2 ^ k in
  let q := m / d in
  let r := m mod d in
  match Z.compare (2 * r) d with
  | Lt => q
  | Gt => q + 1
  | Eq => if Z.even q then q else q + 1
  end.

(** The integer nearest to [10 * |x|] (ties to even) for a finite [x]: the
    digits of [x] correctly rounded to one place after the point. *)
Definition tenths (x : float) : Z :=
  match x with
  | S754_finite _ m e =>
      match e with
      | Zneg k => div_pow2_half_even (10 * Zpos m) (Zpos k)
      | _ => 10 * Zpos m * 2 ^ e
      end
  | _ => 0
  end.

Definition sign_of (x : float) : bool :=
  match x with
  | S754_zero s | S754_infinity s | S754_finite s _ _ => s
  | S754_nan => false
  end.

(** [round(x, 1)] on a [float]: the decimal with one place nearest to [x]
    (ties to even), converted back to the nearest binary64; zeros,
    infinities and nans round to themselves. *)
Definition round1 (x : float) : float :=
  match x with
  | S754_finite s _ _ =>
      match tenths x with
      | Zpos n => SFdiv prec emax (S754_finite s n 0) (S754_finite false 10 0)
      | _ => S754_zero s
      end
  | _ => x
  end.

(** The binary64 of an [int] that fits one exactly. *)
Definition float_of_int (z : Z) : float := binary_normalize prec emax z 0 false.

End Py.

(** ** JSON values and dictionaries *)

Module Json.
Import Py.

(** What [json.loads] produces and [json.dumps] accepts.  A [dict] keeps its
    keys in insertion order; the keys the code uses are ASCII literals. *)
Inductive json :=
  | JNull
  | JBool (b : bool)
  | JInt (z : Z)
  | JFloat (f : float)
  | JStr (s : pystr)
  | JList (l : list json)
  | JDict (d : list (string * json)).

Definition dict := list (string * json).

(** [d.get(k)] *)
Fixpoint lookup (k : string) (d : dict) : option json :=
  match d with
  | [] => None
  | (k', v) :: d' => if String.eqb k k' then Some v else lookup k d'
  end.

(** [k in a] for a dictionary [a]. *)
Definition has_key (k : string) (a : json) : bool :=
  match a with
  | JDict d => match lookup k d with Some _ => true | None => false end
  | _ => false
  end.

(** [a[k]]: [KeyError] for a missing key, [TypeError] when [a] cannot be
    subscripted by a string. *)
Definition getitem (a : json) (k : string) : result json :=
  match a with
  | JDict d =>
      match lookup k d with
      | Some v => Ok v
      | None => Raise (Exn KeyError (lit "'" ++ lit k ++ lit "'"))
      end
  | _ => Raise (Exn TypeError (lit "not subscriptable"))
  end.

(** [bool(v)] *)
Definition truthy (v : json) : bool :=
  match v with
  | JNull => false
  | JBool b => b
  | JInt z => negb (z =? 0)
  | JFloat (S754_zero _) => false
  | JFloat _ => true
  | JStr s => match s with [] => false | _ => true end
  | JList l => match l with [] => false | _ => true end
  | JDict d => match d with [] => false | _ => true end
  end.

End Json.

(** ** Computations on the outside world *)

Module Eff.
Import Py.

(** A computation reads and changes a world [W] and either raises or
    returns; an exception keeps the changes made before it. *)
Definition M (W A : Type) : Type := W -> result A * W.

Definition ret {W A} (a : A) : M W A := fun w => (Ok a, w).

Definition raise {W A} (e : pyexn) : M W A := fun w => (Raise e, w).

Definition bind {W A B} (c : M W A) (k : A -> M W B) : M W B :=
  fun w =>
    match c w with
    | (Raise e, w') => (Raise e, w')
    | (Ok a, w') => k a w'
    end.

(** [try: c  except Exception as e: h(e)] *)
Definition try_except {W A} (c : M W A) (h : pyexn -> M W A) : M W A :=
  fun w =>
    match c w with
    | (Raise e, w') => h e w'
    | (Ok a, w') => (Ok a, w')
    end.

(** A pure expression that may raise. *)
Definition lift {W A} (r : result A) : M W A := fun w => (r, w).

(** The outcome of [c] as a value, for a [try] whose handler depends on
    the class of the exception. *)
Definition attempt {W A} (c : M W A) : M W (result A) :=
  fun w => let (r, w') := c w in (Ok r, w').

(** [returns c Q]: whenever [c] returns, its value satisfies [Q]. *)
Definition returns {W A} (c : M W A) (Q : A -> Prop) : Prop :=
  forall w a w', c w = (Ok a, w') -> Q a.

End Eff.

Declare Scope eff_scope.
Delimit Scope eff_scope with eff.
Notation "x <- c ;; k" := (Eff.bind c (fun x => k))
  (at level 100, c at next level, right associativity) : eff_scope.
Notation "c ;;; k" := (Eff.bind c (fun _ => k))
  (at level 100, right associativity) : eff_scope.

(** ** The article record *)

Module Article.
Import Py Json.

(** One entry of [ArticleContent.images]: a dictionary with the keys
    [index], [url], [alt] and, once downloaded, [local_path]. *)
Record image := Image {
  index : Z;
  img_url : pystr;
  alt : pystr;
  local_path : option pystr
}.

(** [ArticleContent], the dataclass both spider modules declare with the
    same fields. *)
Record ArticleContent := {
  url : pystr;
  title : pystr;
  author : pystr;
  account_name : pystr;
  publish_date : pystr;
  content_html : pystr;
  content_text : pystr;
  images : list image;
  word_count : Z;
  crawl_timestamp : pystr
}.

(** [ArticleContent(url=url)]: the defaults of the dataclass; the time
    stamp is read from the clock by the caller. *)
Definition new (u stamp : pystr) : ArticleContent :=
  {| url := u; title := []; author := []; account_name := [];
     publish_date := []; content_html := []; content_text := [];
     images := []; word_count := 0; crawl_timestamp := stamp |}.

Definition image_to_json (im : image) : json :=
  JDict ([("index", JInt (index im)); ("url", JStr (img_url im));
          ("alt", JStr (alt im))]%string
         ++ match local_path im with
            | Some p => [("local_path"%string, JStr p)]
            | None => []
            end).

Definition to_dict (a : ArticleContent) : json :=
  JDict [("url", JStr (url a));
         ("title", JStr (title a));
         ("author", JStr (author a));
         ("account_name", JStr (account_name a));
         ("publish_date", JStr (publish_date a));
         ("content_html", JStr (content_html a));
         ("content_text", JStr (content_text a));
         ("images", JList (map image_to_json (images a)));
         ("word_count", JInt (word_count a));
         ("crawl_timestamp", JStr (crawl_timestamp a))]%string.

End Article.

(** ** The library [re] *)

(** [re.findall(pattern, s, flags)] and [re.sub(pattern, repl, s)] for the
    three patterns of [analyze_article], which are not single character
    classes; the pattern is passed as the source writes it. *)
Inductive re_flag := DOTALL.

Class Regex := {
  re_findall : string -> Py.pystr -> list re_flag -> list Py.pystr;
  re_sub : string -> Py.pystr -> Py.pystr -> Py.pystr
}.

(** ** Analysis and summary *)

(** [analyze_article] and [summarize_article] are written twice in the
    source, once in each spider class, with the same text; [Stats] holds the
    common body over the two class constants. *)
Module Stats.
Import Py Json Article.

Section WithConstants.
Context {RE : Regex}.
Variable MAX_KEY_PHRASE_LENGTH : Z.
Variable READING_SPEED_CPM : Z.

(** The loop over [strong_matches]. *)
Fixpoint key_phrases_of (strong_matches : list pystr) : list pystr :=
  match strong_matches with
  | [] => []
  | m :: rest =>
      let clean := strip (re_sub "<[^>]+>" [] m) in
      if match clean with [] => false | _ => true end
         && (len clean <? MAX_KEY_PHRASE_LENGTH)
      then clean :: key_phrases_of rest
      else key_phrases_of rest
  end.

Definition nonempty (s : pystr) : bool :=
  match s with [] => false | _ => true end.

Definition analyze_article (article : ArticleContent) : result json :=
  let paragraph_count :=
    if nonempty (content_html article)
    then len (re_findall "<p[^>]*>.*?</p>" (content_html article) [DOTALL])
    else 0 in
  rbind (truediv (word_count article) READING_SPEED_CPM) (fun q =>
  let key_phrases :=
    if nonempty (content_html article)
    then slice_to 10
           (key_phrases_of
              (re_findall "<strong[^>]*>(.*?)</strong>" (content_html article)
                 [DOTALL]))
    else [] in
  Ok (JDict [("word_count", JInt (word_count article));
             ("char_count", JInt (len (content_text article)));
             ("image_count", JInt (len (images article)));
             ("paragraph_count", JInt paragraph_count);
             ("estimated_read_time_minutes", JFloat (round1 q));
             ("key_phrases", JList (map JStr key_phrases))]%string)).

(** The conditional expression binds weaker than [+]: the marker is added
    to the slice, and only in the branch of the long text. *)
Definition first_300_chars (article : ArticleContent) : pystr :=
  if len (content_text article) >? 300
  then slice_to 300 (content_text article) ++ lit "..."
  else content_text article.

Definition summarize_article (article : ArticleContent) : json :=
  JDict [("title", JStr (title article));
         ("account_name", JStr (account_name article));
         ("author", JStr (author article));
         ("publish_date", JStr (publish_date article));
         ("word_count", JInt (word_count article));
         ("image_count", JInt (len (images article)));
         ("first_300_chars", JStr (first_300_chars article));
         ("url", JStr (url article))]%string.

End WithConstants.
End Stats.

(** ** The Selenium spider ([weixin_spider_simple.py]) *)

Module WeixinSpider.
Import Py Json Article Eff.
Local Open Scope eff_scope.

(** An [img] element of the page, as the driver shows it: each call of
    [get_attribute] returns [None], a string, or raises. *)
Record img_element := {
  get_data_src : result (option pystr);
  get_src : result (option pystr);
  get_alt : result (option pystr)
}.

(** The element found by [find_element(By.ID, "js_content")]. *)
Record content_element := {
  get_innerHTML : result pystr;
  get_text : result pystr;
  find_img_elements : result (list img_element)
}.

(** What [requests.get] returns, as far as the code reads it. *)
Record response := {
  status_code : Z;
  content_type : pystr;          (* [headers.get("content-type", "")] *)
  content : list N
}.

(** Chrome behind Selenium, the network and the disk.  [ext] is the state
    of all of it; an operation that acts on it returns the new state. *)
Class Outside := {
  ext : Type;
  (* [webdriver.Chrome(service=Service(ChromeDriverManager().install()), ...)] *)
  chrome_start : ext -> result unit * ext;
  set_page_load_timeout : Z -> ext -> result unit * ext;
  (* [driver.get(url)] *)
  driver_get : pystr -> ext -> result unit * ext;
  (* [WebDriverWait(driver, t).until(presence_of_element_located((By.ID, "js_content")))] *)
  wait_js_content : Z -> ext -> result unit * ext;
  (* [time.sleep(t)] *)
  sleep : Z -> ext -> ext;
  (* [driver.find_element(By.CSS_SELECTOR, selector).text] *)
  find_css_text : pystr -> ext -> result pystr;
  (* [driver.find_element(By.ID, "js_content")] *)
  find_js_content : ext -> result content_element;
  (* [urlparse(url)]: the message of the [ValueError] it raises on an
     address it refuses (brackets that do not match in the host, ...), and
     the [netloc] of its result otherwise *)
  urlparse_error : pystr -> option pystr;
  netloc : pystr -> pystr;
  (* [hashlib.md5(b).hexdigest()] on bytes, [datetime.now().isoformat()] *)
  md5_hexdigest : list N -> pystr;
  now_isoformat : ext -> pystr;
  (* [requests.get(url, timeout=30)], [Path(p).mkdir(parents=True, exist_ok=True)],
     [open(p, "wb").write(data)] *)
  requests_get : pystr -> ext -> result response * ext;
  mkdir_parents : pystr -> ext -> result unit * ext;
  write_file : pystr -> list N -> ext -> result unit * ext
}.

(** The calls that leave the interpreter, in the order they were made. *)
Inductive event :=
  | EvChromeStart
  | EvSetTimeout
  | EvGet (u : pystr)
  | EvWait
  | EvSleep
  | EvHttpGet (u : pystr)
  | EvMkdir (p : pystr)
  | EvWrite (p : pystr).

(** An instance of the class: [_driver] is [None] until Chrome started. *)
Record Spider := { _driver : option unit; _initialized : bool }.

Section WithOutside.
Context {O : Outside} {RE : Regex}.

(** The class attribute [_instance], the outside world and the calls made. *)
Record World := {
  instance : option Spider;
  outside : ext;
  log : list event
}.

Definition PAGE_LOAD_TIMEOUT : Z := 30.
Definition DYNAMIC_CONTENT_WAIT : Z := 2.
Definition MAX_KEY_PHRASE_LENGTH : Z := 100.
Definition READING_SPEED_CPM : Z := 200.

(** A call on the outside world, recorded in the log. *)
Definition call {A} (ev : event) (op : ext -> result A * ext) : M World A :=
  fun w =>
    let (r, o) := op (outside w) in
    (r, {| instance := instance w; outside := o; log := log w ++ [ev] |}).

(** A read of the page. *)
Definition read {A} (op : ext -> result A) : M World A :=
  fun w => (op (outside w), w).

(** [self._driver.m(...)]: an [AttributeError] while [_driver] is [None]. *)
Definition with_driver {A} (self : Spider) (m : string) (c : M World A)
    : M World A :=
  match _driver self with
  | Some _ => c
  | None => raise (Exn AttributeError
                       (lit "'NoneType' object has no attribute '"
                        ++ lit m ++ lit "'"))
  end.

Definition set_instance (s : option Spider) : M World unit :=
  fun w => (Ok tt, {| instance := s; outside := outside w; log := log w |}).

(** [_init_browser], on the instance held by the class. *)
Definition _init_browser (self : Spider) : M World unit :=
  if _initialized self then ret tt
  else
    call EvChromeStart chrome_start ;;;
    set_instance (Some {| _driver := Some tt; _initialized := false |}) ;;;
    call EvSetTimeout (set_page_load_timeout PAGE_LOAD_TIMEOUT) ;;;
    set_instance (Some {| _driver := Some tt; _initialized := true |}).

(** [get_instance]: the lock is not modelled, the calls are sequential. *)
Definition get_instance : M World Spider :=
  fun w =>
    match instance w with
    | Some s => (Ok s, w)
    | None =>
        let fresh := {| _driver := None; _initialized := false |} in
        (set_instance (Some fresh) ;;;
         _init_browser fresh ;;;
         fun w' => match instance w' with
                   | Some s => (Ok s, w')
                   | None => (Ok fresh, w')
                   end) w
    end.

(** [_is_valid_weixin_url]: [urlparse] may raise, the membership test
    does not. *)
Definition _is_valid_weixin_url (u : pystr) : result bool :=
  match urlparse_error u with
  | Some message => Raise (Exn ValueError message)
  | None => Ok (str_eqb (netloc u) (lit "mp.weixin.qq.com")
                || str_eqb (netloc u) (lit "weixin.qq.com"))
  end.

(** What [except NoSuchElementException] catches. *)
Definition is_NoSuchElement (e : pyexn) : bool :=
  isinstance e NoSuchElementException.

(** The loop over the selectors of a field: the first one whose element
    exists and has non-empty stripped text wins. *)
Fixpoint first_text (self : Spider) (selectors : list pystr) : M World pystr :=
  match selectors with
  | [] => ret []
  | selector :: rest =>
      r <- attempt (with_driver self "find_element"
                      (read (find_css_text selector))) ;;
      match r with
      | Ok t =>
          match strip t with
          | [] => first_text self rest
          | t' => ret t'
          end
      | Raise e => if is_NoSuchElement e then first_text self rest else raise e
      end
  end.

Definition _extract_title (self : Spider) : M World pystr :=
  try_except
    (first_text self [lit "h1.rich_media_title"; lit "#activity-name"; lit "h1"])
    (fun _ => ret []).

Definition _extract_author (self : Spider) : M World pystr :=
  try_except
    (first_text self [lit "span.rich_media_meta.rich_media_meta_text";
                      lit "#js_name"; lit ".profile_nickname"])
    (fun _ => ret []).

Definition _extract_account_name (self : Spider) : M World pystr :=
  try_except
    (first_text self [lit "#js_name"; lit ".profile_nickname";
                      lit "a.weui-wa-hotarea"])
    (fun _ => ret []).

Definition _extract_publish_date (self : Spider) : M World pystr :=
  try_except
    (first_text self [lit "#publish_time";
                      lit "em.rich_media_meta.rich_media_meta_text";
                      lit ".rich_media_meta_list em"])
    (fun _ => ret []).

Definition _extract_content_html (self : Spider) : M World pystr :=
  try_except
    (content_elem <- with_driver self "find_element" (read find_js_content) ;;
     lift (get_innerHTML content_elem))
    (fun _ => ret []).

Definition _extract_content_text (self : Spider) : M World pystr :=
  try_except
    (content_elem <- with_driver self "find_element" (read find_js_content) ;;
     t <- lift (get_text content_elem) ;;
     ret (strip t))
    (fun _ => ret []).

(** [a or b] on the results of [get_attribute]: [b] is read only when [a]
    is [None] or empty. *)
Definition attr_truthy (a : option pystr) : bool :=
  match a with
  | Some (_ :: _) => true
  | _ => false
  end.

(** The body of the loop of [_extract_image_urls] for the element at
    position [i]: the entry it appends, if any. *)
Definition image_entry (i : Z) (img : img_element) : result (option image) :=
  rbind (get_data_src img) (fun ds =>
  rbind (if attr_truthy ds then Ok ds else get_src img) (fun src =>
  match src with
  | Some s =>
      if attr_truthy src && negb (startswith (lit "data:") s)
      then rbind (get_alt img) (fun a =>
           Ok (Some {| index := i; img_url := s;
                       alt := match a with Some t => t | None => [] end;
                       local_path := None |}))
      else Ok None
  | None => Ok None
  end)).

(** [for i, img in enumerate(img_elements)], with [images] so far; the
    [except] of the function returns what was collected when a read raises. *)
Fixpoint collect_images (i : Z) (img_elements : list img_element)
    (images : list image) : list image :=
  match img_elements with
  | [] => images
  | img :: rest =>
      match image_entry i img with
      | Raise _ => images
      | Ok None => collect_images (i + 1) rest images
      | Ok (Some im) => collect_images (i + 1) rest (images ++ [im])
      end
  end.

Definition _extract_image_urls (self : Spider) : M World (list image) :=
  try_except
    (content_elem <- with_driver self "find_element" (read find_js_content) ;;
     img_elements <- lift (find_img_elements content_elem) ;;
     ret (collect_images 0 img_elements []))
    (fun _ => ret []).

(** The extension chosen from the declared content type. *)
Definition extension (content_type : pystr) : pystr :=
  if contains (lit "jpeg") content_type || contains (lit "jpg") content_type
  then lit ".jpg"
  else if contains (lit "png") content_type then lit ".png"
  else if contains (lit "gif") content_type then lit ".gif"
  else if contains (lit "webp") content_type then lit ".webp"
  else lit ".jpg".

(** The body of the download loop for one entry: the entry afterwards.  A
    raise inside is caught and leaves the entry as it was. *)
Definition download_one (output_dir : pystr) (img : image) : M World image :=
  try_except
    (response <- call (EvHttpGet (img_url img)) (requests_get (img_url img)) ;;
     if status_code response =? 200 then
       let ext := extension (content_type response) in
       let filename := lit "image_" ++ format_03d (index img) ++ ext in
       let filepath := os_path_join output_dir filename in
       call (EvWrite filepath) (write_file filepath (content response)) ;;;
       ret {| index := index img; img_url := img_url img; alt := alt img;
              local_path := Some filepath |}
     else ret img)
    (fun _ => ret img).

Fixpoint download_all (output_dir : pystr) (images : list image)
    : M World (list image) :=
  match images with
  | [] => ret []
  | img :: rest =>
      img' <- download_one output_dir img ;;
      rest' <- download_all output_dir rest ;;
      ret (img' :: rest')
  end.

Definition _extract_and_download_images (self : Spider) (article_url : pystr)
    (output_dir : option pystr) : M World (list image) :=
  images <- _extract_image_urls self ;;
  match images with
  | [] => ret images
  | _ =>
      output_dir <-
        match output_dir with
        | Some d => ret d
        | None =>
            data <- lift (encode article_url) ;;
            ret (lit "./downloads/" ++ slice_to 8 (md5_hexdigest data))
        end ;;
      call (EvMkdir output_dir) (mkdir_parents output_dir) ;;;
      download_all output_dir images
  end.

(** [crawl]: an exception of [urlparse] leaves the function from the test
    of the address; the two [except] clauses log and raise again, so the
    outcome of the [try] block is the outcome of the call. *)
Definition crawl (self : Spider) (url : pystr) (download_images : bool)
    (output_dir : option pystr) (wait_time : Z) : M World ArticleContent :=
  match _is_valid_weixin_url url with
  | Raise e => raise e
  | Ok valid =>
  if negb valid
  then raise (Exn ValueError (lit "Invalid WeChat article URL: " ++ url))
  else
    stamp <- read (fun o => Ok (now_isoformat o)) ;;
    let article := Article.new url stamp in
    with_driver self "get" (call (EvGet url) (driver_get url)) ;;;
    call EvWait (wait_js_content wait_time) ;;;
    call EvSleep (fun o => (Ok tt, sleep DYNAMIC_CONTENT_WAIT o)) ;;;
    title <- _extract_title self ;;
    author <- _extract_author self ;;
    account_name <- _extract_account_name self ;;
    publish_date <- _extract_publish_date self ;;
    content_html <- _extract_content_html self ;;
    content_text <- _extract_content_text self ;;
    images <- (if download_images
               then _extract_and_download_images self url output_dir
               else _extract_image_urls self) ;;
    ret {| url := Article.url article;
           title := title;
           author := author;
           account_name := account_name;
           publish_date := publish_date;
           content_html := content_html;
           content_text := content_text;
           images := images;
           word_count := len content_text;
           crawl_timestamp := crawl_timestamp article |}
  end.

Definition analyze_article : ArticleContent -> result json :=
  Stats.analyze_article MAX_KEY_PHRASE_LENGTH READING_SPEED_CPM.

Definition summarize_article : ArticleContent -> json :=
  Stats.summarize_article.

End WithOutside.
End WeixinSpider.

(** ** The agent-browser spider ([weixin_spider_agentbrowser.py]) *)

Module WeixinSpiderAB.
Import Py Json Article Eff.
Local Open Scope eff_scope.

(** How [subprocess.run(cmd, capture_output=True, text=True, timeout=t)]
    ends. *)
Inductive completion :=
  | Completed (returncode : Z) (stdout stderr : pystr)
  | TimeoutExpired
  | Failed (e : pyexn).

(** The agent-browser binary and the libraries the module calls; the two
    module constants come from the environment. *)
Class Agent := {
  ext : Type;
  AGENT_BROWSER_BIN : pystr;
  BROWSER_STATE_FILE : pystr;
  subprocess_run : list pystr -> Z -> ext -> completion * ext;
  (* [json.loads(s)]; [None] stands for [JSONDecodeError] *)
  json_loads : pystr -> option json;
  (* [urlparse(url)]: the message of the [ValueError] it raises, and the
     [netloc] of its result otherwise *)
  urlparse_error : pystr -> option pystr;
  netloc : pystr -> pystr;
  now_isoformat : ext -> pystr;
  path_exists : pystr -> ext -> bool
}.

Section WithAgent.
Context {G : Agent} {RE : Regex}.

(** The instance attribute [_state_loaded], the outside world and the
    command lines run so far. *)
Record World := {
  _state_loaded : bool;
  outside : ext;
  log : list (list pystr)
}.

Definition PAGE_LOAD_TIMEOUT : Z := 30000.
Definition MAX_KEY_PHRASE_LENGTH : Z := 100.
Definition READING_SPEED_CPM : Z := 200.
Definition _session_name : pystr := lit "weixin_spider".

(** [_run_cmd], with its positional arguments and its [timeout]: never
    raises. *)
Definition _run_cmd (args : list pystr) (timeout : Z) : M World (bool * pystr) :=
  fun w =>
    let cmd := [AGENT_BROWSER_BIN; lit "--session"; _session_name; lit "--json"]
               ++ args in
    let (c, o) := subprocess_run cmd timeout (outside w) in
    let w' := {| _state_loaded := _state_loaded w; outside := o;
                 log := log w ++ [cmd] |} in
    match c with
    | Completed rc stdout stderr =>
        if rc =? 0 then (Ok (true, strip stdout), w')
        else (Ok (false, strip stderr), w')
    | TimeoutExpired => (Ok (false, lit "Timeout"), w')
    | Failed e => (Ok (false, exn_str e), w')
    end.

(** The unwrapping of the [{success, data, error}] answer. *)
Definition unwrap_data (parsed : json) : json :=
  match parsed with
  | JDict d => match lookup "data" d with Some v => v | None => parsed end
  | _ => parsed
  end.

Definition starts_json (line : pystr) : bool :=
  startswith (lit "{") (strip line) || startswith (lit "[") (strip line).

(** The loop over the lines of an output that is not JSON as a whole. *)
Fixpoint parse_lines (lines : list pystr) (output : pystr) : json :=
  match lines with
  | [] => JStr output
  | line :: rest =>
      if starts_json line then
        match json_loads line with
        | Some parsed => unwrap_data parsed
        | None => parse_lines rest output
        end
      else parse_lines rest output
  end.

Definition _parse_json (output : pystr) : json :=
  match json_loads output with
  | Some parsed => unwrap_data parsed
  | None => parse_lines (split_lines output) output
  end.

(** The [AttributeError] of a method call on a value that has no such
    method; its message, which names the type and the method, is shortened. *)
Definition attribute_error {A} : result A :=
  Raise (Exn AttributeError (lit "object has no attribute")).

(** [_extract_text]: [result["text"].strip()] raises when the value under
    the key is not a string. *)
Definition _extract_text (selector : pystr) : M World pystr :=
  so <- _run_cmd [lit "get"; lit "text"; selector] 60 ;;
  let (success, output) := so : bool * pystr in
  if success then
    let result := _parse_json output in
    if has_key "text" result then
      match getitem result "text" with
      | Ok (JStr t) => ret (strip t)
      | Ok _ => lift attribute_error
      | Raise e => raise e
      end
    else match result with
         | JStr t => ret (strip t)
         | _ => ret []
         end
  else ret [].

(** [_extract_html]: the value under [html] is stored as it comes; the
    record holds strings, and the value is taken to be one, as the binary
    answers (another value is read as the empty string here). *)
Definition _extract_html (selector : pystr) : M World pystr :=
  so <- _run_cmd [lit "get"; lit "html"; selector] 60 ;;
  let (success, output) := so : bool * pystr in
  if success then
    let result := _parse_json output in
    if has_key "html" result then
      match getitem result "html" with
      | Ok (JStr t) => ret t
      | _ => ret []
      end
    else match result with
         | JStr t => ret t
         | _ => ret []
         end
  else ret [].

(** The [TypeError] of [min] or [range] on a value that is no integer;
    its message is shortened. *)
Definition type_error {A} : result A :=
  Raise (Exn TypeError (lit "unsupported operand")).

(** [count] as the code computes it from the parsed answer; [isinstance(x,
    int)] holds of a [bool] too. *)
Definition count_of (result : json) : json :=
  if has_key "count" result then
    match getitem result "count" with
    | Ok v => v
    | Raise _ => JInt 0
    end
  else match result with
       | JInt n => JInt n
       | JBool b => JBool b
       | _ => JInt 0
       end.

(** The number of rounds of [for i in range(min(count, 20))]: [min] keeps
    its first argument unless [20 < count]; [range] wants an integer. *)
Definition rounds (count : json) : result Z :=
  match count with
  | JInt n => Ok (Z.max 0 (Z.min n 20))
  | JBool b => Ok (if b then 1 else 0)
  | JFloat x =>
      if SFltb (float_of_int 20) x then Ok 20 else type_error
  | _ => type_error
  end.

(** The body of the loop for the index [i]: the entry it appends, if any. *)
Definition image_entry (i : Z) : M World (option image) :=
  let selector := lit "#js_content img:nth-child(" ++ str_of_int (i + 1) ++ lit ")" in
  so <- _run_cmd [lit "get"; lit "attr"; selector; lit "data-src"] 60 ;;
  let (success, output) := so : bool * pystr in
  if success then
    let result := _parse_json output in
    let src :=
      if has_key "value" result then
        match getitem result "value" with Ok v => v | Raise _ => JStr [] end
      else match result with
           | JStr s => JStr s
           | _ => JStr []
           end in
    if truthy src then
      match src with
      | JStr s =>
          if negb (startswith (lit "data:") s)
          then ret (Some {| index := i; img_url := s; alt := [];
                            local_path := None |})
          else ret None
      | _ => lift attribute_error
      end
    else ret None
  else ret None.

(** [for i in range(n)] from [i], with [images] so far. *)
Fixpoint collect_images (n : nat) (i : Z) (images : list image)
    : M World (list image) :=
  match n with
  | O => ret images
  | S n' =>
      entry <- image_entry i ;;
      match entry with
      | Some im => collect_images n' (i + 1) (images ++ [im])
      | None => collect_images n' (i + 1) images
      end
  end.

Definition _extract_image_urls : M World (list image) :=
  so <- _run_cmd [lit "get"; lit "count"; lit "#js_content img"] 60 ;;
  let (success, output) := so : bool * pystr in
  if negb success then ret []
  else
    let count := count_of (_parse_json output) in
    n <- lift (rounds count) ;;
    collect_images (Z.to_nat n) 0 [].

Definition _is_valid_weixin_url (u : pystr) : result bool :=
  match urlparse_error u with
  | Some message => Raise (Exn ValueError message)
  | None => Ok (str_eqb (netloc u) (lit "mp.weixin.qq.com")
                || str_eqb (netloc u) (lit "weixin.qq.com"))
  end.

(** The two challenge markers, as code points. *)
Definition marker_environment : pystr := [29615; 22659; 24322; 24120]%N.
Definition marker_verification : pystr := [23436; 25104; 39564; 35777]%N.

Definition blocked_message : pystr :=
  lit "WeChat anti-bot verification detected. Try: 1) Use BROWSER_STATE_FILE with saved login state, 2) Use residential proxy, 3) Wait and retry later".

Definition load_state : M World unit :=
  fun w =>
    if Stats.nonempty BROWSER_STATE_FILE && negb (_state_loaded w)
    then
      if path_exists BROWSER_STATE_FILE (outside w)
      then
        (_run_cmd [lit "state"; lit "load"; BROWSER_STATE_FILE] 60 ;;;
         fun w1 => (Ok tt, {| _state_loaded := true; outside := outside w1;
                              log := log w1 |})) w
      else (Ok tt, w)
    else (Ok tt, w).

(** [crawl]: [download_images] and [output_dir] are accepted and not used;
    the [except] clause logs and raises again. *)
Definition crawl (url : pystr) (download_images : bool)
    (output_dir : option pystr) (wait_time : Z) : M World ArticleContent :=
  match _is_valid_weixin_url url with
  | Raise e => raise e
  | Ok valid =>
  if negb valid
  then raise (Exn ValueError (lit "Invalid WeChat article URL: " ++ url))
  else
    stamp <- (fun w => (Ok (now_isoformat (outside w)), w)) ;;
    let article := Article.new url stamp in
    load_state ;;;
    so <- _run_cmd [lit "open"; url] 60 ;;
    let (success, output) := so : bool * pystr in
    if negb success
    then raise (Exn RuntimeError (lit "Failed to open URL: " ++ output))
    else
      _run_cmd [lit "wait"; str_of_int (wait_time * 1000)] 60 ;;;
      _run_cmd [lit "wait"; lit "#js_content"] (wait_time + 10) ;;;
      page_text <- _extract_text (lit "body") ;;
      if contains marker_environment page_text
         || contains marker_verification page_text
      then raise (Exn RuntimeError blocked_message)
      else
        title <- _extract_text (lit "h1.rich_media_title") ;;
        title <- (if Stats.nonempty title then ret title
                  else _extract_text (lit "#activity-name")) ;;
        account_name <- _extract_text (lit "#js_name") ;;
        author <- _extract_text (lit ".rich_media_meta_text") ;;
        publish_date <- _extract_text (lit "#publish_time") ;;
        content_html <- _extract_html (lit "#js_content") ;;
        content_text <- _extract_text (lit "#js_content") ;;
        images <- _extract_image_urls ;;
        ret {| url := Article.url article;
               title := title;
               author := author;
               account_name := account_name;
               publish_date := publish_date;
               content_html := content_html;
               content_text := content_text;
               images := images;
               word_count := len content_text;
               crawl_timestamp := crawl_timestamp article |}
  end.

Definition analyze_article : ArticleContent -> result json :=
  Stats.analyze_article MAX_KEY_PHRASE_LENGTH READING_SPEED_CPM.

Definition summarize_article : ArticleContent -> json :=
  Stats.summarize_article.

End WithAgent.
End WeixinSpiderAB.

(** ** The tool server ([src/mcp_weixin_spider/server.py]) *)

Module Server.
Import Py Json Article Eff WeixinSpider.
Local Open Scope eff_scope.

(** The three module constants read from the environment at import. *)
Class Config := {
  DOWNLOAD_IMAGES : bool;
  WAIT_TIME : Z;
  OUTPUT_DIR : pystr
}.

(** The class [[./\\]]: the dot, the slash and the backslash. *)
Definition is_separator (c : codepoint) : bool :=
  ((c =? 46) || (c =? 47) || (c =? 92))%N.

(** The class [[a-zA-Z0-9_-]], whose complement the second pattern is. *)
Definition is_safe (c : codepoint) : bool :=
  ((97 <=? c) && (c <=? 122) || (65 <=? c) && (c <=? 90) ||
   (48 <=? c) && (c <=? 57) || (c =? 95) || (c =? 45))%N.

Definition sanitize_path (name : pystr) : pystr :=
  let sanitized := re_sub_class is_separator (lit "_") name in
  let sanitized := re_sub_class (fun c => negb (is_safe c)) [] sanitized in
  match sanitized with
  | [] => lit "unnamed"
  | _ => slice_to 100 sanitized
  end.

Section WithOutside.
Context {O : Outside} {RE : Regex} {C : Config}.

Definition get_spider : M World Spider := get_instance.

(** The object an [except] clause of a tool serialises. *)
Definition error_object (e : pyexn) : json :=
  JDict [("error", JStr (exn_str e));
         ("type", JStr (class_name (exn_type e)))]%string.

(** The tool functions return [json.dumps] of an object; the object stands
    for its serialisation here. *)
Definition crawl_weixin_article (url : pystr) (download_images : bool)
    (custom_filename : option pystr) : M World json :=
  try_except
    (spider <- get_spider ;;
     let output_dir :=
       match custom_filename with
       | Some name =>
           if download_images && Stats.nonempty name
           then Some (os_path_join OUTPUT_DIR (sanitize_path name))
           else None
       | None => None
       end in
     article <- crawl spider url (download_images && DOWNLOAD_IMAGES)
                      output_dir WAIT_TIME ;;
     ret (to_dict article))
    (fun e =>
       if isinstance e ValueError
       then ret (JDict [("error", JStr (exn_str e));
                        ("type", JStr (lit "ValueError"))]%string)
       else ret (error_object e)).

(** The body of [for url in urls] of [compare_articles]: the entry that is
    appended to [articles_data]. *)
Definition compare_entry (spider : Spider) (url : pystr) : M World json :=
  try_except
    (article <- crawl spider url false None WAIT_TIME ;;
     analysis <- lift (analyze_article article) ;;
     let summary := summarize_article article in
     ret (JDict [("summary", summary); ("analysis", analysis)]%string))
    (fun e =>
       ret (JDict [("url", JStr url); ("error", JStr (exn_str e))]%string)).

Fixpoint compare_loop (spider : Spider) (urls : list pystr)
    (articles_data : list json) : M World (list json) :=
  match urls with
  | [] => ret articles_data
  | url :: rest =>
      entry <- compare_entry spider url ;;
      compare_loop spider rest (articles_data ++ [entry])
  end.

Fixpoint rmapM {A B} (f : A -> result B) (l : list A) : result (list B) :=
  match l with
  | [] => Ok []
  | x :: l' =>
      rbind (f x) (fun y => rbind (rmapM f l') (fun ys => Ok (y :: ys)))
  end.

(** [x["analysis"][field]], an [int] written by [analyze_article]. *)
Definition analysis_field (field : string) (x : json) : result Z :=
  rbind (getitem x "analysis") (fun a =>
  rbind (getitem a field) (fun v =>
  match v with
  | JInt z => Ok z
  | _ => Raise (Exn TypeError (lit "not an int"))
  end)).

(** Insertion of [x] in a list sorted by decreasing key, before the first
    element whose key is not greater: equal keys keep their order. *)
Fixpoint insert_desc {A} (x : Z * A) (l : list (Z * A)) : list (Z * A) :=
  match l with
  | [] => [x]
  | y :: l' => if fst x <? fst y then y :: insert_desc x l' else x :: y :: l'
  end.

(** [sorted(l, key=key, reverse=True)]: the keys are computed first, the
    sort is stable. *)
Definition sorted_reverse (key : json -> result Z) (l : list json)
    : result (list json) :=
  rbind (rmapM key l) (fun keys =>
  Ok (map snd (fold_right insert_desc [] (combine keys l)))).

Definition sum (l : list Z) : Z := fold_left Z.add l 0.

(** The dictionary [comparison], its values computed in the order of the
    literal. *)
Definition comparison_of (urls : list pystr) (articles_data : list json)
    : result json :=
  rbind (sorted_reverse (analysis_field "word_count")
           (filter (has_key "summary") articles_data)) (fun by_word_count =>
  rbind (sorted_reverse (analysis_field "image_count")
           (filter (has_key "summary") articles_data)) (fun by_image_count =>
  rbind (rmapM (analysis_field "word_count")
           (filter (has_key "analysis") articles_data)) (fun counts =>
  rbind (truediv (sum counts)
           (Z.max (len (filter (has_key "analysis") articles_data)) 1))
        (fun avg_word_count =>
  Ok (JDict
        [("by_word_count", JList by_word_count);
         ("by_image_count", JList by_image_count);
         ("stats",
          JDict [("total_articles", JInt (len urls));
                 ("successfully_analyzed",
                  JInt (len (filter (has_key "summary") articles_data)));
                 ("avg_word_count", JFloat avg_word_count)])]%string))))).

Definition compare_articles (urls : list pystr) : M World json :=
  try_except
    (if len urls <? 2
     then ret (JDict [("error"%string, JStr (lit "Need at least 2 URLs to compare"))])
     else if len urls >? 5
     then ret (JDict [("error"%string, JStr (lit "Maximum 5 URLs for comparison"))])
     else
       spider <- get_spider ;;
       articles_data <- compare_loop spider urls [] ;;
       comparison <- lift (comparison_of urls articles_data) ;;
       ret (JDict [("articles", JList articles_data);
                   ("comparison", comparison)]%string))
    (fun e => ret (error_object e)).

(** [analyze_weixin_article]: the crawl never downloads. *)
Definition analyze_weixin_article (url : pystr) : M World json :=
  try_except
    (spider <- get_spider ;;
     article <- crawl spider url false None WAIT_TIME ;;
     analysis <- lift (analyze_article article) ;;
     ret (JDict [("content", to_dict article); ("analysis", analysis)]%string))
    (fun e => ret (error_object e)).

(** [summarize_weixin_article] *)
Definition summarize_weixin_article (url : pystr) : M World json :=
  try_except
    (spider <- get_spider ;;
     article <- crawl spider url false None WAIT_TIME ;;
     ret (summarize_article article))
    (fun e => ret (error_object e)).

(** The loop of [batch_crawl_articles], with the two lists so far: a
    summary is appended to [results], or the address and the message of
    the exception to [errors]. *)
Fixpoint batch_loop (spider : Spider) (download_images : bool)
    (urls : list pystr) (results errors : list json)
    : M World (list json * list json) :=
  match urls with
  | [] => ret (results, errors)
  | url :: rest =>
      r <- attempt
             (article <- crawl spider url download_images None WAIT_TIME ;;
              ret (summarize_article article)) ;;
      match r with
      | Ok summary =>
          batch_loop spider download_images rest (results ++ [summary]) errors
      | Raise e =>
          batch_loop spider download_images rest results
            (errors ++ [JDict [("url", JStr url);
                               ("error", JStr (exn_str e))]%string])
      end
  end.

(** [batch_crawl_articles]: [download_images] goes to the crawl as it is. *)
Definition batch_crawl_articles (urls : list pystr) (download_images : bool)
    : M World json :=
  try_except
    (spider <- get_spider ;;
     re <- batch_loop spider download_images urls [] [] ;;
     let (results, errors) := re : list json * list json in
     ret (JDict [("total", JInt (len urls));
                 ("success", JInt (len results));
                 ("failed", JInt (len errors));
                 ("articles", JList results);
                 ("errors", match errors with
                            | [] => JNull
                            | _ => JList errors
                            end)]%string))
    (fun e => ret (error_object e)).

End WithOutside.
End Server.

(** * Vocabulary of the properties and sample data *)

Module Sample.
Import Py Json Article.

(** The ASCII letters and digits. *)
Definition is_alphanumeric (c : codepoint) : bool :=
  ((97 <=? c) && (c <=? 122) || (65 <=? c) && (c <=? 90) ||
   (48 <=? c) && (c <=? 57))%N.

(** A float that is a number: a zero or a finite value. *)
Definition is_finite (x : float) : bool :=
  match x with
  | S754_zero _ | S754_finite _ _ _ => true
  | _ => false
  end.

(** The answers of [re] on texts without markup: nothing is found and
    nothing is replaced. *)
Definition plain_text_re : Regex :=
  {| re_findall := fun _ _ _ => []; re_sub := fun _ _ s => s |}.

(** An article whose text is [n] times the letter [a]. *)
Definition article_of_length (n : nat) : ArticleContent :=
  {| url := lit "https://mp.weixin.qq.com/s/abc";
     title := lit "t"; author := []; account_name := []; publish_date := [];
     content_html := []; content_text := repeat 97%N n;
     images := []; word_count := Z.of_nat n;
     crawl_timestamp := lit "2024-01-01T00:00:00" |}.

(** Whether an event is part of a download: a fetch of an image, the
    creation of the output directory, a write. *)
Definition is_download (ev : WeixinSpider.event) : bool :=
  match ev with
  | WeixinSpider.EvHttpGet _ | WeixinSpider.EvMkdir _
  | WeixinSpider.EvWrite _ => true
  | _ => false
  end.

(** The index fields of a list of entries. *)
Definition indexes (l : list image) : list Z := map index l.

(** [l] is strictly increasing with all its members in [lo, hi). *)
Definition increasing_within (lo hi : Z) (l : list Z) : Prop :=
  StronglySorted Z.lt l /\ Forall (fun k => lo <= k < hi) l.

(** The attributes [data-src], [src] and [alt] of an [img] element, each
    absent or a string. *)
Definition attributes : Type := option pystr * option pystr * option pystr.

(** The address of an element as the claims describe it: the lazy-load
    attribute when it is present and not empty, the standard one otherwise. *)
Definition resolved_source (a : attributes) : option pystr :=
  match a with
  | (Some (c :: s), _, _) => Some (c :: s)
  | (_, src, _) => src
  end.

(** An address is kept when it is not empty and not an inline placeholder. *)
Definition is_kept (s : option pystr) : bool :=
  match s with
  | Some (c :: s') => negb (startswith (lit "data:") (c :: s'))
  | _ => false
  end.

(** The entries the claims expect from the elements of a page, numbered
    from [i]: one for each element whose address is kept, with the
    position of the element as index. *)
Fixpoint expected_entries (i : Z) (page : list attributes) : list image :=
  match page with
  | [] => []
  | a :: rest =>
      match resolved_source a with
      | Some s =>
          if is_kept (Some s)
          then {| index := i; img_url := s;
                  alt := match snd a with Some t => t | None => [] end;
                  local_path := None |} :: expected_entries (i + 1) rest
          else expected_entries (i + 1) rest
      | None => expected_entries (i + 1) rest
      end
  end.

(** *** A scripted Chrome *)

(** An [img] element whose attributes are read without failure. *)
Definition element (a : attributes) : WeixinSpider.img_element :=
  {| WeixinSpider.get_data_src := Ok (fst (fst a));
     WeixinSpider.get_src := Ok (snd (fst a));
     WeixinSpider.get_alt := Ok (snd a) |}.

Definition img (data_src src : option pystr) : WeixinSpider.img_element :=
  element (data_src, src, None).

(** A content container with the given text and [img] elements. *)
Definition container (text : pystr) (imgs : list WeixinSpider.img_element)
    : WeixinSpider.content_element :=
  {| WeixinSpider.get_innerHTML := Ok text;
     WeixinSpider.get_text := Ok text;
     WeixinSpider.find_img_elements := Ok imgs |}.

Definition host_prefix : pystr := lit "https://mp.weixin.qq.com/".

(** A browser that shows the page [site u] after [driver.get(u)], or fails
    to load it; the state of the outside is the address shown.  Every
    fetch of an image answers with a PNG. *)
Definition scripted (site : pystr -> result WeixinSpider.content_element)
    : WeixinSpider.Outside :=
  {| WeixinSpider.ext := pystr;
     WeixinSpider.chrome_start := fun o => (Ok tt, o);
     WeixinSpider.set_page_load_timeout := fun _ o => (Ok tt, o);
     WeixinSpider.driver_get := fun u _ =>
       match site u with
       | Ok _ => (Ok tt, u)
       | Raise e => (Raise e, u)
       end;
     WeixinSpider.wait_js_content := fun _ o => (Ok tt, o);
     WeixinSpider.sleep := fun _ o => o;
     WeixinSpider.find_css_text := fun _ _ =>
       Raise (Exn NoSuchElementException (lit "no such element"));
     WeixinSpider.find_js_content := fun o => site o;
     WeixinSpider.urlparse_error := fun u =>
       if startswith (lit "https://[") u
       then Some (lit "Invalid IPv6 URL") else None;
     WeixinSpider.netloc := fun u =>
       if startswith host_prefix u then lit "mp.weixin.qq.com" else [];
     WeixinSpider.md5_hexdigest := fun _ => lit "0123456789abcdef";
     WeixinSpider.now_isoformat := fun _ => lit "2024-01-01T00:00:00";
     WeixinSpider.requests_get := fun _ o =>
       (Ok {| WeixinSpider.status_code := 200;
              WeixinSpider.content_type := lit "image/png";
              WeixinSpider.content := [] |}, o);
     WeixinSpider.mkdir_parents := fun _ o => (Ok tt, o);
     WeixinSpider.write_file := fun _ _ o => (Ok tt, o) |}.

(** A world in which no spider was created yet. *)
Definition fresh_world (site : pystr -> result WeixinSpider.content_element)
    : @WeixinSpider.World (scripted site) :=
  {| WeixinSpider.instance := None;
     WeixinSpider.outside := [] : @WeixinSpider.ext (scripted site);
     WeixinSpider.log := [] |}.

(** A spider whose Chrome runs. *)
Definition running : WeixinSpider.Spider :=
  {| WeixinSpider._driver := Some tt; WeixinSpider._initialized := true |}.

Definition url_a : pystr := lit "https://mp.weixin.qq.com/s/a".
Definition url_b : pystr := lit "https://mp.weixin.qq.com/s/b".

Definition png (name : string) : pystr :=
  lit "https://mmbiz.qpic.cn/" ++ lit name.

Definition placeholder : pystr := lit "data:image/gif;base64,R0lGOD".

(** A page whose first image is an inline placeholder and whose second is
    a lazily loaded picture. *)
Definition page_with_placeholder : WeixinSpider.content_element :=
  container (lit "hello")
    [img None (Some placeholder); img (Some (png "b.png")) None].

(** A page with [n] lazily loaded pictures. *)
Definition page_with (n : nat) : WeixinSpider.content_element :=
  container (lit "hello") (repeat (img (Some (png "p.png")) None) n).

(** A site that serves one page at every address. *)
Definition site_of (page : WeixinSpider.content_element)
    : pystr -> result WeixinSpider.content_element :=
  fun _ => Ok page.

(** A site whose address [url_b] fails to load. *)
Definition site_b_down (page : WeixinSpider.content_element)
    : pystr -> result WeixinSpider.content_element :=
  fun u =>
    if str_eqb u url_b
    then Raise (Exn (OtherException (lit "WebDriverException") [])
                    (lit "net::ERR_CONNECTION_RESET"))
    else Ok page.

(** A world whose spider runs, before any page was loaded. *)
Definition running_world (site : pystr -> result WeixinSpider.content_element)
    : @WeixinSpider.World (scripted site) :=
  {| WeixinSpider.instance := Some running;
     WeixinSpider.outside := [] : @WeixinSpider.ext (scripted site);
     WeixinSpider.log := [] |}.

(** The configuration of the server with the given download flag. *)
Definition config (flag : bool) : Server.Config :=
  {| Server.DOWNLOAD_IMAGES := flag;
     Server.WAIT_TIME := 10;
     Server.OUTPUT_DIR := lit "./downloads" |}.

(** [no_download c]: whatever [c] does, the calls it adds to the log hold
    no fetch of an image, no creation of a directory and no write. *)
Definition no_download {O : WeixinSpider.Outside} {A}
    (c : Eff.M WeixinSpider.World A) : Prop :=
  forall w r w', c w = (r, w') ->
    exists evs, WeixinSpider.log w' = WeixinSpider.log w ++ evs /\
                existsb is_download evs = false.

(** *** Field selectors *)

(** A selector that gives nothing: its element is missing, or its text is
    blank. *)
Definition blank_or_absent {O : WeixinSpider.Outside} (o : WeixinSpider.ext)
    (selector : pystr) : Prop :=
  match WeixinSpider.find_css_text selector o with
  | Ok raw => strip raw = []
  | Raise e => WeixinSpider.is_NoSuchElement e = true
  end.

(** [selector] is the first of [selectors] that gives a text, [raw], all
    the selectors before it giving nothing. *)
Definition first_match {O : WeixinSpider.Outside} (o : WeixinSpider.ext)
    (selectors : list pystr) (selector raw : pystr) : Prop :=
  exists before after,
    selectors = before ++ selector :: after /\
    Forall (blank_or_absent o) before /\
    WeixinSpider.find_css_text selector o = Ok raw /\
    strip raw <> [].

Definition title_selectors : list pystr :=
  [lit "h1.rich_media_title"; lit "#activity-name"; lit "h1"].
Definition author_selectors : list pystr :=
  [lit "span.rich_media_meta.rich_media_meta_text"; lit "#js_name";
   lit ".profile_nickname"].
Definition account_name_selectors : list pystr :=
  [lit "#js_name"; lit ".profile_nickname"; lit "a.weui-wa-hotarea"].
Definition publish_date_selectors : list pystr :=
  [lit "#publish_time"; lit "em.rich_media_meta.rich_media_meta_text";
   lit ".rich_media_meta_list em"].

(** What a field extractor [c] over [selectors] does in the world [w]: it
    returns a text and leaves the world alone; a text that is not empty is
    the stripped text of the first selector that gives one; and with a
    running driver, when some selector is the first to give a text, that
    text is returned. *)
Definition extracts_first {O : WeixinSpider.Outside}
    (selectors : list pystr) (self : WeixinSpider.Spider)
    (w : WeixinSpider.World) (c : Eff.M WeixinSpider.World pystr) : Prop :=
  exists t,
    c w = (Ok t, w) /\
    (t <> [] ->
     exists selector raw,
       first_match (WeixinSpider.outside w) selectors selector raw /\
       t = strip raw) /\
    (WeixinSpider._driver self = Some tt ->
     forall selector raw,
       first_match (WeixinSpider.outside w) selectors selector raw ->
       t = strip raw).

(** A page whose title element is blank and whose [#activity-name] holds
    the title; the other selectors find nothing. *)
Definition titled : WeixinSpider.Outside :=
  {| WeixinSpider.ext := unit;
     WeixinSpider.chrome_start := fun o => (Ok tt, o);
     WeixinSpider.set_page_load_timeout := fun _ o => (Ok tt, o);
     WeixinSpider.driver_get := fun _ o => (Ok tt, o);
     WeixinSpider.wait_js_content := fun _ o => (Ok tt, o);
     WeixinSpider.sleep := fun _ o => o;
     WeixinSpider.find_css_text := fun selector _ =>
       if str_eqb selector (lit "h1.rich_media_title") then Ok (lit "   ")
       else if str_eqb selector (lit "#activity-name") then Ok (lit " News ")
       else Raise (Exn NoSuchElementException (lit "no such element"));
     WeixinSpider.find_js_content := fun _ =>
       Raise (Exn NoSuchElementException (lit "no such element"));
     WeixinSpider.urlparse_error := fun _ => None;
     WeixinSpider.netloc := fun _ => lit "mp.weixin.qq.com";
     WeixinSpider.md5_hexdigest := fun _ => lit "0123456789abcdef";
     WeixinSpider.now_isoformat := fun _ => lit "2024-01-01T00:00:00";
     WeixinSpider.requests_get := fun _ o =>
       (Raise (Exn (OtherException (lit "ConnectionError") []) (lit "refused")), o);
     WeixinSpider.mkdir_parents := fun _ o => (Ok tt, o);
     WeixinSpider.write_file := fun _ _ o => (Ok tt, o) |}.

Definition titled_world : @WeixinSpider.World titled :=
  {| WeixinSpider.instance := Some running;
     WeixinSpider.outside := tt : @WeixinSpider.ext titled;
     WeixinSpider.log := [] |}.

(** The extensions a downloaded file can get. *)
Definition extensions : list pystr :=
  [lit ".jpg"; lit ".png"; lit ".gif"; lit ".webp"].

(** [im'] is [im] after the download loop: the same entry, with the local
    path it had or with the path of its file under [dir], named by its
    index. *)
Definition downloaded (dir : pystr) (im im' : image) : Prop :=
  index im' = index im /\ img_url im' = img_url im /\ alt im' = alt im /\
  (local_path im' = local_path im \/
   exists ext, In ext extensions /\
     local_path im'
     = Some (os_path_join dir (lit "image_" ++ format_03d (index im) ++ ext))).

(** The directory a download writes to: the one given, or the one named
    by the hash of the encoded address, which a surrogate in the address
    keeps from being computed. *)
Definition download_dir {O : WeixinSpider.Outside} (article_url : pystr)
    (output_dir : option pystr) : result pystr :=
  match output_dir with
  | Some d => Ok d
  | None =>
      rmap (fun data => lit "./downloads/"
                        ++ slice_to 8 (WeixinSpider.md5_hexdigest data))
        (encode article_url)
  end.

(** An address of the allow-list that ends with a lone surrogate. *)
Definition url_surrogate : pystr :=
  lit "https://mp.weixin.qq.com/s/" ++ [55296%N].

(** An entry without its local path. *)
Definition without_path (im : image) : image :=
  {| index := index im; img_url := img_url im; alt := alt im;
     local_path := None |}.

(** [l] is in the order of a ranking by [g]: the values of [g] decrease
    along [l], and the members of [l] that share a value of [g] are those
    of [input], in the order of [input]. *)
Definition ranked_by {A} (g : A -> Z) (input l : list A) : Prop :=
  StronglySorted (fun p q => g q <= g p) l /\
  forall k, filter (fun p => g p =? k) l = filter (fun p => g p =? k) input.

(** A site with a short text at [url_a] and a longer one elsewhere. *)
Definition site_two_texts : pystr -> result WeixinSpider.content_element :=
  fun u =>
    if str_eqb u url_a then Ok (container (lit "hi") [])
    else Ok (container (lit "hello") []).

(** A browser whose start raises [e]. *)
Definition failing_chrome (e : pyexn) : WeixinSpider.Outside :=
  {| WeixinSpider.ext := unit;
     WeixinSpider.chrome_start := fun o => (Raise e, o);
     WeixinSpider.set_page_load_timeout := fun _ o => (Ok tt, o);
     WeixinSpider.driver_get := fun _ o => (Ok tt, o);
     WeixinSpider.wait_js_content := fun _ o => (Ok tt, o);
     WeixinSpider.sleep := fun _ o => o;
     WeixinSpider.find_css_text := fun _ _ => Ok [];
     WeixinSpider.find_js_content := fun _ => Ok (container [] []);
     WeixinSpider.urlparse_error := fun _ => None;
     WeixinSpider.netloc := fun _ => lit "mp.weixin.qq.com";
     WeixinSpider.md5_hexdigest := fun _ => lit "0123456789abcdef";
     WeixinSpider.now_isoformat := fun _ => lit "2024-01-01T00:00:00";
     WeixinSpider.requests_get := fun _ o =>
       (Raise (Exn (OtherException (lit "ConnectionError") []) (lit "refused")), o);
     WeixinSpider.mkdir_parents := fun _ o => (Ok tt, o);
     WeixinSpider.write_file := fun _ _ o => (Ok tt, o) |}.

(** A browser that cannot be started. *)
Definition no_chrome : WeixinSpider.Outside :=
  failing_chrome (Exn (OtherException (lit "WebDriverException") [])
                      (lit "chrome not found")).

(** The driver manager cannot read the answer of the download site: a
    [JSONDecodeError], which derives from [ValueError]. *)
Definition manager_error : pyexn :=
  Exn (OtherException (lit "JSONDecodeError") [ValueError])
      (lit "Expecting value: line 1 column 1 (char 0)").

Definition failing_chrome_world (e : pyexn)
    : @WeixinSpider.World (failing_chrome e) :=
  {| WeixinSpider.instance := None;
     WeixinSpider.outside := tt : @WeixinSpider.ext (failing_chrome e);
     WeixinSpider.log := [] |}.

Definition no_chrome_world : @WeixinSpider.World no_chrome :=
  {| WeixinSpider.instance := None;
     WeixinSpider.outside := tt : @WeixinSpider.ext no_chrome;
     WeixinSpider.log := [] |}.

(** The four fixed words every command line of the agent-browser spider
    starts with. *)
Definition session_prefix {G : WeixinSpiderAB.Agent} : list pystr :=
  [WeixinSpiderAB.AGENT_BROWSER_BIN; lit "--session";
   WeixinSpiderAB._session_name; lit "--json"].

(** [runs_at_most n c]: whatever [c] does, it runs at most [n] commands,
    each on the session of the spider. *)
Definition runs_at_most {G : WeixinSpiderAB.Agent} {A} (n : nat)
    (c : Eff.M WeixinSpiderAB.World A) : Prop :=
  forall w r w', c w = (r, w') ->
    exists cmds,
      WeixinSpiderAB.log w' = WeixinSpiderAB.log w ++ cmds /\
      (List.length cmds <= n)%nat /\
      Forall (fun cmd => firstn 4 cmd = session_prefix) cmds.

(** What [_run_cmd] reports of a command that did not succeed. *)
Definition failure_output (c : WeixinSpiderAB.completion) : pystr :=
  match c with
  | WeixinSpiderAB.Completed _ _ stderr => strip stderr
  | WeixinSpiderAB.TimeoutExpired => lit "Timeout"
  | WeixinSpiderAB.Failed e => exn_str e
  end.

Definition succeeded_command (c : WeixinSpiderAB.completion) : bool :=
  match c with
  | WeixinSpiderAB.Completed rc _ _ => rc =? 0
  | _ => false
  end.

(** A binary that hangs on every command. *)
Definition ab_hangs : list pystr -> WeixinSpiderAB.completion :=
  fun _ => WeixinSpiderAB.TimeoutExpired.

(** A browser whose page never shows the content container. *)
Definition never_ready : WeixinSpider.Outside :=
  {| WeixinSpider.ext := unit;
     WeixinSpider.chrome_start := fun o => (Ok tt, o);
     WeixinSpider.set_page_load_timeout := fun _ o => (Ok tt, o);
     WeixinSpider.driver_get := fun _ o => (Ok tt, o);
     WeixinSpider.wait_js_content := fun _ o =>
       (Raise (Exn TimeoutException (lit "Message: ")), o);
     WeixinSpider.sleep := fun _ o => o;
     WeixinSpider.find_css_text := fun _ _ => Ok [];
     WeixinSpider.find_js_content := fun _ => Ok (container [] []);
     WeixinSpider.urlparse_error := fun _ => None;
     WeixinSpider.netloc := fun _ => lit "mp.weixin.qq.com";
     WeixinSpider.md5_hexdigest := fun _ => lit "0123456789abcdef";
     WeixinSpider.now_isoformat := fun _ => lit "2024-01-01T00:00:00";
     WeixinSpider.requests_get := fun _ o =>
       (Raise (Exn (OtherException (lit "ConnectionError") []) (lit "refused")), o);
     WeixinSpider.mkdir_parents := fun _ o => (Ok tt, o);
     WeixinSpider.write_file := fun _ _ o => (Ok tt, o) |}.

Definition never_ready_world : @WeixinSpider.World never_ready :=
  {| WeixinSpider.instance := Some running;
     WeixinSpider.outside := tt : @WeixinSpider.ext never_ready;
     WeixinSpider.log := [] |}.

(** An entry that was not downloaded, or whose file is [image_NNN] with a
    known extension under [dir]. *)
Definition stored_under (dir : pystr) (im : image) : Prop :=
  local_path im = None \/
  exists ext, In ext extensions /\
    local_path im
    = Some (os_path_join dir (lit "image_" ++ format_03d (index im) ++ ext)).

(** What a read of an attribute gave: a read that raised gave nothing. *)
Definition read_value (r : result (option pystr)) : option pystr :=
  match r with
  | Ok v => v
  | Raise _ => None
  end.

(** The attributes of an element of the page, as the driver reads them. *)
Definition attributes_of (el : WeixinSpider.img_element) : attributes :=
  (read_value (WeixinSpider.get_data_src el),
   read_value (WeixinSpider.get_src el),
   read_value (WeixinSpider.get_alt el)).

(** An element that gives no entry: it has no address, or an inline
    placeholder. *)
Definition is_skipped (a : attributes) : bool :=
  negb (is_kept (resolved_source a)).

(** [im], the entry at position [n] of the list, is the entry of the
    element at position [index im] of [page]: that element has the address
    of the entry, which is kept, and its position is [n] plus the number
    of elements skipped before it. *)
Definition at_position (page : list attributes) (n : nat) (im : image) : Prop :=
  exists q a,
    index im = Z.of_nat q /\
    nth_error page q = Some a /\
    resolved_source a = Some (img_url im) /\
    is_kept (Some (img_url im)) = true /\
    Z.of_nat q = Z.of_nat n + len (filter is_skipped (firstn q page)).

(** The command lines of the image extraction of the agent-browser
    spider: the count, and the [data-src] of the child [i + 1]. *)
Definition count_command {G : WeixinSpiderAB.Agent} : list pystr :=
  session_prefix ++ [lit "get"; lit "count"; lit "#js_content img"].

Definition attr_command {G : WeixinSpiderAB.Agent} (i : Z) : list pystr :=
  session_prefix
  ++ [lit "get"; lit "attr";
      lit "#js_content img:nth-child(" ++ str_of_int (i + 1) ++ lit ")";
      lit "data-src"].

(** The answers of the binary when asked, from the state [o] on and in
    this order, for the [data-src] of the children [i + 1] to [i + n]. *)
Fixpoint attr_answers {G : WeixinSpiderAB.Agent} (n : nat) (i : Z)
    (o : WeixinSpiderAB.ext) : list WeixinSpiderAB.completion :=
  match n with
  | O => []
  | S n' =>
      let (c, o') := WeixinSpiderAB.subprocess_run (attr_command i) 60 o in
      c :: attr_answers n' (i + 1) o'
  end.

(** The address an answer reports: the string under [value] of the object
    printed by a command that succeeded, or the string printed; nothing
    when the command failed or printed something else. *)
Definition reported {G : WeixinSpiderAB.Agent} (c : WeixinSpiderAB.completion)
    : option pystr :=
  match c with
  | WeixinSpiderAB.Completed rc stdout _ =>
      if rc =? 0 then
        let result := WeixinSpiderAB._parse_json (strip stdout) in
        match (if has_key "value" result
               then match getitem result "value" with
                    | Ok v => v
                    | Raise _ => JStr []
                    end
               else match result with
                    | JStr s => JStr s
                    | _ => JStr []
                    end) with
        | JStr s => Some s
        | _ => None
        end
      else None
  | _ => None
  end.

(** The number of children the extraction asks about, from the answer to
    the count: [min(count, 20)], and none when the count failed. *)
Definition asked_children {G : WeixinSpiderAB.Agent}
    (c : WeixinSpiderAB.completion) : nat :=
  match c with
  | WeixinSpiderAB.Completed rc stdout _ =>
      if rc =? 0 then
        match WeixinSpiderAB.rounds
                (WeixinSpiderAB.count_of
                   (WeixinSpiderAB._parse_json (strip stdout))) with
        | Ok n => Z.to_nat n
        | Raise _ => O
        end
      else O
  | _ => O
  end.

(** The page as the binary shows it to an extraction that starts in the
    state [o]: the [data-src] it reports for each child asked about; the
    other attributes are not asked for. *)
Definition asked_page {G : WeixinSpiderAB.Agent} (o : WeixinSpiderAB.ext)
    : list attributes :=
  let (c, o') := WeixinSpiderAB.subprocess_run count_command 60 o in
  map (fun a => (reported a, None, None))
    (attr_answers (asked_children c) 0 o').

(** The directory the tool passes to a crawl that downloads: the one named
    by the label under the output root, when the label is not empty. *)
Definition label_dir {C : Server.Config} (custom_filename : option pystr)
    : option pystr :=
  match custom_filename with
  | Some (c :: name) =>
      Some (os_path_join Server.OUTPUT_DIR (Server.sanitize_path (c :: name)))
  | _ => None
  end.

(** Whether an event is the fetch of an image. *)
Definition is_fetch (ev : WeixinSpider.event) : bool :=
  match ev with
  | WeixinSpider.EvHttpGet _ => true
  | _ => false
  end.

(** The world a crawl reads the page in: the one left by the navigation,
    the wait and the pause. *)
Definition loaded {O : WeixinSpider.Outside} (w : WeixinSpider.World)
    (u : pystr) (o2 : WeixinSpider.ext) : WeixinSpider.World :=
  {| WeixinSpider.instance := WeixinSpider.instance w;
     WeixinSpider.outside :=
       WeixinSpider.sleep WeixinSpider.DYNAMIC_CONTENT_WAIT o2;
     WeixinSpider.log :=
       ((WeixinSpider.log w ++ [WeixinSpider.EvGet u])
        ++ [WeixinSpider.EvWait]) ++ [WeixinSpider.EvSleep] |}.

(** The message of the [ValueError] that refuses the address [u]: the one
    of [urlparse] when it raises ([parse_error] holds it), the one of
    [crawl] otherwise. *)
Definition rejection_message (parse_error : option pystr) (u : pystr) : pystr :=
  match parse_error with
  | Some message => message
  | None => lit "Invalid WeChat article URL: " ++ u
  end.

(** An address outside the allow-list of the scripted backends. *)
Definition url_foreign : pystr := lit "https://example.com/s/a".

(** An address [urlparse] refuses: the bracket of its host is not closed. *)
Definition url_bracket : pystr := lit "https://[mp.weixin.qq.com/s/a".

(** *** The outcomes of a comparison *)

Section Outcomes.
Context {O : WeixinSpider.Outside} {RE : Regex} {C : Server.Config}.

(** What the [try] block of the loop of [compare_articles] does for one
    address: the crawl and the analysis, with the exception if one is
    raised. *)
Definition attempt_url (spider : WeixinSpider.Spider) (u : pystr)
    : Eff.M WeixinSpider.World (result (ArticleContent * json)) :=
  Eff.attempt
    (Eff.bind (WeixinSpider.crawl spider u false None Server.WAIT_TIME)
       (fun article =>
          Eff.bind (Eff.lift (WeixinSpider.analyze_article article))
            (fun analysis => Eff.ret (article, analysis)))).

(** The addresses in order, each with its outcome. *)
Fixpoint attempts (spider : WeixinSpider.Spider) (urls : list pystr)
    : Eff.M WeixinSpider.World
        (list (pystr * result (ArticleContent * json))) :=
  match urls with
  | [] => Eff.ret []
  | u :: rest =>
      Eff.bind (attempt_url spider u) (fun r =>
      Eff.bind (attempts spider rest) (fun rs => Eff.ret ((u, r) :: rs)))
  end.

(** The entry of a successful address. *)
Definition success_entry (p : ArticleContent * json) : json :=
  JDict [("summary", WeixinSpider.summarize_article (fst p));
         ("analysis", snd p)]%string.

(** The entry of a failing address, keyed by the address. *)
Definition error_entry (u : pystr) (e : pyexn) : json :=
  JDict [("url", JStr u); ("error", JStr (exn_str e))]%string.

Definition entry_of (o : pystr * result (ArticleContent * json)) : json :=
  match o with
  | (_, Ok p) => success_entry p
  | (u, Raise e) => error_entry u e
  end.

(** The successful outcomes, in order. *)
Fixpoint succeeded (outs : list (pystr * result (ArticleContent * json)))
    : list (ArticleContent * json) :=
  match outs with
  | [] => []
  | (_, Ok p) :: rest => p :: succeeded rest
  | (_, Raise _) :: rest => succeeded rest
  end.

(** What holds of every successful outcome: the analysis is that of the
    article, whose word count is the length of its text. *)
Definition sound (p : ArticleContent * json) : Prop :=
  WeixinSpider.analyze_article (fst p) = Ok (snd p) /\
  word_count (fst p) = len (content_text (fst p)).

(** What the [try] block of the loop of [batch_crawl_articles] does for
    one address: the crawl, with the exception if one is raised. *)
Definition batch_attempt_url (spider : WeixinSpider.Spider)
    (download_images : bool) (u : pystr)
    : Eff.M WeixinSpider.World (result ArticleContent) :=
  Eff.attempt
    (WeixinSpider.crawl spider u download_images None Server.WAIT_TIME).

(** The addresses in order, each with the outcome of its crawl in the
    world the crawls before it left. *)
Fixpoint batch_attempts (spider : WeixinSpider.Spider) (download_images : bool)
    (urls : list pystr)
    : Eff.M WeixinSpider.World (list (pystr * result ArticleContent)) :=
  match urls with
  | [] => Eff.ret []
  | u :: rest =>
      Eff.bind (batch_attempt_url spider download_images u) (fun r =>
      Eff.bind (batch_attempts spider download_images rest) (fun rs =>
      Eff.ret ((u, r) :: rs)))
  end.

(** The articles of the crawls that returned, in order. *)
Fixpoint crawled (outs : list (pystr * result ArticleContent))
    : list ArticleContent :=
  match outs with
  | [] => []
  | (_, Ok a) :: rest => a :: crawled rest
  | (_, Raise _) :: rest => crawled rest
  end.

(** The addresses whose crawl raised, each with its exception, in order. *)
Fixpoint failed (outs : list (pystr * result ArticleContent))
    : list (pystr * pyexn) :=
  match outs with
  | [] => []
  | (_, Ok _) :: rest => failed rest
  | (u, Raise e) :: rest => (u, e) :: failed rest
  end.

(** What [crawl_weixin_article] reports of an exception: [except
    ValueError] comes first and names the class itself, so an exception of
    a class that derives from [ValueError] is reported as a [ValueError]. *)
Definition crawl_error_report (e : pyexn) : json :=
  JDict [("error", JStr (exn_str e));
         ("type", JStr (if isinstance e ValueError then lit "ValueError"
                        else class_name (exn_type e)))]%string.

End Outcomes.

(** *** A scripted agent-browser *)

Fixpoint parse_digits (s : pystr) (acc : Z) : option Z :=
  match s with
  | [] => Some acc
  | c :: s' =>
      if ((48 <=? c) && (c <=? 57))%N
      then parse_digits s' (10 * acc + (Z.of_N c - 48))
      else None
  end.

(** [json.loads] on the three kinds of document the scripted binary
    prints: [null], a non-negative integer, and a string without escapes. *)
Definition loads_simple (s : pystr) : option json :=
  match s with
  | [] => None
  | 34%N :: rest =>
      match rev rest with
      | 34%N :: body =>
          if existsb (fun c => (c =? 34) || (c =? 92))%N body then None
          else Some (JStr (rev body))
      | _ => None
      end
  | _ =>
      if str_eqb s (lit "null") then Some JNull
      else option_map JInt (parse_digits s 0)
  end.

(** Whether the arguments of a command start with the given words. *)
Fixpoint is_cmd (words : list string) (args : list pystr) : bool :=
  match words, args with
  | [], _ => true
  | w :: words', a :: args' => str_eqb (lit w) a && is_cmd words' args'
  | _ :: _, [] => false
  end.

(** An agent-browser that answers a command by [answers], given the
    arguments after the four fixed words of the command line. *)
Definition scripted_agent (answers : list pystr -> WeixinSpiderAB.completion)
    : WeixinSpiderAB.Agent :=
  {| WeixinSpiderAB.ext := unit;
     WeixinSpiderAB.AGENT_BROWSER_BIN := lit "agent-browser";
     WeixinSpiderAB.BROWSER_STATE_FILE := [];
     WeixinSpiderAB.subprocess_run := fun cmd _ o => (answers (skipn 4 cmd), o);
     WeixinSpiderAB.json_loads := loads_simple;
     WeixinSpiderAB.urlparse_error := fun u =>
       if startswith (lit "https://[") u
       then Some (lit "Invalid IPv6 URL") else None;
     WeixinSpiderAB.netloc := fun u =>
       if startswith host_prefix u then lit "mp.weixin.qq.com" else [];
     WeixinSpiderAB.now_isoformat := fun _ => lit "2024-01-01T00:00:00";
     WeixinSpiderAB.path_exists := fun _ _ => false |}.

Definition done (stdout : pystr) : WeixinSpiderAB.completion :=
  WeixinSpiderAB.Completed 0 stdout [].

Definition not_found : WeixinSpiderAB.completion :=
  WeixinSpiderAB.Completed 1 [] (lit "element not found").

Definition quoted (s : pystr) : pystr := [34%N] ++ s ++ [34%N].

(** A page with [n] images under the container; [data_src i] is what the
    binary prints for the [data-src] of the child [i] (counted from 1).
    The text of every element is [text]. *)
Definition ab_page (text : pystr) (n : Z) (data_src : pystr -> pystr)
    : list pystr -> WeixinSpiderAB.completion :=
  fun args =>
    if is_cmd ["get"; "count"]%string args then done (str_of_int n)
    else if is_cmd ["get"; "attr"]%string args
    then done (data_src (nth 2 args []))
    else if is_cmd ["get"; "text"]%string args then done text
    else if is_cmd ["get"; "html"]%string args then done text
    else done [].

(** Every image is lazily loaded. *)
Definition all_lazy : pystr -> pystr := fun _ => quoted (png "p.png").

(** The first child has no [data-src] (the binary prints [null]), the
    others are lazily loaded. *)
Definition first_plain : pystr -> pystr :=
  fun selector =>
    if str_eqb selector (lit "#js_content img:nth-child(1)")
    then lit "null" else quoted (png "p.png").

(** The challenge page: the body text holds the first marker. *)
Definition challenge_text : pystr :=
  lit "Notice " ++ WeixinSpiderAB.marker_environment ++ lit " please verify".

(** A binary that cannot open the page. *)
Definition ab_down : list pystr -> WeixinSpiderAB.completion :=
  fun args =>
    if is_cmd ["open"]%string args
    then WeixinSpiderAB.Completed 1 [] (lit "net::ERR_CONNECTION_RESET")
    else done [].

Definition ab_world (answers : list pystr -> WeixinSpiderAB.completion)
    : @WeixinSpiderAB.World (scripted_agent answers) :=
  {| WeixinSpiderAB._state_loaded := false;
     WeixinSpiderAB.outside := tt : @WeixinSpiderAB.ext (scripted_agent answers);
     WeixinSpiderAB.log := [] |}.

End Sample.

(** * Properties *)

(** ** Lists and strings *)

Section ListFacts.
Import Py.

Lemma len_nonneg {A} (l : list A) : 0 <= len l.
Proof. unfold len. lia. Qed.

Lemma len_app {A} (l1 l2 : list A) : len (l1 ++ l2) = len l1 + len l2.
Proof. unfold len. rewrite length_app. lia. Qed.

Lemma len_slice_to {A} (n : nat) (l : list A) :
  len (slice_to n l) = Z.min (Z.of_nat n) (len l).
Proof. unfold len, slice_to. rewrite length_firstn. lia. Qed.

Lemma slice_to_all {A} (n : nat) (l : list A) :
  len l <= Z.of_nat n -> slice_to n l = l.
Proof. unfold len, slice_to. intros H. apply firstn_all2. lia. Qed.

Lemma In_slice_to {A} (n : nat) (l : list A) x :
  In x (slice_to n l) -> In x l.
Proof.
  unfold slice_to. intros H.
  rewrite <- (firstn_skipn n l). apply in_or_app. now left.
Qed.

(** What a substitution over a character class keeps and what it writes. *)
Lemma In_re_sub_class cls repl s c :
  In c (re_sub_class cls repl s) ->
  (In c s /\ cls c = false) \/ In c repl.
Proof.
  induction s as [|x s IH]; simpl; [tauto|].
  intros H. apply in_app_or in H. destruct H as [H|H].
  - destruct (cls x) eqn:E; [now right|].
    destruct H as [<-|[]]. left. auto.
  - destruct (IH H) as [[? ?]|?]; [left|right]; auto.
Qed.

Lemma re_sub_class_delete_all cls s :
  (forall c, In c s -> cls c = true) -> re_sub_class cls [] s = [].
Proof.
  induction s as [|x s IH]; simpl; intros H; [reflexivity|].
  rewrite (H x (or_introl eq_refl)). simpl. apply IH. auto.
Qed.

Lemma re_sub_class_keep_all cls repl s :
  (forall c, In c s -> cls c = false) -> re_sub_class cls repl s = s.
Proof.
  induction s as [|x s IH]; simpl; intros H; [reflexivity|].
  rewrite (H x (or_introl eq_refl)). simpl. f_equal. apply IH. auto.
Qed.

End ListFacts.

(** ** The output directory label *)

Section SanitizePath.
Import Py Server Sample.

Lemma is_safe_not_separator c : is_safe c = true -> is_separator c = false.
Proof.
  unfold is_safe, is_separator. intros H.
  destruct (N.eqb_spec c 46) as [->|]; [discriminate H|].
  destruct (N.eqb_spec c 47) as [->|]; [discriminate H|].
  destruct (N.eqb_spec c 92) as [->|]; [discriminate H|].
  reflexivity.
Qed.

Lemma sanitize_path_chars name c :
  In c (sanitize_path name) -> is_safe c = true.
Proof.
  unfold sanitize_path.
  set (s1 := re_sub_class is_separator (lit "_") name).
  destruct (re_sub_class _ [] s1) as [|x s2] eqn:E.
  - vm_compute. intros H.
    repeat (destruct H as [<-|H]; [reflexivity|]). destruct H.
  - intros H. apply In_slice_to in H. rewrite <- E in H.
    apply In_re_sub_class in H. destruct H as [[_ H]|[]].
    now apply negb_false_iff in H.
Qed.

(** C2, as the code has it: the result of [sanitize_path] is made of ASCII
    letters, digits, [_] and [-] only (so it holds no dot, slash or
    backslash), it is never empty and never longer than 100; the label
    [../../etc/passwd] gives [______etc_passwd]; and the placeholder
    [unnamed] is returned for every label without a letter, digit, [_],
    [-], dot, slash or backslash (a dot, slash or backslash is written as an
    underscore, not dropped). *)
Theorem sanitize_path_spec (name : pystr) :
  sanitize_path (lit "../../etc/passwd") = lit "______etc_passwd" /\
  (forall c, In c (sanitize_path name) ->
     is_safe c = true /\ c <> 46%N /\ c <> 47%N /\ c <> 92%N) /\
  sanitize_path name <> [] /\
  len (sanitize_path name) <= 100 /\
  ((forall c, In c name -> is_safe c = false /\ is_separator c = false) ->
   sanitize_path name = lit "unnamed").
Proof.
  split; [reflexivity|]. split; [|split; [|split]].
  - intros c H. apply sanitize_path_chars in H. split; [exact H|].
    apply is_safe_not_separator in H. unfold is_separator in H.
    repeat split; intros ->; discriminate H.
  - unfold sanitize_path.
    destruct (re_sub_class _ [] _) as [|x s]; [discriminate|].
    simpl. discriminate.
  - unfold sanitize_path.
    destruct (re_sub_class _ [] _) as [|x s]; [vm_compute; discriminate|].
    rewrite len_slice_to. lia.
  - intros H. unfold sanitize_path.
    rewrite (re_sub_class_keep_all is_separator), re_sub_class_delete_all.
    + reflexivity.
    + intros c Hc. now rewrite (proj1 (H c Hc)).
    + intros c Hc. exact (proj2 (H c Hc)).
Qed.

Lemma sanitize_path_spec_witness :
  sanitize_path (lit "!?  *") = lit "unnamed".
Proof.
  apply (sanitize_path_spec (lit "!?  *")).
  intros c H. vm_compute in H.
  repeat (destruct H as [<-|H]; [split; reflexivity|]). destruct H.
Defined.

(** C2 as stated fails: a label of dots and slashes has no alphanumeric
    character and is not mapped to the placeholder. *)
Lemma sanitize_path_punctuation_counterexample :
  ~ (forall name,
       (forall c, In c name -> is_alphanumeric c = false) ->
       sanitize_path name = lit "unnamed").
Proof.
  intros H. specialize (H (lit "../..")).
  assert (E : sanitize_path (lit "../..") = lit "_____") by reflexivity.
  rewrite E in H. discriminate H.
  intros c Hc. vm_compute in Hc.
  repeat (destruct Hc as [<-|Hc]; [reflexivity|]). destruct Hc.
Qed.

End SanitizePath.

(** ** Floats: the quotient of two integers is a number *)

Section FloatFacts.
Import Py Sample.

Lemma digits2_pos_size p : digits2_pos p = Pos.size p.
Proof. induction p; simpl; congruence. Qed.

Lemma Zdigits2_log2 m : 0 < m -> Zdigits2 m = Z.log2 m + 1.
Proof.
  destruct m as [|p|p]; try lia. intros _. simpl.
  rewrite digits2_pos_size. destruct p; simpl; lia.
Qed.

Lemma Zdigits2_nonneg m : 0 <= Zdigits2 m.
Proof. destruct m; simpl; lia. Qed.

Lemma Zdigits2_le a b : 0 <= a <= b -> Zdigits2 a <= Zdigits2 b.
Proof.
  intros [Ha Hab].
  destruct (Z.eq_dec a 0) as [->|Hn]; [apply Zdigits2_nonneg|].
  rewrite !Zdigits2_log2 by lia.
  pose proof (Z.log2_le_mono a b Hab). lia.
Qed.

Lemma Zdigits2_bound m k : 0 <= k -> 0 <= m < 2 ^ k -> Zdigits2 m <= k.
Proof.
  intros Hk [H0 H].
  destruct (Z.eq_dec m 0) as [->|Hn]; [simpl; lia|].
  rewrite Zdigits2_log2 by lia.
  assert (Z.log2 m < k) by (apply Z.log2_lt_pow2; lia). lia.
Qed.

Lemma shr_1_bound mrs : 0 <= shr_m mrs -> 0 <= shr_m (shr_1 mrs) <= shr_m mrs.
Proof.
  destruct mrs as [m r s]. simpl. intros H.
  destruct m as [|[p|p|]|p]; simpl; lia.
Qed.

Lemma iter_pos_shr_1_bound n mrs :
  0 <= shr_m mrs -> 0 <= shr_m (iter_pos shr_1 n mrs) <= shr_m mrs.
Proof.
  revert mrs. induction n as [n IH|n IH|]; intros mrs H; simpl.
  - pose proof (shr_1_bound mrs H) as H1.
    pose proof (IH _ (proj1 H1)) as H2.
    pose proof (IH _ (proj1 H2)) as H3. lia.
  - pose proof (IH _ H) as H2.
    pose proof (IH _ (proj1 H2)) as H3. lia.
  - apply shr_1_bound, H.
Qed.

Lemma shr_m_of_loc m l : shr_m (shr_record_of_loc m l) = m.
Proof. destruct l as [|[]]; reflexivity. Qed.

Lemma fexp_binary64 e : fexp prec emax e = Z.max (e - 53) (-1074).
Proof. reflexivity. Qed.

(** One shift to the canonical exponent: the mantissa does not grow, the
    exponent is the old one or the canonical one. *)
Lemma shr_fexp_bound m e l mrs e' :
  0 <= m ->
  shr_fexp prec emax m e l = (mrs, e') ->
  0 <= shr_m mrs <= m /\ e' <= Z.max e (Z.max (Zdigits2 m + e - 53) (-1074)).
Proof.
  intros Hm. unfold shr_fexp, shr. rewrite fexp_binary64.
  destruct (Z.max _ _ - e) as [|n|n] eqn:E; intros [= <- <-].
  - rewrite shr_m_of_loc. lia.
  - pose proof (iter_pos_shr_1_bound n (shr_record_of_loc m l)) as H.
    rewrite shr_m_of_loc in H. split; [apply H, Hm|lia].
  - rewrite shr_m_of_loc. lia.
Qed.

Lemma round_nearest_even_bound m l :
  0 <= m -> 0 <= round_nearest_even m l <= m + 1.
Proof.
  intros H. unfold round_nearest_even.
  destruct l as [|[]]; try lia. destruct (Z.even m); lia.
Qed.

(** Rounding a mantissa of at most 400 bits with a small exponent stays far
    below the largest exponent of a binary64. *)
Lemma binary_round_aux_finite s m e l :
  0 <= m -> Zdigits2 m <= 400 -> e <= 100 ->
  is_finite (binary_round_aux prec emax s m e l) = true.
Proof.
  intros Hm Hd He. unfold binary_round_aux.
  destruct (shr_fexp prec emax m e l) as [mrs1 e1] eqn:E1.
  apply shr_fexp_bound in E1; [|exact Hm]. destruct E1 as [Hm1 He1].
  pose proof (round_nearest_even_bound (shr_m mrs1) (loc_of_shr_record mrs1)
                (proj1 Hm1)) as Hr.
  set (m2 := round_nearest_even _ _) in *.
  destruct (shr_fexp prec emax m2 e1 loc_Exact) as [mrs2 e2] eqn:E2.
  apply shr_fexp_bound in E2; [|lia]. destruct E2 as [Hm2 He2].
  assert (Hd2 : Zdigits2 m2 <= 401).
  { apply Zdigits2_bound; [lia|].
    assert (Zdigits2 (shr_m mrs1) <= 400)
      by (etransitivity; [apply Zdigits2_le|exact Hd]; lia).
    destruct (Z.eq_dec (shr_m mrs1) 0) as [E0|Hn].
    - rewrite E0 in Hr. split; [lia|].
      assert (2 ^ 1 <= 2 ^ 401) by (apply Z.pow_le_mono_r; lia). lia.
    - rewrite Zdigits2_log2 in H by lia.
      assert (shr_m mrs1 < 2 ^ 400).
      { apply Z.log2_lt_pow2; lia. }
      replace (2 ^ 401) with (2 * 2 ^ 400)
        by (rewrite <- Z.pow_succ_r; [f_equal|]; lia).
      lia. }
  destruct (shr_m mrs2) as [|p|p] eqn:Ep; [reflexivity| |lia].
  replace (e2 <=? emax - prec) with true; [reflexivity|].
  symmetry. apply Z.leb_le. unfold emax, prec. lia.
Qed.

Lemma SFdiv_finite sx sy p q :
  Zpos p < 2 ^ 100 -> Zpos q < 2 ^ 100 ->
  is_finite (SFdiv prec emax (S754_finite sx p 0) (S754_finite sy q 0)) = true.
Proof.
  intros Hp Hq. unfold SFdiv, SFdiv_core_binary.
  rewrite fexp_binary64.
  assert (Hdp : 1 <= Zdigits2 (Zpos p) <= 100).
  { split; [simpl; lia|apply Zdigits2_bound; lia]. }
  assert (Hdq : 1 <= Zdigits2 (Zpos q) <= 100).
  { split; [simpl; lia|apply Zdigits2_bound; lia]. }
  set (e' := Z.min _ _).
  assert (He' : -152 <= e' <= 0) by (unfold e'; lia).
  set (m' := match 0 - 0 - e' with Z0 => Zpos p | Zpos _ => _ | Zneg _ => _ end).
  assert (Hm' : 0 <= m' < 2 ^ 252).
  { unfold m'. destruct (0 - 0 - e') as [|n|n] eqn:En.
    - split; [lia|].
      assert (2 ^ 100 <= 2 ^ 252) by (apply Z.pow_le_mono_r; lia). lia.
    - rewrite Z.shiftl_mul_pow2 by lia. split; [lia|].
      assert (2 ^ Zpos n <= 2 ^ 152) by (apply Z.pow_le_mono_r; lia).
      replace (2 ^ 252) with (2 ^ 100 * 2 ^ 152)
        by (rewrite <- Z.pow_add_r; [f_equal|..]; lia).
      assert (0 < 2 ^ Zpos n) by (apply Z.pow_pos_nonneg; lia). nia.
    - lia. }
  clearbody m' e'.
  destruct (Z.div_eucl m' (Zpos q)) as [qq r] eqn:Ed.
  assert (Hqq : qq = m' / Zpos q) by (unfold Z.div; now rewrite Ed).
  assert (0 <= qq <= m').
  { subst qq. split; [apply Z.div_pos; lia|].
    apply Z.div_le_upper_bound; nia. }
  apply binary_round_aux_finite; [lia| |lia].
  transitivity 252; [|lia]. apply Zdigits2_bound; lia.
Qed.

(** The true division of a non-negative integer by a positive one, both
    below [2^100], returns a number. *)
Lemma truediv_ok a b :
  0 <= a < 2 ^ 100 -> 0 < b < 2 ^ 100 ->
  exists q, truediv a b = Ok q /\ is_finite q = true.
Proof.
  intros Ha Hb. unfold truediv.
  destruct (Z.eqb_spec b 0) as [->|_]; [lia|].
  destruct b as [|q|q]; try lia.
  destruct a as [|p|p]; try lia.
  - simpl. eexists; split; reflexivity.
  - unfold int_quot.
    pose proof (SFdiv_finite false false p q (proj2 Ha) (proj2 Hb)) as H.
    destruct (SFdiv _ _ _ _) as [s|s| |s m e] eqn:E; try discriminate H;
      eexists; split; reflexivity.
Qed.

End FloatFacts.

(** ** Summary and analysis *)

Section SummaryAnalysis.
Import Py Json Article Sample.

(** C5: in both spider classes the [first_300_chars] of the summary is the
    text itself when the text has at most 300 characters, the first 300
    characters followed by ["..."] when it has more, and so never longer
    than 303. *)
Theorem summarize_first_300_chars (article : ArticleContent) :
  exists preview,
    getitem (WeixinSpider.summarize_article article) "first_300_chars"
      = Ok (JStr preview) /\
    getitem (WeixinSpiderAB.summarize_article article) "first_300_chars"
      = Ok (JStr preview) /\
    (len (content_text article) <= 300 -> preview = content_text article) /\
    (len (content_text article) > 300 ->
     preview = slice_to 300 (content_text article) ++ lit "...") /\
    len preview <= 303.
Proof.
  exists (Stats.first_300_chars article).
  split; [reflexivity|]. split; [reflexivity|].
  unfold Stats.first_300_chars.
  destruct (Z.gtb_spec (len (content_text article)) 300) as [Hgt|Hle].
  - split; [lia|]. split; [reflexivity|].
    rewrite len_app, len_slice_to. change (len (lit "...")) with 3. lia.
  - split; [reflexivity|]. split; lia.
Qed.

Lemma summarize_first_300_chars_witness :
  exists preview,
    getitem (WeixinSpider.summarize_article (article_of_length 301))
      "first_300_chars" = Ok (JStr preview) /\
    preview = repeat 97%N 300 ++ lit "...".
Proof.
  destruct (summarize_first_300_chars (article_of_length 301))
    as (preview & H1 & _ & _ & Hlong & _).
  exists preview. split; [exact H1|].
  apply Hlong. reflexivity.
Defined.

(** C6: in both spider classes the [estimated_read_time_minutes] of the
    analysis is [round(word_count / 200, 1)]: the analysis raises exactly
    when the division does, and otherwise holds the quotient rounded to
    one place; for a word count that is the length of a string (below
    [2^63]) the division returns a number. *)
Theorem analyze_read_time {RE : Regex} (article : ArticleContent) :
  rbind (WeixinSpider.analyze_article article)
        (fun d => getitem d "estimated_read_time_minutes")
    = rmap (fun q => JFloat (round1 q)) (truediv (word_count article) 200) /\
  rbind (WeixinSpiderAB.analyze_article article)
        (fun d => getitem d "estimated_read_time_minutes")
    = rmap (fun q => JFloat (round1 q)) (truediv (word_count article) 200) /\
  (0 <= word_count article < 2 ^ 63 ->
   exists q, truediv (word_count article) 200 = Ok q /\ is_finite q = true).
Proof.
  split; [|split].
  - unfold WeixinSpider.analyze_article, Stats.analyze_article.
    change WeixinSpider.READING_SPEED_CPM with 200.
    destruct (truediv (word_count article) 200); reflexivity.
  - unfold WeixinSpiderAB.analyze_article, Stats.analyze_article.
    change WeixinSpiderAB.READING_SPEED_CPM with 200.
    destruct (truediv (word_count article) 200); reflexivity.
  - intros H. apply truediv_ok; [|lia].
    assert (2 ^ 63 <= 2 ^ 100) by (apply Z.pow_le_mono_r; lia). lia.
Qed.

(** 1234 characters read in 6.2 minutes. *)
Lemma analyze_read_time_witness :
  rbind (@WeixinSpider.analyze_article plain_text_re (article_of_length 1234))
        (fun d => getitem d "estimated_read_time_minutes")
    = Ok (JFloat (S754_finite false 6980579422424269 (-50))) /\
  exists q, truediv 1234 200 = Ok q /\ is_finite q = true.
Proof.
  destruct (@analyze_read_time plain_text_re (article_of_length 1234))
    as (H1 & _ & H3).
  split; [rewrite H1; reflexivity|].
  apply H3. vm_compute. split; [discriminate|reflexivity].
Defined.

End SummaryAnalysis.

(** ** Reasoning on computations *)

Section EffFacts.
Import Py Eff.
Context {W : Type}.

Lemma bind_inv {A B} (c : M W A) (k : A -> M W B) w r w' :
  bind c k w = (r, w') ->
  (exists e, c w = (Raise e, w') /\ r = Raise e) \/
  (exists a w1, c w = (Ok a, w1) /\ k a w1 = (r, w')).
Proof.
  unfold bind. destruct (c w) as [[e|a] w1].
  - intros [= <- <-]. left. eauto.
  - intros H. right. eauto.
Qed.

Lemma bind_ok {A B} (c : M W A) (k : A -> M W B) w b w' :
  bind c k w = (Ok b, w') ->
  exists a w1, c w = (Ok a, w1) /\ k a w1 = (Ok b, w').
Proof.
  intros H. apply bind_inv in H.
  destruct H as [(e & _ & [=])|H]. exact H.
Qed.

Lemma returns_ret {A} (a : A) (Q : A -> Prop) : Q a -> returns (ret a : M W A) Q.
Proof. intros H w a' w' [= <- _]. exact H. Qed.

Lemma returns_raise {A} e (Q : A -> Prop) : returns (raise e : M W A) Q.
Proof. intros w a w' [=]. Qed.

Lemma returns_bind {A B} (c : M W A) (k : A -> M W B) P Q :
  returns c P -> (forall a, P a -> returns (k a) Q) -> returns (bind c k) Q.
Proof.
  intros Hc Hk w b w' H. apply bind_ok in H.
  destruct H as (a & w1 & H1 & H2). eapply Hk; eauto.
Qed.

Lemma returns_try_except {A} (c : M W A) h (Q : A -> Prop) :
  returns c Q -> (forall e, returns (h e) Q) -> returns (try_except c h) Q.
Proof.
  intros Hc Hh w a w'. unfold try_except.
  destruct (c w) as [[e|a1] w1] eqn:E.
  - apply Hh.
  - intros [= <- <-]. eapply Hc, E.
Qed.

Lemma returns_weaken {A} (c : M W A) (P Q : A -> Prop) :
  returns c P -> (forall a, P a -> Q a) -> returns c Q.
Proof. intros H HPQ w a w' E. eapply HPQ, H, E. Qed.

Lemma returns_any {A} (c : M W A) : returns c (fun _ => True).
Proof. intros w a w' _. exact I. Qed.

End EffFacts.

(** ** The indexes of the image entries *)

Section ImageIndexes.
Import Py Json Article Eff Sample.

Lemma increasing_within_nil lo hi : increasing_within lo hi [].
Proof. split; constructor. Qed.

Lemma StronglySorted_snoc (l : list Z) x :
  StronglySorted Z.lt l -> Forall (fun k => k < x) l ->
  StronglySorted Z.lt (l ++ [x]).
Proof.
  induction 1 as [|y l Hs IH Hy]; intros Hx; simpl.
  - repeat constructor.
  - inversion Hx as [|? ? Hyx Hl]; subst. constructor; [auto|].
    apply Forall_app. split; [exact Hy|]. constructor; [exact Hyx|constructor].
Qed.

Lemma increasing_within_snoc lo i l :
  lo <= i -> increasing_within lo i l -> increasing_within lo (i + 1) (l ++ [i]).
Proof.
  intros Hi [Hs Hb]. split.
  - apply StronglySorted_snoc; [exact Hs|].
    eapply Forall_impl; [|exact Hb]. simpl. intros; lia.
  - apply Forall_app. split.
    + eapply Forall_impl; [|exact Hb]. simpl. intros; lia.
    + constructor; [lia|constructor].
Qed.

Lemma increasing_within_grow lo i j l :
  i <= j -> increasing_within lo i l -> increasing_within lo j l.
Proof.
  intros Hij [Hs Hb]. split; [exact Hs|].
  eapply Forall_impl; [|exact Hb]. simpl. intros; lia.
Qed.

(** A strictly increasing list of integers from [lo] on has its member at
    position [n] at least [lo + n]. *)
Lemma increasing_nth_ge lo hi l :
  increasing_within lo hi l ->
  forall n k, nth_error l n = Some k -> lo + Z.of_nat n <= k < hi.
Proof.
  revert lo. induction l as [|x l IH]; intros lo [Hs Hb] n k Hn.
  - destruct n; discriminate Hn.
  - inversion Hs as [|? ? Hs' Hx]; subst.
    inversion Hb as [|? ? Hbx Hb']; subst.
    destruct n as [|n]; simpl in Hn.
    + injection Hn as <-. lia.
    + assert (H : increasing_within (x + 1) hi l).
      { split; [exact Hs'|]. rewrite Forall_forall in *.
        intros y Hy. specialize (Hx y Hy). specialize (Hb' y Hy). lia. }
      specialize (IH _ H n k Hn). lia.
Qed.

(** The loop of the Selenium extractor writes the position of the element
    as index. *)
Lemma selenium_collect_increasing imgs : forall i acc,
  0 <= i -> increasing_within 0 i (indexes acc) ->
  increasing_within 0 (i + len imgs)
    (indexes (WeixinSpider.collect_images i imgs acc)).
Proof.
  induction imgs as [|im imgs IH]; intros i acc Hi Hacc; simpl.
  - eapply increasing_within_grow; [|exact Hacc]. unfold len; simpl; lia.
  - assert (Hlen : i + len (im :: imgs) = (i + 1) + len imgs)
      by (unfold len; simpl List.length; lia).
    rewrite Hlen.
    destruct (WeixinSpider.image_entry i im) as [e|[entry|]] eqn:E.
    + eapply increasing_within_grow; [|exact Hacc].
      pose proof (len_nonneg imgs). lia.
    + apply IH; [lia|]. unfold indexes. rewrite map_app. simpl.
      assert (Hidx : index entry = i).
      { unfold WeixinSpider.image_entry, rbind in E.
        destruct (WeixinSpider.get_data_src im) as [|ds]; [discriminate|].
        destruct (if WeixinSpider.attr_truthy ds then _ else _) as [|[s|]];
          try discriminate.
        destruct (_ && _); [|discriminate].
        destruct (WeixinSpider.get_alt im); [discriminate|].
        injection E as <-. reflexivity. }
      rewrite Hidx. apply increasing_within_snoc; [lia|exact Hacc].
    + apply IH; [lia|].
      eapply increasing_within_grow; [|exact Hacc]. lia.
Qed.

End ImageIndexes.

(** ** Image extraction *)

Section ImageExtraction.
Import Py Json Article Eff Sample.

Lemma returns_selenium_extract {O : WeixinSpider.Outside} self :
  returns (WeixinSpider._extract_image_urls self)
    (fun images => exists hi, increasing_within 0 hi (indexes images)).
Proof.
  unfold WeixinSpider._extract_image_urls.
  apply returns_try_except.
  - eapply returns_bind; [apply returns_any|]. intros c _.
    eapply returns_bind; [apply returns_any|]. intros imgs _.
    apply returns_ret. exists (0 + len imgs).
    apply selenium_collect_increasing; [lia|apply increasing_within_nil].
  - intros e. apply returns_ret. exists 0. apply increasing_within_nil.
Qed.

(** A download changes the [local_path] of an entry and nothing else. *)
Lemma returns_download_one {O : WeixinSpider.Outside} dir im :
  returns (WeixinSpider.download_one dir im) (fun im' => index im' = index im).
Proof.
  unfold WeixinSpider.download_one.
  apply returns_try_except.
  - eapply returns_bind; [apply returns_any|]. intros r _.
    destruct (WeixinSpider.status_code r =? 200).
    + eapply returns_bind; [apply returns_any|]. intros _ _.
      apply returns_ret. reflexivity.
    + apply returns_ret. reflexivity.
  - intros e. apply returns_ret. reflexivity.
Qed.

Lemma returns_download_all {O : WeixinSpider.Outside} dir images :
  returns (WeixinSpider.download_all dir images)
    (fun images' => indexes images' = indexes images).
Proof.
  induction images as [|im images IH]; simpl.
  - apply returns_ret. reflexivity.
  - eapply returns_bind; [apply returns_download_one|]. intros im' H1.
    eapply returns_bind; [apply IH|]. intros rest H2.
    apply returns_ret. simpl. now rewrite H1, H2.
Qed.

Lemma returns_selenium_download {O : WeixinSpider.Outside} self u dir :
  returns (WeixinSpider._extract_and_download_images self u dir)
    (fun images => exists hi, increasing_within 0 hi (indexes images)).
Proof.
  unfold WeixinSpider._extract_and_download_images.
  eapply returns_bind; [apply returns_selenium_extract|].
  intros images H. destruct images as [|im images].
  - apply returns_ret. exact H.
  - eapply returns_bind; [apply returns_any|]. intros d _.
    eapply returns_bind; [apply returns_any|]. intros _ _.
    eapply returns_weaken; [apply returns_download_all|].
    intros images' E. simpl in E. rewrite E. exact H.
Qed.

Lemma returns_selenium_crawl {O : WeixinSpider.Outside} self u dl dir wt :
  returns (WeixinSpider.crawl self u dl dir wt)
    (fun a => exists hi, increasing_within 0 hi (indexes (images a))).
Proof.
  unfold WeixinSpider.crawl.
  destruct (WeixinSpider._is_valid_weixin_url _) as [e0|[|]];
    try apply returns_raise; cbn [negb].
  do 10 (eapply returns_bind; [apply returns_any|]; intros ? _).
  eapply returns_bind; [|intros images H; apply returns_ret; exact H].
  destruct dl; [apply returns_selenium_download|apply returns_selenium_extract].
Qed.

(** The agent-browser loop. *)
Lemma returns_ab_image_entry {G : WeixinSpiderAB.Agent} i :
  returns (WeixinSpiderAB.image_entry i)
    (fun entry => forall im, entry = Some im -> index im = i).
Proof.
  unfold WeixinSpiderAB.image_entry.
  eapply returns_bind; [apply returns_any|]. intros [success output] _.
  destruct success; [|apply returns_ret; discriminate].
  destruct (truthy _); [|apply returns_ret; discriminate].
  destruct (if has_key "value" _ then _ else _);
    try (intros w a w' E; discriminate E).
  destruct (negb _); apply returns_ret; [|discriminate].
  intros im [= <-]. reflexivity.
Qed.

Lemma returns_ab_collect {G : WeixinSpiderAB.Agent} n : forall i acc,
  0 <= i -> increasing_within 0 i (indexes acc) ->
  returns (WeixinSpiderAB.collect_images n i acc)
    (fun images =>
       increasing_within 0 (i + Z.of_nat n) (indexes images) /\
       (List.length images <= List.length acc + n)%nat).
Proof.
  induction n as [|n IH]; intros i acc Hi Hacc; simpl WeixinSpiderAB.collect_images.
  - apply returns_ret. split; [|lia].
    eapply increasing_within_grow; [|exact Hacc]. lia.
  - eapply returns_bind; [apply returns_ab_image_entry|].
    intros [im|] Him.
    + eapply returns_weaken.
      * apply IH; [lia|]. unfold indexes. rewrite map_app. simpl.
        rewrite (Him im eq_refl).
        apply increasing_within_snoc; [lia|exact Hacc].
      * intros images [H1 H2]. rewrite length_app in H2. simpl in H2.
        split; [|lia]. replace (i + Z.of_nat (S n)) with (i + 1 + Z.of_nat n) by lia.
        exact H1.
    + eapply returns_weaken.
      * apply IH; [lia|]. eapply increasing_within_grow; [|exact Hacc]. lia.
      * intros images [H1 H2].
        split; [|lia]. replace (i + Z.of_nat (S n)) with (i + 1 + Z.of_nat n) by lia.
        exact H1.
Qed.

Lemma rounds_bound count n : WeixinSpiderAB.rounds count = Ok n -> 0 <= n <= 20.
Proof.
  destruct count as [|b|z|f|s|l|d]; simpl; try discriminate.
  - destruct b; intros [= <-]; lia.
  - intros [= <-]. lia.
  - destruct (SFltb _ f); [|discriminate]. intros [= <-]. lia.
Qed.

Lemma returns_ab_extract {G : WeixinSpiderAB.Agent} :
  returns WeixinSpiderAB._extract_image_urls
    (fun images =>
       increasing_within 0 20 (indexes images) /\ (List.length images <= 20)%nat).
Proof.
  unfold WeixinSpiderAB._extract_image_urls.
  eapply returns_bind; [apply returns_any|]. intros [success output] _.
  destruct (negb success).
  - apply returns_ret. split; [apply increasing_within_nil|simpl; lia].
  - intros w a w' H. apply bind_ok in H.
    destruct H as (n & w1 & Hn & H).
    unfold lift in Hn. injection Hn as Hn _. apply rounds_bound in Hn.
    apply (returns_ab_collect (Z.to_nat n) 0 []) in H;
      [|lia|apply increasing_within_nil].
    destruct H as [H1 H2]. simpl in H2. split; [|lia].
    eapply increasing_within_grow; [|exact H1]. lia.
Qed.

Lemma returns_ab_crawl {G : WeixinSpiderAB.Agent} u dl dir wt :
  returns (WeixinSpiderAB.crawl u dl dir wt)
    (fun a => increasing_within 0 20 (indexes (images a)) /\
              (List.length (images a) <= 20)%nat).
Proof.
  unfold WeixinSpiderAB.crawl.
  destruct (WeixinSpiderAB._is_valid_weixin_url _) as [e0|[|]];
    try apply returns_raise; cbn [negb].
  do 3 (eapply returns_bind; [apply returns_any|]; intros ? _).
  destruct a1 as [success output].
  destruct (negb success); [apply returns_raise|].
  do 3 (eapply returns_bind; [apply returns_any|]; intros ? _).
  destruct (_ || _); [apply returns_raise|].
  do 7 (eapply returns_bind; [apply returns_any|]; intros ? _).
  eapply returns_bind; [apply returns_ab_extract|].
  intros images H. apply returns_ret. exact H.
Qed.

End ImageExtraction.

Section ImageClaims.
Import Py Json Article Eff Sample.

(** C7 as stated fails: on a page whose first image is an inline
    placeholder the only entry has index 1 at position 0. *)
Lemma crawl_image_indexes_counterexample :
  ~ (forall (O : WeixinSpider.Outside) self u dl dir wt w a w',
       @WeixinSpider.crawl O self u dl dir wt w = (Ok a, w') ->
       forall n im, nth_error (images a) n = Some im -> index im = Z.of_nat n).
Proof.
  intros H.
  destruct (@WeixinSpider.crawl (scripted (site_of page_with_placeholder))
              running url_a false None 10 (running_world _))
    as [[e|a] w'] eqn:E.
  - vm_compute in E. discriminate E.
  - pose proof (H _ _ _ _ _ _ _ _ _ E) as Ha.
    vm_compute in E. injection E as <- _.
    specialize (Ha 0%nat _ eq_refl). discriminate Ha.
Qed.

Lemma selenium_collect_expected page : forall i acc,
  WeixinSpider.collect_images i (map element page) acc
  = acc ++ expected_entries i page.
Proof.
  induction page as [|[[ds src] al] page IH]; intros i acc; simpl.
  - now rewrite app_nil_r.
  - unfold WeixinSpider.image_entry, element; simpl.
    destruct ds as [[|c s]|]; simpl.
    + destruct src as [[|c s]|]; simpl; try apply IH.
      destruct (negb _); simpl; [|apply IH].
      rewrite IH, <- app_assoc. reflexivity.
    + destruct (negb _); simpl; [|apply IH].
      rewrite IH, <- app_assoc. reflexivity.
    + destruct src as [[|c s]|]; simpl; try apply IH.
      destruct (negb _); simpl; [|apply IH].
      rewrite IH, <- app_assoc. reflexivity.
Qed.

Lemma length_expected_entries page : forall i,
  List.length (expected_entries i page)
  = List.length (filter (fun a => is_kept (resolved_source a)) page).
Proof.
  induction page as [|a page IH]; intros i; [reflexivity|].
  cbn [expected_entries filter].
  destruct (resolved_source a) as [s|].
  - destruct (is_kept (Some s)); cbn [List.length]; rewrite IH; reflexivity.
  - change (is_kept None) with false. cbv iota. apply IH.
Qed.

(** C8: the agent-browser extractor returns at most 20 entries, also as
    part of a crawl, whatever the page holds; the Selenium extractor, on a
    page whose container is found and whose attributes are read, returns
    the entry of every element whose address is kept, as many as there
    are. *)
Theorem image_extraction_bounds
    {O : WeixinSpider.Outside} {G : WeixinSpiderAB.Agent} :
  (forall w images w',
     WeixinSpiderAB._extract_image_urls w = (Ok images, w') ->
     (List.length images <= 20)%nat) /\
  (forall u dl dir wt w a w',
     WeixinSpiderAB.crawl u dl dir wt w = (Ok a, w') ->
     (List.length (images a) <= 20)%nat) /\
  (forall self w c page,
     WeixinSpider._driver self = Some tt ->
     WeixinSpider.find_js_content (WeixinSpider.outside w) = Ok c ->
     WeixinSpider.find_img_elements c = Ok (map element page) ->
     WeixinSpider._extract_image_urls self w = (Ok (expected_entries 0 page), w) /\
     List.length (expected_entries 0 page)
     = List.length (filter (fun a => is_kept (resolved_source a)) page)).
Proof.
  split; [|split].
  - intros w images w' H. apply returns_ab_extract in H. exact (proj2 H).
  - intros u dl dir wt w a w' H. apply returns_ab_crawl in H. exact (proj2 H).
  - intros self w c page Hd Hc Hi. split; [|apply length_expected_entries].
    unfold WeixinSpider._extract_image_urls, try_except, bind,
      WeixinSpider.with_driver, WeixinSpider.read, lift.
    rewrite Hd, Hc, Hi. unfold ret.
    now rewrite selenium_collect_expected.
Qed.

(** A page of 25 lazily loaded pictures: 25 entries through Selenium, 20
    through agent-browser. *)
Lemma image_extraction_bounds_witness :
  fst (@WeixinSpider._extract_image_urls (scripted (site_of (page_with 25)))
         running (running_world _))
  = Ok (expected_entries 0 (repeat (Some (png "p.png"), None, None) 25)) /\
  List.length (expected_entries 0 (repeat (Some (png "p.png"), None, None) 25))
  = 25%nat /\
  match @WeixinSpiderAB._extract_image_urls
          (scripted_agent (ab_page (lit "hi") 25 all_lazy)) (ab_world _) with
  | (Ok images, _) => (List.length images <= 20)%nat
  | (Raise _, _) => False
  end.
Proof.
  split; [|split].
  - erewrite (proj1 (proj2 (proj2 (@image_extraction_bounds
                (scripted (site_of (page_with 25))) (scripted_agent ab_down)))
                running (running_world _) (page_with 25)
                (repeat (Some (png "p.png"), None, None) 25)
                eq_refl eq_refl eq_refl)).
    reflexivity.
  - reflexivity.
  - destruct (WeixinSpiderAB._extract_image_urls _) as [[e|images] w'] eqn:E.
    + vm_compute in E. discriminate E.
    + exact (proj1 (@image_extraction_bounds
                      (scripted (site_of (page_with 25)))
                      (scripted_agent (ab_page (lit "hi") 25 all_lazy)))
               _ _ _ E).
Defined.

(** C9, the defect: an element that has no [data-src] and a standard [src].
    The Selenium extractor records it with the address of [src]; the
    agent-browser extractor asks for the count and for [data-src] only,
    never for [src], and returns no entry. *)
Theorem ab_extract_ignores_src :
  WeixinSpider.collect_images 0 [element (None, Some (png "p.png"), None)] []
  = [{| index := 0; img_url := png "p.png"; alt := []; local_path := None |}] /\
  exists w',
    @WeixinSpiderAB._extract_image_urls
       (scripted_agent (ab_page (lit "hi") 1 first_plain)) (ab_world _)
    = (Ok [], w') /\
    map (skipn 4) (WeixinSpiderAB.log w')
    = [[lit "get"; lit "count"; lit "#js_content img"];
       [lit "get"; lit "attr"; lit "#js_content img:nth-child(1)";
        lit "data-src"]].
Proof.
  split; [reflexivity|].
  destruct (WeixinSpiderAB._extract_image_urls _) as [r w'] eqn:E.
  vm_compute in E. injection E as <- <-.
  eexists. split; reflexivity.
Qed.

End ImageClaims.

(** ** The challenge page *)

Section Challenge.
Import Py Json Article Eff Sample.

(** C4, as the code has it: in the agent-browser backend, when the page
    was opened and the text read from [body] holds one of the two markers,
    [crawl] raises a [RuntimeError] with the anti-bot message; a page that
    failed to open raises a [RuntimeError] too, with another message.  The
    two failures have the same class and differ by their message only. *)
Theorem crawl_blocked_page {G : WeixinSpiderAB.Agent}
    (u : pystr) (dl : bool) (dir : option pystr) (wt : Z)
    (w : WeixinSpiderAB.World) :
  WeixinSpiderAB._is_valid_weixin_url u = Ok true ->
  let w1 := snd (WeixinSpiderAB.load_state w) in
  let opened := WeixinSpiderAB._run_cmd [lit "open"; u] 60 w1 in
  let w3 := snd (WeixinSpiderAB._run_cmd [lit "wait"; str_of_int (wt * 1000)]
                   60 (snd opened)) in
  let w4 := snd (WeixinSpiderAB._run_cmd [lit "wait"; lit "#js_content"]
                   (wt + 10) w3) in
  (forall output page_text w5,
     fst opened = Ok (true, output) ->
     WeixinSpiderAB._extract_text (lit "body") w4 = (Ok page_text, w5) ->
     contains WeixinSpiderAB.marker_environment page_text
     || contains WeixinSpiderAB.marker_verification page_text = true ->
     WeixinSpiderAB.crawl u dl dir wt w
     = (Raise (Exn RuntimeError WeixinSpiderAB.blocked_message), w5)) /\
  (forall output,
     fst opened = Ok (false, output) ->
     WeixinSpiderAB.crawl u dl dir wt w
     = (Raise (Exn RuntimeError (lit "Failed to open URL: " ++ output)),
        snd opened) /\
     WeixinSpiderAB.blocked_message <> lit "Failed to open URL: " ++ output).
Proof.
  intros Hv w1 opened w3 w4.
  assert (Hload : WeixinSpiderAB.load_state w = (Ok tt, w1)).
  { unfold w1, WeixinSpiderAB.load_state.
    destruct (_ && _); [|reflexivity].
    destruct (WeixinSpiderAB.path_exists _ _); [|reflexivity].
    unfold bind.
    destruct (WeixinSpiderAB._run_cmd _ _ w) as [[e|so] w'] eqn:E; [|reflexivity].
    unfold WeixinSpiderAB._run_cmd in E.
    destruct (WeixinSpiderAB.subprocess_run _ _ _) as [[rc so se| |e'] o];
      try discriminate E.
    destruct (rc =? 0); discriminate E. }
  assert (Hcmd : forall args t w0,
            exists so, WeixinSpiderAB._run_cmd args t w0
                       = (Ok so, snd (WeixinSpiderAB._run_cmd args t w0))).
  { intros args t w0. unfold WeixinSpiderAB._run_cmd.
    destruct (WeixinSpiderAB.subprocess_run _ _ _) as [[rc so se| |e'] o];
      try (eexists; reflexivity).
    destruct (rc =? 0); eexists; reflexivity. }
  split.
  - intros output page_text w5 Hopen Htext Hmark.
    unfold WeixinSpiderAB.crawl. rewrite Hv. cbn [negb].
    unfold bind at 1. cbn beta iota.
    unfold bind at 1. rewrite Hload.
    unfold bind at 1. fold opened.
    destruct opened as [ro w2] eqn:Eo. simpl in Hopen. subst ro.
    cbn beta iota. cbn [negb].
    unfold bind at 1.
    destruct (Hcmd [lit "wait"; str_of_int (wt * 1000)] 60 w2) as [so1 E1].
    simpl snd in w3. fold w3 in E1. rewrite E1.
    unfold bind at 1.
    destruct (Hcmd [lit "wait"; lit "#js_content"] (wt + 10) w3) as [so2 E2].
    fold w4 in E2. rewrite E2.
    unfold bind at 1. rewrite Htext. rewrite Hmark. reflexivity.
  - intros output Hopen. split.
    + unfold WeixinSpiderAB.crawl. rewrite Hv. cbn [negb].
      unfold bind at 1. cbn beta iota.
      unfold bind at 1. rewrite Hload.
      unfold bind at 1. fold opened.
      destruct opened as [ro w2] eqn:Eo. simpl in Hopen. subst ro.
      reflexivity.
    + discriminate.
Qed.

Lemma crawl_blocked_page_witness :
  @WeixinSpiderAB.crawl (scripted_agent (ab_page challenge_text 3 all_lazy))
     url_a false None 10 (ab_world _)
  = (Raise (Exn RuntimeError WeixinSpiderAB.blocked_message),
     snd (@WeixinSpiderAB.crawl (scripted_agent (ab_page challenge_text 3 all_lazy))
            url_a false None 10 (ab_world _))).
Proof.
  eapply (proj1 (@crawl_blocked_page
                   (scripted_agent (ab_page challenge_text 3 all_lazy))
                   url_a false None 10 (ab_world _) eq_refl)
            [] challenge_text).
  - reflexivity.
  - vm_compute. reflexivity.
  - vm_compute. reflexivity.
Defined.

(** C4 as stated fails: the failure on a challenge page and the failure of
    the backend to open a page have the same kind, [RuntimeError]. *)
Lemma crawl_blocked_kind_counterexample :
  exists blocked backend,
    contains WeixinSpiderAB.marker_environment challenge_text = true /\
    fst (@WeixinSpiderAB.crawl
           (scripted_agent (ab_page challenge_text 3 all_lazy))
           url_a false None 10 (ab_world _)) = Raise blocked /\
    fst (@WeixinSpiderAB.crawl (scripted_agent ab_down)
           url_a false None 10 (ab_world _)) = Raise backend /\
    exn_type blocked = exn_type backend /\
    class_name (exn_type blocked) = lit "RuntimeError".
Proof.
  exists (Exn RuntimeError WeixinSpiderAB.blocked_message).
  exists (Exn RuntimeError
            (lit "Failed to open URL: net::ERR_CONNECTION_RESET")).
  split; [reflexivity|]. split; [vm_compute; reflexivity|].
  split; [vm_compute; reflexivity|]. split; reflexivity.
Qed.

End Challenge.

(** ** The tools of the server *)

Section ServerTools.
Import Py Json Article Eff Sample WeixinSpider Server.
Context {O : Outside} {RE : Regex} {C : Config}.

(** C3: with fewer than 2 or more than 5 addresses [compare_articles]
    returns the object that holds the validation message and leaves the
    world as it was: the class holds the same instance as before (none is
    acquired), the outside is untouched and the log has no new call. *)
Theorem compare_articles_validation (urls : list pystr) (w : World) :
  len urls < 2 \/ len urls > 5 ->
  compare_articles urls w
  = (Ok (JDict [("error"%string,
                 JStr (if len urls <? 2
                       then lit "Need at least 2 URLs to compare"
                       else lit "Maximum 5 URLs for comparison"))]), w) /\
  let w' := snd (compare_articles urls w) in
  instance w' = instance w /\ outside w' = outside w /\ log w' = log w.
Proof.
  intros H.
  assert (E : compare_articles urls w
              = (Ok (JDict [("error"%string,
                             JStr (if len urls <? 2
                                   then lit "Need at least 2 URLs to compare"
                                   else lit "Maximum 5 URLs for comparison"))]),
                 w)).
  { unfold compare_articles, try_except.
    destruct (Z.ltb_spec (len urls) 2) as [Hlt|Hge]; [reflexivity|].
    destruct (Z.gtb_spec (len urls) 5) as [Hgt|Hle]; [reflexivity|lia]. }
  split; [exact E|]. rewrite E. simpl. auto.
Qed.

(** ** Calls that are no download *)

Lemma no_download_ret {A} (a : A) : no_download (ret a).
Proof.
  intros w r w' [= _ <-]. exists []. now rewrite app_nil_r.
Qed.

Lemma no_download_raise {A} e : no_download (raise e : M World A).
Proof.
  intros w r w' [= _ <-]. exists []. now rewrite app_nil_r.
Qed.

Lemma no_download_lift {A} (x : result A) : no_download (lift x).
Proof.
  intros w r w' [= _ <-]. exists []. now rewrite app_nil_r.
Qed.

Lemma no_download_read {A} (op : ext -> result A) : no_download (read op).
Proof.
  intros w r w' [= _ <-]. exists []. now rewrite app_nil_r.
Qed.

Lemma no_download_set_instance s : no_download (set_instance s).
Proof.
  intros w r w' [= _ <-]. exists []. simpl. now rewrite app_nil_r.
Qed.

Lemma no_download_call {A} ev (op : ext -> result A * ext) :
  is_download ev = false -> no_download (call ev op).
Proof.
  intros Hev w r w'. unfold call. destruct (op (outside w)) as [r0 o].
  intros [= _ <-]. exists [ev]. simpl. now rewrite Hev.
Qed.

Lemma no_download_bind {A B} (c : M World A) (k : A -> M World B) :
  no_download c -> (forall a, no_download (k a)) -> no_download (bind c k).
Proof.
  intros Hc Hk w r w' H. apply bind_inv in H.
  destruct H as [(e & H & _)|(a & w1 & H1 & H2)].
  - eapply Hc, H.
  - destruct (Hc _ _ _ H1) as (evs1 & E1 & N1).
    destruct (Hk a _ _ _ H2) as (evs2 & E2 & N2).
    exists (evs1 ++ evs2). rewrite E2, E1, app_assoc. split; [reflexivity|].
    rewrite existsb_app, N1, N2. reflexivity.
Qed.

Lemma no_download_try_except {A} (c : M World A) h :
  no_download c -> (forall e, no_download (h e)) -> no_download (try_except c h).
Proof.
  intros Hc Hh w r w'. unfold try_except.
  destruct (c w) as [[e|a] w1] eqn:E.
  - intros H.
    destruct (Hc _ _ _ E) as (evs1 & E1 & N1).
    destruct (Hh e _ _ _ H) as (evs2 & E2 & N2).
    exists (evs1 ++ evs2). rewrite E2, E1, app_assoc. split; [reflexivity|].
    rewrite existsb_app, N1, N2. reflexivity.
  - intros [= <- <-]. eapply Hc, E.
Qed.

Lemma no_download_attempt {A} (c : M World A) :
  no_download c -> no_download (attempt c).
Proof.
  intros Hc w r w'. unfold attempt.
  destruct (c w) as [r0 w1] eqn:E. intros [= _ <-]. eapply Hc, E.
Qed.

Lemma no_download_with_driver {A} self m (c : M World A) :
  no_download c -> no_download (with_driver self m c).
Proof.
  intros Hc. unfold with_driver.
  destruct (_driver self); [exact Hc|apply no_download_raise].
Qed.

Create HintDb quiet.
#[local] Hint Resolve no_download_ret no_download_raise no_download_lift
  no_download_read no_download_set_instance no_download_with_driver
  no_download_attempt : quiet.

(** The steps of a proof of [no_download], with the lemmas already known
    tried first. *)
Ltac quiet_with known :=
  repeat first
    [ known
    | apply no_download_bind; [|intros ?]
    | apply no_download_try_except; [|intros ?]
    | apply no_download_with_driver
    | apply no_download_attempt
    | apply no_download_call; reflexivity
    | solve [auto with quiet] ].

Ltac quiet := quiet_with fail.

Lemma no_download_first_text self selectors :
  no_download (first_text self selectors).
Proof.
  induction selectors as [|sel rest IH]; simpl; [quiet|].
  apply no_download_bind; [quiet|]. intros [e|t].
  - destruct (is_NoSuchElement e); [exact IH|quiet].
  - destruct (strip t); [exact IH|quiet].
Qed.

Lemma no_download_extract_image_urls self :
  no_download (_extract_image_urls self).
Proof. unfold _extract_image_urls. quiet. Qed.


Lemma no_download_crawl self u dir wt :
  no_download (crawl self u false dir wt).
Proof.
  unfold crawl.
  destruct (_is_valid_weixin_url _) as [e0|[|]]; cbn [negb]; [quiet| |quiet].
  unfold _extract_title, _extract_author, _extract_account_name,
    _extract_publish_date, _extract_content_html, _extract_content_text.
  quiet_with ltac:(first [ apply no_download_first_text
                         | apply no_download_extract_image_urls ]).
Qed.

Lemma no_download_init_browser self : no_download (_init_browser self).
Proof.
  unfold _init_browser. destruct (_initialized self); quiet.
Qed.

Lemma no_download_get_spider : no_download get_spider.
Proof.
  unfold get_spider, get_instance. intros w r w'.
  destruct (instance w) as [s|] eqn:Ei.
  - intros [= _ <-]. exists []. now rewrite app_nil_r.
  - refine (no_download_bind _ _ _ _ w r w'); [quiet|intros _].
    apply no_download_bind; [apply no_download_init_browser|intros _].
    intros w1 r1 w1' H.
    assert (w1' = w1) as -> by (destruct (instance w1); now injection H).
    exists []. now rewrite app_nil_r.
Qed.

(** Without a download no entry has a local path. *)
Lemma collect_images_no_path imgs : forall i acc,
  Forall (fun im => local_path im = None) acc ->
  Forall (fun im => local_path im = None) (collect_images i imgs acc).
Proof.
  induction imgs as [|im imgs IH]; intros i acc Hacc; simpl; [exact Hacc|].
  destruct (image_entry i im) as [e|[entry|]] eqn:E; [exact Hacc| |auto].
  apply IH. apply Forall_app. split; [exact Hacc|].
  constructor; [|constructor].
  unfold image_entry, rbind in E.
  destruct (get_data_src im) as [|ds]; [discriminate|].
  destruct (if attr_truthy ds then _ else _) as [|[s|]]; try discriminate.
  destruct (_ && _); [|discriminate].
  destruct (get_alt im); [discriminate|].
  injection E as <-. reflexivity.
Qed.

Lemma returns_crawl_no_path self u dir wt :
  returns (crawl self u false dir wt)
    (fun a => Forall (fun im => local_path im = None) (images a)).
Proof.
  unfold crawl.
  destruct (_is_valid_weixin_url _) as [e0|[|]];
    try apply returns_raise; cbn [negb].
  do 10 (eapply returns_bind; [apply returns_any|]; intros ? _).
  eapply returns_bind; [|intros images H; apply returns_ret; exact H].
  unfold _extract_image_urls. apply returns_try_except.
  - eapply returns_bind; [apply returns_any|]. intros c _.
    eapply returns_bind; [apply returns_any|]. intros imgs _.
    apply returns_ret. apply collect_images_no_path. constructor.
  - intros e. apply returns_ret. constructor.
Qed.

End ServerTools.

Section ServerToolsSamples.
Import Py Json Article Eff Sample WeixinSpider Server.

Lemma compare_articles_validation_witness :
  @compare_articles (scripted (site_of (page_with 2))) plain_text_re
     (config true) [url_a] (fresh_world _)
  = (Ok (JDict [("error"%string,
                 JStr (lit "Need at least 2 URLs to compare"))]),
     fresh_world _) /\
  @compare_articles (scripted (site_of (page_with 2))) plain_text_re
     (config true) [url_a; url_a; url_a; url_a; url_a; url_a] (fresh_world _)
  = (Ok (JDict [("error"%string,
                 JStr (lit "Maximum 5 URLs for comparison"))]),
     fresh_world _).
Proof.
  split.
  - apply (@compare_articles_validation (scripted (site_of (page_with 2)))
             plain_text_re (config true) [url_a] (fresh_world _)).
    left. reflexivity.
  - apply (@compare_articles_validation (scripted (site_of (page_with 2)))
             plain_text_re (config true)
             [url_a; url_a; url_a; url_a; url_a; url_a] (fresh_world _)).
    right. reflexivity.
Defined.

(** With the flag on, the label names the directory, sanitized, under the
    output root. *)
Example crawl_tool_label_names_directory :
  filter is_download
    (log (snd (@crawl_weixin_article (scripted (site_of (page_with 1)))
                 (config true) url_a true (Some (lit "../x")) (fresh_world _))))
  = [EvMkdir (lit "./downloads/___x");
     EvHttpGet (png "p.png");
     EvWrite (lit "./downloads/___x/image_000.png")].
Proof. vm_compute. reflexivity. Qed.

End ServerToolsSamples.

(** ** The comparison of several articles *)

Section Comparison.
Import Py Json Article Eff Sample WeixinSpider Server.
Context {O : Outside} {RE : Regex} {C : Config}.

Lemma insert_desc_perm {A} (x : Z * A) l : Permutation (insert_desc x l) (x :: l).
Proof.
  induction l as [|y l IH]; simpl; [reflexivity|].
  destruct (fst x <? fst y); [|reflexivity].
  rewrite IH. apply perm_swap.
Qed.

Lemma sort_desc_perm {A} (l : list (Z * A)) :
  Permutation (fold_right insert_desc [] l) l.
Proof.
  induction l as [|x l IH]; simpl; [reflexivity|].
  rewrite insert_desc_perm. now constructor.
Qed.

Lemma rmapM_ok {A B} (f : A -> result B) (g : A -> B) l :
  Forall (fun x => f x = Ok (g x)) l -> rmapM f l = Ok (map g l).
Proof.
  induction 1 as [|x l Hx _ IH]; simpl; [reflexivity|].
  now rewrite Hx, IH.
Qed.

Lemma rmapM_map_ok {A B X} (f : A -> result B) (h : X -> A) (g : X -> B) l :
  Forall (fun x => f (h x) = Ok (g x)) l -> rmapM f (map h l) = Ok (map g l).
Proof.
  induction 1 as [|x l Hx _ IH]; simpl; [reflexivity|].
  now rewrite Hx, IH.
Qed.

Lemma map_snd_combine {A B} (l1 : list A) (l2 : list B) :
  List.length l1 = List.length l2 -> map snd (combine l1 l2) = l2.
Proof.
  revert l2. induction l1 as [|x l1 IH]; intros [|y l2]; simpl; try discriminate.
  - reflexivity.
  - intros [= H]. now rewrite IH.
Qed.

(** A ranking holds the entries it sorts, each once. *)
Lemma sorted_reverse_perm (key : json -> result Z) (g : json -> Z) l :
  Forall (fun x => key x = Ok (g x)) l ->
  exists l', sorted_reverse key l = Ok l' /\ Permutation l' l.
Proof.
  intros H. unfold sorted_reverse. rewrite (rmapM_ok _ _ _ H). simpl.
  eexists. split; [reflexivity|].
  rewrite sort_desc_perm, map_snd_combine; [reflexivity|].
  now rewrite length_map.
Qed.

Lemma sum_from l : forall acc, fold_left Z.add l acc = acc + sum l.
Proof.
  unfold sum. induction l as [|x l IH]; intros acc; simpl; [lia|].
  rewrite IH, (IH x). lia.
Qed.

Lemma sum_cons x l : sum (x :: l) = x + sum l.
Proof. unfold sum at 1. simpl. now rewrite sum_from. Qed.

Lemma sum_bounds b l :
  Forall (fun x => 0 <= x < b) l -> 0 <= sum l <= len l * b.
Proof.
  induction 1 as [|x l Hx _ IH].
  - unfold sum, len. simpl. lia.
  - rewrite sum_cons. unfold len in *. simpl List.length. nia.
Qed.

(** *** The loop and the outcomes *)

Lemma compare_entry_outcome spider u w :
  exists r w1,
    attempt_url spider u w = (Ok r, w1) /\
    compare_entry spider u w = (Ok (entry_of (u, r)), w1).
Proof.
  unfold attempt_url, compare_entry, attempt, try_except, bind, lift, ret.
  destruct (crawl spider u false None WAIT_TIME w) as [[e|a] w1].
  - eexists. eexists. split; reflexivity.
  - destruct (analyze_article a) as [e|an];
      eexists; eexists; split; reflexivity.
Qed.

Lemma attempts_total spider urls : forall w,
  exists outs w', attempts spider urls w = (Ok outs, w').
Proof.
  induction urls as [|u urls IH]; intros w; simpl.
  - eexists. eexists. reflexivity.
  - destruct (compare_entry_outcome spider u w) as (r & w1 & E & _).
    destruct (IH w1) as (outs & w' & E').
    exists ((u, r) :: outs), w'. unfold bind. now rewrite E, E'.
Qed.

Lemma compare_loop_outcomes spider urls : forall acc w outs w',
  attempts spider urls w = (Ok outs, w') ->
  compare_loop spider urls acc w = (Ok (acc ++ map entry_of outs), w').
Proof.
  induction urls as [|u urls IH]; intros acc w outs w' H; simpl in *.
  - injection H as <- <-. simpl. now rewrite app_nil_r.
  - apply bind_ok in H. destruct H as (r & w1 & E & H).
    apply bind_ok in H. destruct H as (rs & w2 & E' & H).
    injection H as <- <-.
    destruct (compare_entry_outcome spider u w) as (r0 & w0 & E0 & Ec).
    rewrite E in E0. injection E0 as <- <-.
    unfold bind at 1. rewrite Ec.
    rewrite (IH _ _ _ _ E'), <- app_assoc. reflexivity.
Qed.

Lemma returns_crawl_word_count self u dl dir wt :
  returns (crawl self u dl dir wt)
    (fun a => word_count a = len (content_text a)).
Proof.
  unfold crawl.
  destruct (_is_valid_weixin_url _) as [e0|[|]];
    try apply returns_raise; cbn [negb].
  do 11 (eapply returns_bind; [apply returns_any|]; intros ? _).
  apply returns_ret. reflexivity.
Qed.

Lemma attempts_sound spider urls : forall w outs w',
  attempts spider urls w = (Ok outs, w') ->
  map fst outs = urls /\ Forall sound (succeeded outs).
Proof.
  induction urls as [|u urls IH]; intros w outs w' H; simpl in H.
  - injection H as <- _. split; constructor.
  - apply bind_ok in H. destruct H as (r & w1 & E & H).
    apply bind_ok in H. destruct H as (rs & w2 & E' & H).
    injection H as <- _.
    destruct (IH _ _ _ E') as [IH1 IH2].
    split; [simpl; now rewrite IH1|].
    destruct r as [e|[a an]]; simpl; [exact IH2|].
    constructor; [|exact IH2].
    unfold attempt_url, attempt in E.
    destruct (bind _ _ w) as [r0 w0] eqn:Eb. injection E as -> ->.
    apply bind_ok in Eb. destruct Eb as (a' & w3 & Ea & Eb).
    apply bind_ok in Eb. destruct Eb as (an' & w4 & Ean & Eb).
    injection Eb as <- <- _. unfold lift in Ean. injection Ean as Ean _.
    split; [exact Ean|]. eapply returns_crawl_word_count, Ea.
Qed.

Lemma filter_entries k outs :
  (k = "summary" \/ k = "analysis")%string ->
  filter (has_key k) (map entry_of outs) = map success_entry (succeeded outs).
Proof.
  intros Hk. induction outs as [|[u [e|p]] outs IH]; [reflexivity| |].
  - destruct Hk as [-> | ->]; simpl in *; exact IH.
  - destruct Hk as [-> | ->]; simpl in *; now rewrite IH.
Qed.

Lemma analysis_fields p :
  sound p ->
  analysis_field "word_count" (success_entry p) = Ok (word_count (fst p)) /\
  analysis_field "image_count" (success_entry p) = Ok (len (images (fst p))).
Proof.
  intros [H _]. destruct p as [a an]. simpl in *.
  unfold analyze_article, Stats.analyze_article, rbind in H.
  destruct (truediv _ _); [discriminate|]. injection H as <-.
  split; reflexivity.
Qed.

Lemma length_succeeded (outs : list (pystr * result (ArticleContent * json))) :
  len (succeeded outs) <= len outs.
Proof.
  unfold len. induction outs as [|[u [e|p]] outs IH]; simpl; lia.
Qed.

(** C1: for 2 to 5 addresses and a spider that was acquired,
    [compare_articles] returns a report whatever the outcomes of the
    crawls.  [articles] holds one entry for each address, in order: the
    error entry keyed by the address for a failing one, the summary and
    analysis for a successful one.  Each ranking is a rearrangement of the
    successful entries, so a failing address has no entry in it and a
    successful one has exactly one.  [avg_word_count] is the sum of the
    word counts of the successful articles divided by the number of
    successes or by 1 when there is none; the divisor is never zero.  The
    word counts are lengths of strings, hence below [2^63]. *)
Theorem compare_articles_partial_failure
    (urls : list pystr) (w w0 w' : World) (spider : Spider)
    (outs : list (pystr * result (ArticleContent * json))) :
  2 <= len urls <= 5 ->
  get_spider w = (Ok spider, w0) ->
  attempts spider urls w0 = (Ok outs, w') ->
  Forall (fun p => word_count (fst p) < 2 ^ 63) (succeeded outs) ->
  map fst outs = urls /\
  exists by_word_count by_image_count avg_word_count,
    compare_articles urls w
    = (Ok (JDict
             [("articles", JList (map entry_of outs));
              ("comparison",
               JDict
                 [("by_word_count", JList by_word_count);
                  ("by_image_count", JList by_image_count);
                  ("stats",
                   JDict [("total_articles", JInt (len urls));
                          ("successfully_analyzed",
                           JInt (len (succeeded outs)));
                          ("avg_word_count", JFloat avg_word_count)])])]%string),
       w') /\
    Permutation by_word_count (map success_entry (succeeded outs)) /\
    Permutation by_image_count (map success_entry (succeeded outs)) /\
    truediv (sum (map (fun p => word_count (fst p)) (succeeded outs)))
            (Z.max (len (succeeded outs)) 1) = Ok avg_word_count /\
    1 <= Z.max (len (succeeded outs)) 1.
Proof.
  intros Hlen Hspider Hatt Hbound.
  destruct (attempts_sound _ _ _ _ _ Hatt) as [Hurls Hsound].
  split; [exact Hurls|].
  (* the two rankings *)
  destruct (sorted_reverse_perm (analysis_field "word_count")
              (fun x => match analysis_field "word_count" x with
                        | Ok z => z | Raise _ => 0 end)
              (map success_entry (succeeded outs)))
    as (by_wc & Ewc & Pwc).
  { apply Forall_map. eapply Forall_impl; [|exact Hsound].
    intros p Hp. now rewrite (proj1 (analysis_fields p Hp)). }
  destruct (sorted_reverse_perm (analysis_field "image_count")
              (fun x => match analysis_field "image_count" x with
                        | Ok z => z | Raise _ => 0 end)
              (map success_entry (succeeded outs)))
    as (by_ic & Eic & Pic).
  { apply Forall_map. eapply Forall_impl; [|exact Hsound].
    intros p Hp. now rewrite (proj2 (analysis_fields p Hp)). }
  (* the word counts and their mean *)
  assert (Ecounts : rmapM (analysis_field "word_count")
                      (map success_entry (succeeded outs))
                    = Ok (map (fun p => word_count (fst p)) (succeeded outs))).
  { apply rmapM_map_ok. eapply Forall_impl; [|exact Hsound].
    intros p Hp. exact (proj1 (analysis_fields p Hp)). }
  assert (Hn : len (succeeded outs) <= 5).
  { pose proof (length_succeeded outs) as H.
    assert (len outs = len urls)
      by (rewrite <- Hurls; unfold len; now rewrite length_map).
    lia. }
  assert (Hsum : 0 <= sum (map (fun p => word_count (fst p)) (succeeded outs))
                 < 2 ^ 100).
  { pose proof (sum_bounds (2 ^ 63)
                  (map (fun p => word_count (fst p)) (succeeded outs))) as H.
    assert (Hall : Forall (fun x => 0 <= x < 2 ^ 63)
                     (map (fun p => word_count (fst p)) (succeeded outs))).
    { apply Forall_map. rewrite Forall_forall in *.
      intros p Hp. specialize (Hsound p Hp). specialize (Hbound p Hp).
      destruct Hsound as [_ Hwc]. simpl in *.
      pose proof (len_nonneg (content_text (fst p))). lia. }
    specialize (H Hall).
    assert (len (map (fun p => word_count (fst p)) (succeeded outs))
            = len (succeeded outs)) as Hl
      by (unfold len; now rewrite length_map).
    rewrite Hl in H.
    pose proof (len_nonneg (succeeded outs)).
    assert (2 ^ 100 = 2 ^ 37 * 2 ^ 63) as -> by (rewrite <- Z.pow_add_r; [f_equal|..]; lia).
    assert (0 < 2 ^ 63) by (apply Z.pow_pos_nonneg; lia).
    assert (5 < 2 ^ 37) by (vm_compute; reflexivity).
    nia. }
  destruct (truediv_ok
              (sum (map (fun p => word_count (fst p)) (succeeded outs)))
              (Z.max (len (succeeded outs)) 1)) as (avg & Eavg & _).
  { exact Hsum. }
  { pose proof (len_nonneg (succeeded outs)).
    assert (5 < 2 ^ 100) by (vm_compute; reflexivity). lia. }
  exists by_wc, by_ic, avg.
  split; [|repeat split; try assumption; lia].
  unfold compare_articles, try_except.
  destruct (Z.ltb_spec (len urls) 2) as [?|_]; [lia|].
  destruct (Z.gtb_spec (len urls) 5) as [?|_]; [lia|].
  unfold bind at 1. rewrite Hspider.
  unfold bind at 1.
  rewrite (compare_loop_outcomes spider urls [] w0 outs w' Hatt).
  cbn [app].
  unfold bind at 1, lift, comparison_of.
  rewrite !filter_entries by auto.
  rewrite Ewc, Eic, Ecounts. cbn [rbind].
  assert (Hl : len (map success_entry (succeeded outs)) = len (succeeded outs))
    by (unfold len; now rewrite length_map).
  rewrite Hl, Eavg. reflexivity.
Qed.

End Comparison.

Section ComparisonSample.
Import Py Json Article Eff Sample WeixinSpider Server.

(** Two addresses, the second of which fails to load: one error entry, one
    entry in each ranking. *)
Lemma compare_articles_partial_failure_witness :
  exists outs by_word_count by_image_count avg_word_count w',
    @compare_articles (scripted (site_b_down (page_with 2))) plain_text_re
       (config true) [url_a; url_b] (fresh_world _)
    = (Ok (JDict
             [("articles", JList (map entry_of outs));
              ("comparison",
               JDict
                 [("by_word_count", JList by_word_count);
                  ("by_image_count", JList by_image_count);
                  ("stats",
                   JDict [("total_articles", JInt 2);
                          ("successfully_analyzed", JInt 1);
                          ("avg_word_count", JFloat avg_word_count)])])]%string),
       w') /\
    map (fun o => is_ok (snd o)) outs = [true; false] /\
    List.length by_word_count = 1%nat /\
    List.length by_image_count = 1%nat /\
    avg_word_count = float_of_int 5.
Proof.
  set (O := scripted (site_b_down (page_with 2))).
  destruct (@get_spider O (fresh_world _)) as [[e|spider] w0] eqn:Es;
    [vm_compute in Es; discriminate Es|].
  destruct (@attempts_total O plain_text_re (config true) spider
              [url_a; url_b] w0) as (outs & w' & Ea).
  assert (Es' := Es). vm_compute in Es'. injection Es' as <- <-.
  assert (Ea' := Ea). vm_compute in Ea'. injection Ea' as <- <-.
  destruct (@compare_articles_partial_failure O plain_text_re (config true)
              [url_a; url_b] _ _ _ _ _
              ltac:(vm_compute; split; discriminate) Es Ea
              ltac:(repeat constructor))
    as (_ & by_wc & by_ic & avg & E & Pwc & Pic & Eavg & _).
  eexists. exists by_wc, by_ic, avg. eexists.
  split; [exact E|]. split; [reflexivity|].
  split; [now rewrite (Permutation_length Pwc)|].
  split; [now rewrite (Permutation_length Pic)|].
  vm_compute in Eavg. now injection Eavg as <-.
Defined.

End ComparisonSample.

(** * Further properties of the code *)

(** ** Stripped strings *)

Section StripFacts.
Import Py.

Lemma lstrip_split s :
  exists sp, s = sp ++ lstrip s /\ Forall (fun c => isspace c = true) sp.
Proof.
  induction s as [|c s IH]; simpl.
  - exists []. split; [reflexivity|constructor].
  - destruct (isspace c) eqn:E.
    + destruct IH as (sp & Hs & Hsp). exists (c :: sp). split.
      * simpl. now rewrite <- Hs.
      * now constructor.
    + exists []. split; [reflexivity|constructor].
Qed.

Lemma lstrip_head s c s' : lstrip s = c :: s' -> isspace c = false.
Proof.
  induction s as [|x s IH]; simpl; [discriminate|].
  destruct (isspace x) eqn:E; [exact IH|].
  intros [= <- _]. exact E.
Qed.

Lemma lstrip_fixed c s : isspace c = false -> lstrip (c :: s) = c :: s.
Proof. intros H. simpl. now rewrite H. Qed.

(** A stripped string is empty or begins and ends with a character that
    is no whitespace: stripping it again changes nothing. *)
Lemma strip_idempotent s : strip (strip s) = strip s.
Proof.
  unfold strip.
  destruct (lstrip s) as [|c t] eqn:Et; [reflexivity|].
  pose proof (lstrip_head _ _ _ Et) as Hc.
  destruct (lstrip_split (rev (c :: t))) as (sp & Hs & Hsp).
  destruct (lstrip (rev (c :: t))) as [|d r] eqn:Er.
  - (* impossible: [c] would be whitespace *)
    rewrite app_nil_r in Hs.
    assert (In c sp).
    { rewrite <- Hs. apply in_rev. rewrite rev_involutive. now left. }
    rewrite Forall_forall in Hsp. rewrite (Hsp c H) in Hc. discriminate.
  - pose proof (lstrip_head _ _ _ Er) as Hd.
    (* [rev (d :: r)] begins with [c] *)
    assert (Hrev : c :: t = rev (d :: r) ++ rev sp).
    { rewrite <- rev_app_distr, <- Hs. now rewrite rev_involutive. }
    destruct (rev (d :: r)) as [|x y] eqn:Ex.
    + apply (f_equal (@List.length _)) in Ex. rewrite length_rev in Ex.
      discriminate Ex.
    + simpl in Hrev. injection Hrev as <- _.
      rewrite (lstrip_fixed c y Hc).
      rewrite <- Ex, rev_involutive, (lstrip_fixed d r Hd). reflexivity.
Qed.

Lemma length_lstrip s : (List.length (lstrip s) <= List.length s)%nat.
Proof.
  induction s as [|c s IH]; simpl; [lia|].
  destruct (isspace c); simpl; lia.
Qed.

End StripFacts.

(** ** The crawl and its extractors *)

Section CrawlFacts.
Import Py Json Article Eff Sample.

(** X1: an address that is not accepted is refused before anything else
    happens, in both backends: [crawl] raises a [ValueError] and the world
    is as before.  The message is the one of [urlparse] when [urlparse]
    itself refuses the address, and names the address when its host is not
    on the allow-list.  Through the tool, with a spider at hand, the caller
    gets the error object of type [ValueError] with that message, and
    nothing was called. *)
Theorem crawl_rejects_foreign_url
    {O : WeixinSpider.Outside} {G : WeixinSpiderAB.Agent} {C : Server.Config} :
  (forall self u dl dir wt w,
     WeixinSpider._is_valid_weixin_url u <> Ok true ->
     WeixinSpider.crawl self u dl dir wt w
     = (Raise (Exn ValueError
                 (rejection_message (WeixinSpider.urlparse_error u) u)), w)) /\
  (forall u dl dir wt w,
     WeixinSpiderAB._is_valid_weixin_url u <> Ok true ->
     WeixinSpiderAB.crawl u dl dir wt w
     = (Raise (Exn ValueError
                 (rejection_message (WeixinSpiderAB.urlparse_error u) u)), w)) /\
  (forall self u dl label w,
     WeixinSpider._is_valid_weixin_url u <> Ok true ->
     WeixinSpider.instance w = Some self ->
     Server.crawl_weixin_article u dl label w
     = (Ok (JDict [("error"%string,
                    JStr (rejection_message (WeixinSpider.urlparse_error u) u));
                   ("type"%string, JStr (lit "ValueError"))]), w)).
Proof.
  split; [|split].
  - intros self u dl dir wt w H. unfold WeixinSpider.crawl.
    unfold WeixinSpider._is_valid_weixin_url in *.
    destruct (WeixinSpider.urlparse_error u); [reflexivity|].
    destruct (_ || _); [now destruct H|reflexivity].
  - intros u dl dir wt w H. unfold WeixinSpiderAB.crawl.
    unfold WeixinSpiderAB._is_valid_weixin_url in *.
    destruct (WeixinSpiderAB.urlparse_error u); [reflexivity|].
    destruct (_ || _); [now destruct H|reflexivity].
  - intros self u dl label w H Hi.
    unfold Server.crawl_weixin_article, try_except, bind,
      Server.get_spider, WeixinSpider.get_instance.
    rewrite Hi. unfold WeixinSpider.crawl.
    unfold WeixinSpider._is_valid_weixin_url in *.
    destruct (WeixinSpider.urlparse_error u); [reflexivity|].
    destruct (_ || _); [now destruct H|reflexivity].
Qed.

(** A host off the allow-list, and a host [urlparse] cannot read. *)
Lemma crawl_rejects_foreign_url_witness :
  fst (@Server.crawl_weixin_article (scripted (site_of (page_with 2)))
         (config true) url_foreign true None (running_world _))
  = Ok (JDict [("error",
                JStr (lit "Invalid WeChat article URL: https://example.com/s/a"));
               ("type", JStr (lit "ValueError"))]%string) /\
  fst (@Server.crawl_weixin_article (scripted (site_of (page_with 2)))
         (config true) url_bracket true None (running_world _))
  = Ok (JDict [("error", JStr (lit "Invalid IPv6 URL"));
               ("type", JStr (lit "ValueError"))]%string).
Proof.
  split.
  - rewrite (proj2 (proj2 (@crawl_rejects_foreign_url
                             (scripted (site_of (page_with 2)))
                             (scripted_agent ab_down) (config true)))
               running url_foreign true None (running_world _)
               ltac:(discriminate) eq_refl).
    reflexivity.
  - rewrite (proj2 (proj2 (@crawl_rejects_foreign_url
                             (scripted (site_of (page_with 2)))
                             (scripted_agent ab_down) (config true)))
               running url_bracket true None (running_world _)
               ltac:(discriminate) eq_refl).
    reflexivity.
Defined.

Lemma returns_selenium_content_text {O : WeixinSpider.Outside} self :
  returns (WeixinSpider._extract_content_text self) (fun t => strip t = t).
Proof.
  unfold WeixinSpider._extract_content_text.
  apply returns_try_except.
  - eapply returns_bind; [apply returns_any|]. intros c _.
    eapply returns_bind; [apply returns_any|]. intros t _.
    apply returns_ret, strip_idempotent.
  - intros e. apply returns_ret. reflexivity.
Qed.

Lemma returns_ab_extract_text {G : WeixinSpiderAB.Agent} selector :
  returns (WeixinSpiderAB._extract_text selector) (fun t => strip t = t).
Proof.
  unfold WeixinSpiderAB._extract_text.
  eapply returns_bind; [apply returns_any|]. intros [success output] _.
  destruct success; [|apply returns_ret; reflexivity].
  destruct (has_key "text" _).
  - destruct (getitem _ "text") as [e|[]];
      try (intros w a w' E; discriminate E).
    apply returns_ret, strip_idempotent.
  - destruct (WeixinSpiderAB._parse_json output);
      apply returns_ret; try reflexivity. apply strip_idempotent.
Qed.

Lemma returns_selenium_crawl_invariants {O : WeixinSpider.Outside}
    self u dl dir wt :
  returns (WeixinSpider.crawl self u dl dir wt)
    (fun a => url a = u /\ WeixinSpider._is_valid_weixin_url u = Ok true /\
              strip (content_text a) = content_text a /\
              word_count a = len (content_text a)).
Proof.
  unfold WeixinSpider.crawl.
  destruct (WeixinSpider._is_valid_weixin_url u) as [e0|[|]] eqn:Hv;
    try apply returns_raise.
  cbn [negb].
  do 9 (eapply returns_bind; [apply returns_any|]; intros ? _).
  eapply returns_bind; [apply returns_selenium_content_text|].
  intros t Ht.
  eapply returns_bind; [apply returns_any|]; intros ? _.
  apply returns_ret. simpl. auto.
Qed.

Lemma returns_ab_crawl_invariants {G : WeixinSpiderAB.Agent} u dl dir wt :
  returns (WeixinSpiderAB.crawl u dl dir wt)
    (fun a => url a = u /\ WeixinSpiderAB._is_valid_weixin_url u = Ok true /\
              strip (content_text a) = content_text a /\
              word_count a = len (content_text a)).
Proof.
  unfold WeixinSpiderAB.crawl.
  destruct (WeixinSpiderAB._is_valid_weixin_url u) as [e0|[|]] eqn:Hv;
    try apply returns_raise.
  cbn [negb].
  do 3 (eapply returns_bind; [apply returns_any|]; intros ? _).
  destruct a1 as [success output].
  destruct (negb success); [apply returns_raise|].
  do 3 (eapply returns_bind; [apply returns_any|]; intros ? _).
  destruct (_ || _); [apply returns_raise|].
  do 6 (eapply returns_bind; [apply returns_any|]; intros ? _).
  eapply returns_bind; [apply returns_ab_extract_text|].
  intros t Ht.
  eapply returns_bind; [apply returns_any|]; intros ? _.
  apply returns_ret. simpl. auto.
Qed.

(** X2: an article returned by a crawl, in either backend, carries the
    address that was asked for, which is on the allow-list; its text has
    no whitespace at either end and its word count is the length of its
    text. *)
Theorem crawl_article_invariants
    {O : WeixinSpider.Outside} {G : WeixinSpiderAB.Agent} :
  (forall self u dl dir wt w a w',
     WeixinSpider.crawl self u dl dir wt w = (Ok a, w') ->
     url a = u /\ WeixinSpider._is_valid_weixin_url u = Ok true /\
     strip (content_text a) = content_text a /\
     word_count a = len (content_text a)) /\
  (forall u dl dir wt w a w',
     WeixinSpiderAB.crawl u dl dir wt w = (Ok a, w') ->
     url a = u /\ WeixinSpiderAB._is_valid_weixin_url u = Ok true /\
     strip (content_text a) = content_text a /\
     word_count a = len (content_text a)).
Proof.
  split.
  - intros self u dl dir wt w a w' H.
    exact (returns_selenium_crawl_invariants self u dl dir wt _ _ _ H).
  - intros u dl dir wt w a w' H.
    exact (returns_ab_crawl_invariants u dl dir wt _ _ _ H).
Qed.

Lemma crawl_article_invariants_witness :
  match @WeixinSpider.crawl (scripted (site_of (container (lit "  hello ") [])))
          running url_a false None 10 (running_world _) with
  | (Ok a, _) => content_text a = lit "hello" /\ word_count a = 5 /\
                 url a = url_a
  | (Raise _, _) => False
  end.
Proof.
  destruct (WeixinSpider.crawl _ _ _ _ _ _) as [[e|a] w'] eqn:E.
  - vm_compute in E. discriminate E.
  - destruct (proj1 (@crawl_article_invariants
                       (scripted (site_of (container (lit "  hello ") [])))
                       (scripted_agent ab_down)) _ _ _ _ _ _ _ _ E)
      as (Hu & _ & _ & Hw).
    vm_compute in E. injection E as <- _.
    split; [reflexivity|]. split; [exact Hw|exact Hu].
Defined.

End CrawlFacts.

Section Extractors.
Import Py Json Article Eff Sample WeixinSpider.
Context {O : Outside}.

Lemma first_text_world self selectors : forall w r w',
  first_text self selectors w = (r, w') -> w' = w.
Proof.
  induction selectors as [|sel rest IH]; intros w r w'; simpl.
  - now intros [= _ <-].
  - unfold bind, attempt, with_driver.
    destruct (_driver self).
    + unfold read. destruct (find_css_text sel (outside w)) as [e|t].
      * destruct (is_NoSuchElement e); [apply IH|now intros [= _ <-]].
      * destruct (strip t); [apply IH|now intros [= _ <-]].
    + unfold raise. simpl. now intros [= _ <-].
Qed.

Lemma first_text_sound self selectors : forall w t w',
  first_text self selectors w = (Ok t, w') -> t <> [] ->
  exists selector raw,
    first_match (outside w) selectors selector raw /\ t = strip raw.
Proof.
  induction selectors as [|sel rest IH]; intros w t w'; simpl.
  - intros [= <- _] H. now destruct H.
  - unfold bind, attempt, with_driver.
    destruct (_driver self); [|unfold raise; simpl; discriminate].
    unfold read. destruct (find_css_text sel (outside w)) as [e|raw] eqn:Ef.
    + destruct (is_NoSuchElement e) eqn:En; [|discriminate].
      intros H Ht. destruct (IH _ _ _ H Ht) as (s & r & Hm & ->).
      destruct Hm as (before & after & -> & Hb & Hf & Hs).
      exists s, r. split; [|reflexivity].
      exists (sel :: before), after. repeat split; auto.
      constructor; [|exact Hb]. unfold blank_or_absent. now rewrite Ef.
    + destruct (strip raw) as [|c s] eqn:Es.
      * intros H Ht. destruct (IH _ _ _ H Ht) as (s & r & Hm & ->).
        destruct Hm as (before & after & -> & Hb & Hf & Hs).
        exists s, r. split; [|reflexivity].
        exists (sel :: before), after. repeat split; auto.
        constructor; [|exact Hb]. unfold blank_or_absent. now rewrite Ef.
      * intros [= <- _] _. exists sel, raw. split; [|now rewrite Es].
        exists [], rest. repeat split; auto. now rewrite Es.
Qed.

Lemma first_text_complete self w selector raw : forall before after,
  _driver self = Some tt ->
  Forall (blank_or_absent (outside w)) before ->
  find_css_text selector (outside w) = Ok raw ->
  strip raw <> [] ->
  first_text self (before ++ selector :: after) w = (Ok (strip raw), w).
Proof.
  intros before after Hd Hb Hf Hs.
  induction Hb as [|sel before Hsel _ IH]; simpl;
    unfold bind, attempt, with_driver; rewrite Hd; unfold read.
  - rewrite Hf. destruct (strip raw); [now destruct Hs|reflexivity].
  - unfold blank_or_absent in Hsel.
    destruct (find_css_text sel (outside w)) as [e|t].
    + rewrite Hsel. exact IH.
    + rewrite Hsel. exact IH.
Qed.

Lemma extracts_first_selectors self w selectors :
  extracts_first selectors self w
    (try_except (first_text self selectors) (fun _ => ret [])).
Proof.
  unfold extracts_first, try_except.
  destruct (first_text self selectors w) as [[e|t] w'] eqn:E;
    pose proof (first_text_world _ _ _ _ _ E) as ->.
  - exists []. split; [reflexivity|]. split; [intros H; now destruct H|].
    intros Hd s raw (before & after & -> & Hb & Hf & Hs).
    rewrite (first_text_complete self w s raw before after Hd Hb Hf Hs) in E.
    discriminate E.
  - exists t. split; [reflexivity|]. split.
    + apply (first_text_sound _ _ _ _ _ E).
    + intros Hd s raw (before & after & -> & Hb & Hf & Hs).
      rewrite (first_text_complete self w s raw before after Hd Hb Hf Hs) in E.
      now injection E as <-.
Qed.

(** X3: the four field extractors of the Selenium spider never raise and
    leave the world as it is.  The first selector, in the order of the
    list, whose element exists with a text that is not blank decides the
    field, which holds that text stripped; a field is empty only when no
    selector decides (or when an exception other than a missing element
    was met before one did). *)
Theorem field_extractors_first_match (self : Spider) (w : World) :
  extracts_first title_selectors self w (_extract_title self) /\
  extracts_first author_selectors self w (_extract_author self) /\
  extracts_first account_name_selectors self w (_extract_account_name self) /\
  extracts_first publish_date_selectors self w (_extract_publish_date self).
Proof. repeat split; apply extracts_first_selectors. Qed.

(** X4: the content and image extractors of the Selenium spider never
    raise and leave the world as it is; when the content container cannot
    be found they return the empty string and the empty list. *)
Theorem content_extractors_absorb (self : Spider) (w : World) :
  (exists html text images,
     _extract_content_html self w = (Ok html, w) /\
     _extract_content_text self w = (Ok text, w) /\
     _extract_image_urls self w = (Ok images, w)) /\
  (forall e, find_js_content (outside w) = Raise e ->
     _extract_content_html self w = (Ok [], w) /\
     _extract_content_text self w = (Ok [], w) /\
     _extract_image_urls self w = (Ok [], w)).
Proof.
  unfold _extract_content_html, _extract_content_text, _extract_image_urls,
    try_except, bind, with_driver, read, lift, raise, ret.
  split.
  - destruct (_driver self); [|repeat eexists].
    destruct (find_js_content (outside w)) as [e|c]; [repeat eexists|].
    destruct (get_innerHTML c), (get_text c), (find_img_elements c);
      repeat eexists.
  - intros e He. destruct (_driver self); [rewrite He|]; auto.
Qed.

End Extractors.

Section ExtractorsSample.
Import Py Json Article Eff Sample WeixinSpider.

(** The title element is blank, [#activity-name] holds the title. *)
Lemma field_extractors_first_match_witness :
  fst (@_extract_title titled running titled_world) = Ok (lit "News").
Proof.
  destruct (proj1 (@field_extractors_first_match titled running titled_world))
    as (t & E & _ & H).
  rewrite E. simpl. f_equal.
  apply (H eq_refl (lit "#activity-name") (lit " News ")).
  exists [lit "h1.rich_media_title"], [lit "h1"].
  split; [reflexivity|]. split; [|split; [reflexivity|discriminate]].
  constructor; [reflexivity|constructor].
Defined.

Lemma content_extractors_absorb_witness :
  @_extract_image_urls titled running titled_world = (Ok [], titled_world).
Proof.
  apply (proj2 (@content_extractors_absorb titled running titled_world)
           (Exn NoSuchElementException (lit "no such element"))).
  reflexivity.
Defined.

End ExtractorsSample.

(** ** Downloads *)

Section Downloads.
Import Py Json Article Eff Sample WeixinSpider.
Context {O : Outside}.

Lemma extension_known ct : In (extension ct) extensions.
Proof.
  unfold extension, extensions.
  destruct (_ || _); [now left|].
  destruct (contains (lit "png") ct); [right; now left|].
  destruct (contains (lit "gif") ct); [right; right; now left|].
  destruct (contains (lit "webp") ct); [right; right; right; now left|].
  now left.
Qed.

Lemma download_one_total dir im w :
  exists im' w', download_one dir im w = (Ok im', w') /\ downloaded dir im im'.
Proof.
  assert (Hsame : downloaded dir im im) by (repeat split; now left).
  unfold download_one, try_except, bind, call, ret.
  destruct (requests_get (img_url im) (outside w)) as [[e|r] o];
    [eexists; eexists; split; [reflexivity|exact Hsame]|].
  destruct (status_code r =? 200);
    [|eexists; eexists; split; [reflexivity|exact Hsame]].
  cbn [outside].
  destruct (write_file _ _ o) as [[e|[]] o'];
    [eexists; eexists; split; [reflexivity|exact Hsame]|].
  eexists. eexists. split; [reflexivity|].
  repeat split. right. exists (extension (content_type r)).
  split; [apply extension_known|reflexivity].
Qed.

Lemma download_all_total dir images : forall w,
  exists images' w',
    download_all dir images w = (Ok images', w') /\
    Forall2 (downloaded dir) images images'.
Proof.
  induction images as [|im images IH]; intros w; simpl.
  - exists [], w. split; [reflexivity|constructor].
  - destruct (download_one_total dir im w) as (im' & w1 & E1 & H1).
    destruct (IH w1) as (rest & w2 & E2 & H2).
    exists (im' :: rest), w2. split; [|now constructor].
    unfold bind. rewrite E1, E2. reflexivity.
Qed.

(** X5: the download loop never raises, whatever the network and the disk
    do: it returns the entries in the same number and order, each with its
    index, address and alternative text, and with either the local path it
    had or the path [image_NNN] plus a known extension under the output
    directory. *)
Theorem download_all_isolated (dir : pystr) (images : list image) (w : World) :
  exists images' w',
    download_all dir images w = (Ok images', w') /\
    Forall2 (downloaded dir) images images'.
Proof. apply download_all_total. Qed.

Lemma without_path_downloaded dir images images' :
  Forall (fun im => local_path im = None) images ->
  Forall2 (downloaded dir) images images' ->
  map without_path images' = images.
Proof.
  intros Hn H. induction H as [|im im' images images' Hd _ IH]; [reflexivity|].
  inversion Hn as [|? ? Hp Hn']; subst. simpl. rewrite (IH Hn'). f_equal.
  destruct Hd as (Hi & Hu & Ha & _). destruct im. simpl in *.
  unfold without_path. now rewrite Hi, Hu, Ha, Hp.
Qed.

Lemma extract_image_urls_no_path self w images w' :
  _extract_image_urls self w = (Ok images, w') ->
  Forall (fun im => local_path im = None) images.
Proof.
  revert w images w'.
  change (returns (_extract_image_urls self)
            (fun images => Forall (fun im => local_path im = None) images)).
  unfold _extract_image_urls. apply returns_try_except.
  - eapply returns_bind; [apply returns_any|]. intros c _.
    eapply returns_bind; [apply returns_any|]. intros imgs _.
    apply returns_ret. apply collect_images_no_path. constructor.
  - intros e. apply returns_ret. constructor.
Qed.

(** [encode] raises on the first surrogate, and only on a surrogate. *)
Lemma encode_from_raise s : forall pos e,
  encode_from pos s = Raise e ->
  exn_type e = UnicodeEncodeError /\ existsb is_surrogate s = true.
Proof.
  induction s as [|c s IH]; intros pos e; simpl; [discriminate|].
  destruct (is_surrogate c).
  - intros [= <-]. split; reflexivity.
  - unfold rmap, rbind.
    destruct (encode_from (pos + 1) s) as [e'|b] eqn:E; [|discriminate].
    intros [= <-]. exact (IH _ _ E).
Qed.

Lemma encode_from_ok s : forall pos,
  existsb is_surrogate s = false -> exists data, encode_from pos s = Ok data.
Proof.
  induction s as [|c s IH]; intros pos; simpl; [eexists; reflexivity|].
  destruct (is_surrogate c); [discriminate|]. simpl. intros H.
  destruct (IH (pos + 1)%N H) as (data & ->). eexists. reflexivity.
Qed.

(** The function after the extraction of a list of entries that is not
    empty: the directory, its creation, the loop. *)
Lemma download_run self article_url output_dir w im images :
  _extract_image_urls self w = (Ok (im :: images), w) ->
  _extract_and_download_images self article_url output_dir w
  = match download_dir article_url output_dir with
    | Raise e => (Raise e, w)
    | Ok dir =>
        (call (EvMkdir dir) (mkdir_parents dir) ;;;
         download_all dir (im :: images))%eff w
    end.
Proof.
  intros E. unfold _extract_and_download_images, bind at 1. rewrite E.
  unfold download_dir. destruct output_dir as [d|]; [reflexivity|].
  unfold bind at 1. unfold bind at 1. unfold lift, rmap, rbind.
  destruct (encode article_url); reflexivity.
Qed.

(** X6: a crawl that downloads extracts the same entries as one that does
    not.  With no entry nothing is created.  Otherwise the directory is
    determined first: without a directory from the caller, an address that
    holds a surrogate cannot be encoded for the hash, and the
    [UnicodeEncodeError] is raised with nothing created; in every other
    case there is a directory.  It is created before any fetch: if that
    fails the exception is raised (with the one before, the failures of
    the download that are not absorbed); if not, the entries come back in
    the same order, the same but for their local paths. *)
Theorem download_after_extraction (self : Spider) (article_url : pystr)
    (output_dir : option pystr) (w : World) (images : list image) :
  _extract_image_urls self w = (Ok images, w) ->
  (images = [] ->
   _extract_and_download_images self article_url output_dir w = (Ok [], w)) /\
  (images <> [] ->
   (forall e,
      download_dir article_url output_dir = Raise e ->
      _extract_and_download_images self article_url output_dir w
      = (Raise e, w) /\
      output_dir = None /\ exn_type e = UnicodeEncodeError /\
      existsb is_surrogate article_url = true) /\
   (output_dir <> None \/ existsb is_surrogate article_url = false ->
    exists dir, download_dir article_url output_dir = Ok dir) /\
   (forall dir,
      download_dir article_url output_dir = Ok dir ->
      (forall e o,
         mkdir_parents dir (outside w) = (Raise e, o) ->
         fst (_extract_and_download_images self article_url output_dir w)
         = Raise e) /\
      (forall o,
         mkdir_parents dir (outside w) = (Ok tt, o) ->
         exists images' w',
           _extract_and_download_images self article_url output_dir w
           = (Ok images', w') /\
           map without_path images' = images))).
Proof.
  intros E. pose proof (extract_image_urls_no_path _ _ _ _ E) as Hn.
  split.
  - intros ->. unfold _extract_and_download_images, bind. now rewrite E.
  - intros Hne. destruct images as [|im images]; [now destruct Hne|].
    rewrite (download_run _ article_url output_dir _ _ _ E).
    split; [|split].
    + intros e He. rewrite He. split; [reflexivity|].
      unfold download_dir in He. destruct output_dir as [d|]; [discriminate|].
      split; [reflexivity|]. unfold rmap, rbind, encode in He.
      destruct (encode_from 0 article_url) as [e'|data] eqn:Ee; [|discriminate].
      injection He as <-. exact (encode_from_raise _ _ _ Ee).
    + intros [Hd|Hs]; unfold download_dir.
      * destruct output_dir as [d|]; [eexists; reflexivity|now destruct Hd].
      * destruct output_dir as [d|]; [eexists; reflexivity|].
        destruct (encode_from_ok article_url 0 Hs) as (data & Hdata).
        unfold encode. rewrite Hdata. eexists. reflexivity.
    + intros dir Hdir. rewrite Hdir. split.
      * intros e o Hm. unfold bind, call. rewrite Hm. reflexivity.
      * intros o Hm. unfold bind, call. rewrite Hm.
        destruct (download_all_total dir (im :: images)
                    {| instance := instance w; outside := o;
                       log := log w ++ [EvMkdir dir] |})
          as (images' & w' & Ed & Hd).
        exists images', w'. split; [exact Ed|].
        now apply (without_path_downloaded _ _ _ Hn Hd).
Qed.

End Downloads.

Section DownloadsSample.
Import Py Json Article Eff Sample WeixinSpider.

(** Two pictures downloaded under the hash of the address; and an address
    with a surrogate, for which the download raises before any directory
    is made. *)
Lemma download_after_extraction_witness :
  (exists images' w',
     @_extract_and_download_images (scripted (site_of (page_with 2)))
        running url_a None (running_world _) = (Ok images', w') /\
     map without_path images'
     = expected_entries 0 (repeat (Some (png "p.png"), None, None) 2)) /\
  @_extract_and_download_images (scripted (site_of (page_with 2)))
     running url_surrogate None (running_world _)
  = (Raise (Exn UnicodeEncodeError
              (lit "'utf-8' codec can't encode character '\ud800' in position 27: surrogates not allowed")),
     running_world _).
Proof.
  pose proof (@download_after_extraction (scripted (site_of (page_with 2)))
                running) as H.
  split.
  - destruct (H url_a None (running_world _)
                (expected_entries 0 (repeat (Some (png "p.png"), None, None) 2))
                eq_refl) as [_ Hne].
    destruct (Hne ltac:(discriminate)) as (_ & _ & Hdir).
    apply (proj2 (Hdir (lit "./downloads/01234567") eq_refl) []).
    reflexivity.
  - destruct (H url_surrogate None (running_world _)
                (expected_entries 0 (repeat (Some (png "p.png"), None, None) 2))
                eq_refl) as [_ Hne].
    destruct (Hne ltac:(discriminate)) as (Hraise & _).
    apply (proj1 (Hraise (Exn UnicodeEncodeError _) eq_refl)).
Defined.

End DownloadsSample.

(** ** The rankings of a comparison *)

Section Rankings.
Import Py Json Article Eff Sample WeixinSpider Server.

Lemma Forall_insert_desc {A} (P : Z * A -> Prop) x l :
  P x -> Forall P l -> Forall P (insert_desc x l).
Proof.
  intros Hx Hl. induction Hl as [|y l Hy Hl IH]; simpl.
  - now constructor.
  - destruct (fst x <? fst y); repeat constructor; auto.
Qed.

Lemma insert_desc_sorted {A} (x : Z * A) l :
  StronglySorted (fun p q => fst q <= fst p) l ->
  StronglySorted (fun p q => fst q <= fst p) (insert_desc x l).
Proof.
  induction 1 as [|y l Hs IH Hy]; simpl.
  - repeat constructor.
  - destruct (Z.ltb_spec (fst x) (fst y)) as [Hlt|Hge].
    + constructor; [exact IH|].
      apply Forall_insert_desc; [lia|exact Hy].
    + constructor; [now constructor|].
      constructor; [exact Hge|].
      eapply Forall_impl; [|exact Hy]. simpl. intros; lia.
Qed.

Lemma sort_desc_sorted {A} (l : list (Z * A)) :
  StronglySorted (fun p q => fst q <= fst p) (fold_right insert_desc [] l).
Proof.
  induction l as [|x l IH]; simpl; [constructor|].
  now apply insert_desc_sorted.
Qed.

(** An element is inserted after the greater ones and before the equal
    ones: among the elements of one key the order is that of arrival. *)
Lemma insert_desc_stable {A} (x : Z * A) l k :
  filter (fun p => fst p =? k) (insert_desc x l)
  = filter (fun p => fst p =? k) (x :: l).
Proof.
  induction l as [|y l IH]; [reflexivity|]. simpl insert_desc.
  destruct (Z.ltb_spec (fst x) (fst y)) as [Hlt|Hge]; [|reflexivity].
  simpl in *. rewrite IH.
  destruct (Z.eqb_spec (fst x) k) as [Hx|Hx]; [|reflexivity].
  destruct (Z.eqb_spec (fst y) k) as [Hy|Hy]; [lia|reflexivity].
Qed.

Lemma sort_desc_stable {A} (l : list (Z * A)) k :
  filter (fun p => fst p =? k) (fold_right insert_desc [] l)
  = filter (fun p => fst p =? k) l.
Proof.
  induction l as [|x l IH]; [reflexivity|].
  simpl fold_right. rewrite insert_desc_stable. simpl. now rewrite IH.
Qed.

Lemma insert_desc_map {A B} (h : A -> B) (x : Z * A) l :
  map (fun p => (fst p, h (snd p))) (insert_desc x l)
  = insert_desc (fst x, h (snd x)) (map (fun p => (fst p, h (snd p))) l).
Proof.
  induction l as [|y l IH]; [reflexivity|]. simpl.
  destruct (fst x <? fst y); simpl; [now rewrite IH|reflexivity].
Qed.

Lemma sort_desc_map {A B} (h : A -> B) (l : list (Z * A)) :
  fold_right insert_desc [] (map (fun p => (fst p, h (snd p))) l)
  = map (fun p => (fst p, h (snd p))) (fold_right insert_desc [] l).
Proof.
  induction l as [|x l IH]; [reflexivity|].
  simpl. now rewrite IH, insert_desc_map.
Qed.

Lemma combine_map_map {A B X} (g : X -> A) (h : X -> B) l :
  combine (map g l) (map h l) = map (fun p => (g p, h p)) l.
Proof. induction l as [|x l IH]; simpl; [reflexivity|now rewrite IH]. Qed.

(** The ranking of the images of [ps] under [h] by a key [g] read through
    [key]: it is the image of a ranking of [ps]. *)
Lemma sorted_reverse_ranked {X} (key : json -> result Z) (h : X -> json)
    (g : X -> Z) (ps : list X) :
  Forall (fun p => key (h p) = Ok (g p)) ps ->
  exists ps', sorted_reverse key (map h ps) = Ok (map h ps') /\
              ranked_by g ps ps'.
Proof.
  intros Hk. unfold sorted_reverse.
  rewrite (rmapM_map_ok key h g ps Hk). cbn [rbind].
  exists (map snd (fold_right insert_desc [] (map (fun p => (g p, p)) ps))).
  split.
  - f_equal. rewrite combine_map_map.
    replace (map (fun p => (g p, h p)) ps)
      with (map (fun q => (fst q, h (snd q))) (map (fun p => (g p, p)) ps))
      by (rewrite map_map; reflexivity).
    rewrite sort_desc_map, !map_map. reflexivity.
  - set (pairs := map (fun p => (g p, p)) ps).
    assert (Hinv : Forall (fun q => fst q = g (snd q))
                     (fold_right insert_desc [] pairs)).
    { eapply Permutation_Forall; [symmetry; apply sort_desc_perm|].
      unfold pairs. apply Forall_map. apply Forall_forall. reflexivity. }
    split.
    + pose proof (sort_desc_sorted pairs) as Hs.
      induction Hs as [|q l Hs IH Hq]; simpl; [constructor|].
      inversion Hinv as [|? ? Hq0 Hl]; subst.
      constructor; [apply IH, Hl|].
      apply Forall_map. rewrite Forall_forall in *.
      intros r Hr. rewrite <- Hq0, <- (Hl r Hr). apply Hq, Hr.
    + intros k.
      assert (Hf : forall l, Forall (fun q : Z * X => fst q = g (snd q)) l ->
                   filter (fun p => g p =? k) (map snd l)
                   = map snd (filter (fun q => fst q =? k) l)).
      { induction 1 as [|q l Hq _ IH]; [reflexivity|].
        simpl. rewrite <- Hq, IH. destruct (fst q =? k); reflexivity. }
      rewrite (Hf _ Hinv), sort_desc_stable, <- Hf.
      * unfold pairs. rewrite map_map. simpl. now rewrite map_id.
      * unfold pairs. apply Forall_map. apply Forall_forall. reflexivity.
Qed.

Context {O : Outside} {RE : Regex} {C : Config}.

(** X7: in the report of [compare_articles] the ranking [by_word_count]
    lists the successful entries by decreasing word count, and
    [by_image_count] by decreasing number of images; entries with equal
    counts keep the order of the addresses. *)
Theorem compare_articles_rankings
    (urls : list pystr) (w w0 w' : World) (spider : Spider)
    (outs : list (pystr * result (ArticleContent * json))) :
  2 <= len urls <= 5 ->
  get_spider w = (Ok spider, w0) ->
  attempts spider urls w0 = (Ok outs, w') ->
  Forall (fun p => word_count (fst p) < 2 ^ 63) (succeeded outs) ->
  exists by_words by_images stats,
    compare_articles urls w
    = (Ok (JDict
             [("articles", JList (map entry_of outs));
              ("comparison",
               JDict
                 [("by_word_count", JList (map success_entry by_words));
                  ("by_image_count", JList (map success_entry by_images));
                  ("stats", stats)])]%string),
       w') /\
    ranked_by (fun p => word_count (fst p)) (succeeded outs) by_words /\
    ranked_by (fun p => len (images (fst p))) (succeeded outs) by_images.
Proof.
  intros Hlen Hspider Hatt Hbound.
  destruct (attempts_sound _ _ _ _ _ Hatt) as [Hurls Hsound].
  destruct (sorted_reverse_ranked (analysis_field "word_count") success_entry
              (fun p => word_count (fst p)) (succeeded outs))
    as (by_words & Ewc & Rwc).
  { eapply Forall_impl; [|exact Hsound].
    intros p Hp. exact (proj1 (analysis_fields p Hp)). }
  destruct (sorted_reverse_ranked (analysis_field "image_count") success_entry
              (fun p => len (images (fst p))) (succeeded outs))
    as (by_images & Eic & Ric).
  { eapply Forall_impl; [|exact Hsound].
    intros p Hp. exact (proj2 (analysis_fields p Hp)). }
  assert (Ecounts : rmapM (analysis_field "word_count")
                      (map success_entry (succeeded outs))
                    = Ok (map (fun p => word_count (fst p)) (succeeded outs))).
  { apply rmapM_map_ok. eapply Forall_impl; [|exact Hsound].
    intros p Hp. exact (proj1 (analysis_fields p Hp)). }
  assert (Hn : len (succeeded outs) <= 5).
  { pose proof (length_succeeded outs) as H.
    assert (len outs = len urls)
      by (rewrite <- Hurls; unfold len; now rewrite length_map).
    lia. }
  destruct (truediv_ok
              (sum (map (fun p => word_count (fst p)) (succeeded outs)))
              (Z.max (len (succeeded outs)) 1)) as (avg & Eavg & _).
  { pose proof (sum_bounds (2 ^ 63)
                  (map (fun p => word_count (fst p)) (succeeded outs))) as H.
    assert (Hall : Forall (fun x => 0 <= x < 2 ^ 63)
                     (map (fun p => word_count (fst p)) (succeeded outs))).
    { apply Forall_map. rewrite Forall_forall in *.
      intros p Hp. specialize (Hsound p Hp). specialize (Hbound p Hp).
      destruct Hsound as [_ Hwc]. simpl in *.
      pose proof (len_nonneg (content_text (fst p))). lia. }
    specialize (H Hall).
    assert (len (map (fun p => word_count (fst p)) (succeeded outs))
            = len (succeeded outs)) as Hl
      by (unfold len; now rewrite length_map).
    rewrite Hl in H.
    pose proof (len_nonneg (succeeded outs)).
    assert (2 ^ 100 = 2 ^ 37 * 2 ^ 63) as ->
      by (rewrite <- Z.pow_add_r; [f_equal|..]; lia).
    assert (0 < 2 ^ 63) by (apply Z.pow_pos_nonneg; lia).
    assert (5 < 2 ^ 37) by (vm_compute; reflexivity).
    nia. }
  { pose proof (len_nonneg (succeeded outs)).
    assert (5 < 2 ^ 100) by (vm_compute; reflexivity). lia. }
  exists by_words, by_images.
  eexists. split; [|split; assumption].
  unfold compare_articles, try_except.
  destruct (Z.ltb_spec (len urls) 2) as [?|_]; [lia|].
  destruct (Z.gtb_spec (len urls) 5) as [?|_]; [lia|].
  unfold bind at 1. rewrite Hspider.
  unfold bind at 1.
  rewrite (compare_loop_outcomes spider urls [] w0 outs w' Hatt).
  cbn [app].
  unfold bind at 1, lift, comparison_of.
  rewrite !filter_entries by auto.
  rewrite Ewc, Eic, Ecounts. cbn [rbind].
  assert (Hl : len (map success_entry (succeeded outs)) = len (succeeded outs))
    by (unfold len; now rewrite length_map).
  rewrite Hl, Eavg. reflexivity.
Qed.

End Rankings.

Section RankingsSample.
Import Py Json Article Eff Sample WeixinSpider Server.

(** Two articles of 2 and 5 characters. *)
Lemma compare_articles_rankings_witness :
  exists outs by_words by_images stats w',
    @compare_articles (scripted site_two_texts) plain_text_re (config true)
       [url_a; url_b] (fresh_world _)
    = (Ok (JDict
             [("articles", JList (map entry_of outs));
              ("comparison",
               JDict
                 [("by_word_count", JList (map success_entry by_words));
                  ("by_image_count", JList (map success_entry by_images));
                  ("stats", stats)])]%string),
       w') /\
    map (fun p => word_count (fst p)) (succeeded outs) = [2; 5] /\
    ranked_by (fun p => word_count (fst p)) (succeeded outs) by_words.
Proof.
  set (O := scripted site_two_texts).
  destruct (@get_spider O (fresh_world _)) as [[e|spider] w0] eqn:Es;
    [vm_compute in Es; discriminate Es|].
  destruct (@attempts_total O plain_text_re (config true) spider
              [url_a; url_b] w0) as (outs & w' & Ea).
  assert (Es' := Es). vm_compute in Es'. injection Es' as <- <-.
  assert (Ea' := Ea). vm_compute in Ea'. injection Ea' as <- <-.
  destruct (@compare_articles_rankings O plain_text_re (config true)
              [url_a; url_b] _ _ _ _ _
              ltac:(vm_compute; split; discriminate) Es Ea
              ltac:(repeat constructor))
    as (by_words & by_images & stats & E & Rw & _).
  eexists. exists by_words, by_images, stats. eexists.
  split; [exact E|]. split; [reflexivity|exact Rw].
Defined.

End RankingsSample.

(** ** The tools: what every call returns *)

Section Tools.
Import Py Json Article Eff Sample WeixinSpider Server.
Context {O : Outside} {RE : Regex} {C : Config}.

Lemma batch_loop_outcomes spider dl urls : forall results errors w,
  exists outs w',
    batch_attempts spider dl urls w = (Ok outs, w') /\
    map fst outs = urls /\
    batch_loop spider dl urls results errors w
    = (Ok (results ++ map summarize_article (crawled outs),
           errors ++ map (fun p => error_entry (fst p) (snd p)) (failed outs)),
       w') /\
    Forall (fun p => match snd p with
                     | Ok a => url a = fst p
                     | Raise _ => True
                     end) outs.
Proof.
  induction urls as [|u urls IH]; intros results errors w.
  - exists [], w. simpl. rewrite !app_nil_r. repeat split; constructor.
  - simpl batch_loop. simpl batch_attempts.
    assert (Hloop : forall B (k : result json -> M World B),
              bind (attempt (bind (crawl spider u dl None WAIT_TIME)
                               (fun article => ret (summarize_article article))))
                k w
              = match crawl spider u dl None WAIT_TIME w with
                | (Raise e, w1) => k (Raise e) w1
                | (Ok a, w1) => k (Ok (summarize_article a)) w1
                end).
    { intros B k. unfold bind, attempt, ret.
      destruct (crawl spider u dl None WAIT_TIME w) as [[e|a] w1]; reflexivity. }
    assert (Hspec : forall B (k : result ArticleContent -> M World B),
              bind (batch_attempt_url spider dl u) k w
              = match crawl spider u dl None WAIT_TIME w with
                | (r, w1) => k r w1
                end).
    { intros B k. unfold bind, batch_attempt_url, attempt.
      destruct (crawl spider u dl None WAIT_TIME w) as [r w1]; reflexivity. }
    rewrite Hloop, Hspec.
    destruct (crawl spider u dl None WAIT_TIME w) as [[e|a] w1] eqn:E.
    + destruct (IH results
                  (errors ++ [JDict [("url", JStr u);
                                     ("error", JStr (exn_str e))]%string]) w1)
        as (outs & w' & Ea & Hu & El & Ho).
      exists ((u, Raise e) :: outs), w'.
      split; [unfold bind, ret; now rewrite Ea|].
      split; [simpl; now rewrite Hu|].
      split; [rewrite El; simpl; now rewrite <- app_assoc|].
      constructor; [exact I|exact Ho].
    + destruct (IH (results ++ [summarize_article a]) errors w1)
        as (outs & w' & Ea & Hu & El & Ho).
      exists ((u, Ok a) :: outs), w'.
      split; [unfold bind, ret; now rewrite Ea|].
      split; [simpl; now rewrite Hu|].
      split; [rewrite El; simpl; now rewrite <- app_assoc|].
      constructor; [|exact Ho]. simpl.
      exact (proj1 (returns_selenium_crawl_invariants _ _ _ _ _ _ _ _ E)).
Qed.

Lemma length_outcomes (outs : list (pystr * result ArticleContent)) :
  len (crawled outs) + len (failed outs) = len outs.
Proof.
  unfold len. induction outs as [|[u [e|a]] outs IH]; simpl List.length; lia.
Qed.

(** X8: with a spider at hand, [batch_crawl_articles] returns its report
    for every list of addresses and every outcome of the crawls.  Each
    address is crawled once, in the order of the list and in the world the
    crawls before it left.  [articles] holds the summaries of the articles
    of the crawls that returned, in that order, each article carrying the
    address it was crawled at; [errors] holds, in that order, one object
    per crawl that raised, with the address that failed and the message of
    its exception, and is [null] when none raised; [total] is the number of
    addresses and equals [success] plus [failed]. *)
Theorem batch_crawl_report (urls : list pystr) (download_images : bool)
    (w w0 : World) (spider : Spider) :
  get_spider w = (Ok spider, w0) ->
  exists outs w',
    batch_attempts spider download_images urls w0 = (Ok outs, w') /\
    map fst outs = urls /\
    Forall (fun p => match snd p with
                     | Ok a => url a = fst p
                     | Raise _ => True
                     end) outs /\
    batch_crawl_articles urls download_images w
    = (Ok (JDict [("total", JInt (len urls));
                  ("success", JInt (len (crawled outs)));
                  ("failed", JInt (len (failed outs)));
                  ("articles",
                   JList (map summarize_article (crawled outs)));
                  ("errors",
                   match failed outs with
                   | [] => JNull
                   | _ => JList (map (fun p => error_entry (fst p) (snd p))
                                   (failed outs))
                   end)]%string), w') /\
    len (crawled outs) + len (failed outs) = len urls.
Proof.
  intros Hs.
  destruct (batch_loop_outcomes spider download_images urls [] [] w0)
    as (outs & w' & Ea & Hu & El & Ho).
  exists outs, w'. split; [exact Ea|]. split; [exact Hu|].
  split; [exact Ho|]. split.
  - unfold batch_crawl_articles, try_except, bind. rewrite Hs, El.
    cbn [app]. unfold len. rewrite !length_map.
    destruct (failed outs); reflexivity.
  - rewrite length_outcomes. unfold len. now rewrite <- Hu, length_map.
Qed.

Lemma try_except_ret_ok {A} (c : M World A) (h : pyexn -> A) w :
  exists a w', try_except c (fun e => ret (h e)) w = (Ok a, w').
Proof.
  unfold try_except, ret. destruct (c w) as [[e|a] w']; eexists; eexists;
    reflexivity.
Qed.

(** X9: no tool of the server raises: whatever the outside does, each of
    the five returns an object.  When the browser cannot be acquired, the
    object holds the message of the exception under [error] and a class
    name under [type]: the name of the class of the exception for four of
    the tools (for [compare_articles], given 2 to 5 addresses), and for
    [crawl_weixin_article] the name [ValueError] when the class derives
    from [ValueError], the name of the class otherwise.  The five reports
    agree exactly when the exception is no instance of [ValueError] or its
    class is named [ValueError]. *)
Theorem tools_never_raise (u : pystr) (urls : list pystr)
    (download_images : bool) (label : option pystr) (w : World) :
  (exists j1 j2 j3 j4 j5 w1 w2 w3 w4 w5,
     crawl_weixin_article u download_images label w = (Ok j1, w1) /\
     analyze_weixin_article u w = (Ok j2, w2) /\
     summarize_weixin_article u w = (Ok j3, w3) /\
     batch_crawl_articles urls download_images w = (Ok j4, w4) /\
     compare_articles urls w = (Ok j5, w5)) /\
  (forall e w',
     get_spider w = (Raise e, w') ->
     crawl_weixin_article u download_images label w
     = (Ok (crawl_error_report e), w') /\
     analyze_weixin_article u w = (Ok (error_object e), w') /\
     summarize_weixin_article u w = (Ok (error_object e), w') /\
     batch_crawl_articles urls download_images w
     = (Ok (error_object e), w') /\
     (2 <= len urls <= 5 ->
      compare_articles urls w = (Ok (error_object e), w')) /\
     (crawl_error_report e = error_object e <->
      isinstance e ValueError = false
      \/ class_name (exn_type e) = lit "ValueError")).
Proof.
  split.
  - assert (H1 : exists j w1,
               crawl_weixin_article u download_images label w = (Ok j, w1)).
    { unfold crawl_weixin_article, try_except.
      destruct (bind get_spider _ w) as [[e|a] w1];
        [|eexists; eexists; reflexivity].
      destruct (isinstance e ValueError); eexists; eexists; reflexivity. }
    destruct H1 as (j1 & w1 & H1).
    destruct (try_except_ret_ok
                (spider <- get_spider ;;
                 article <- crawl spider u false None WAIT_TIME ;;
                 analysis <- lift (analyze_article article) ;;
                 ret (JDict [("content", to_dict article);
                             ("analysis", analysis)]%string))%eff
                error_object w) as (j2 & w2 & H2).
    destruct (try_except_ret_ok
                (spider <- get_spider ;;
                 article <- crawl spider u false None WAIT_TIME ;;
                 ret (summarize_article article))%eff
                error_object w) as (j3 & w3 & H3).
    assert (H4 : exists j w4,
               batch_crawl_articles urls download_images w = (Ok j, w4))
      by apply try_except_ret_ok.
    destruct H4 as (j4 & w4 & H4).
    assert (H5 : exists j w5, compare_articles urls w = (Ok j, w5))
      by apply try_except_ret_ok.
    destruct H5 as (j5 & w5 & H5).
    exists j1, j2, j3, j4, j5, w1, w2, w3, w4, w5. auto.
  - intros e w' Hs.
    unfold crawl_weixin_article, analyze_weixin_article,
      summarize_weixin_article, batch_crawl_articles, compare_articles,
      try_except, bind.
    rewrite Hs. split; [|split; [|split; [|split; [|split]]]];
      try reflexivity.
    + unfold crawl_error_report, error_object.
      destruct (isinstance e ValueError); reflexivity.
    + intros Hl.
      destruct (Z.ltb_spec (len urls) 2) as [?|_]; [lia|].
      destruct (Z.gtb_spec (len urls) 5) as [?|_]; [lia|].
      now rewrite Hs.
    + unfold crawl_error_report, error_object.
      destruct (isinstance e ValueError).
      * split.
        -- intros [= H]. right. now symmetry.
        -- intros [H|H]; [discriminate H|now rewrite H].
      * split; [now left|reflexivity].
Qed.

(** The steps of a proof of [no_download], the lemmas given tried first. *)
Ltac calm_with known :=
  repeat first
    [ known
    | apply no_download_bind; [|intros ?]
    | apply no_download_try_except; [|intros ?]
    | apply no_download_with_driver
    | apply no_download_attempt
    | apply no_download_call; reflexivity
    | apply no_download_ret
    | apply no_download_raise
    | apply no_download_lift
    | apply no_download_read
    | apply no_download_set_instance ].

Ltac calm := calm_with fail.

Lemma no_download_compare_entry spider u : no_download (compare_entry spider u).
Proof.
  unfold compare_entry.
  calm_with ltac:(apply no_download_crawl).
Qed.

Lemma no_download_compare_loop spider urls : forall acc,
  no_download (compare_loop spider urls acc).
Proof.
  induction urls as [|u urls IH]; intros acc; simpl; [calm|].
  apply no_download_bind; [apply no_download_compare_entry|].
  intros a. apply IH.
Qed.

Lemma no_download_batch_loop spider urls : forall results errors,
  no_download (batch_loop spider false urls results errors).
Proof.
  induction urls as [|u urls IH]; intros results errors; simpl; [calm|].
  apply no_download_bind.
  - calm_with ltac:(apply no_download_crawl).
  - intros [e|s]; apply IH.
Qed.

(** X10: the two analysis tools, the comparison and a batch that asks for
    no download never fetch an image, create a directory or write a file,
    whatever the flag [DOWNLOAD_IMAGES] says. *)
Theorem analysis_tools_never_download (u : pystr) (urls : list pystr) :
  no_download (analyze_weixin_article u) /\
  no_download (summarize_weixin_article u) /\
  no_download (compare_articles urls) /\
  no_download (batch_crawl_articles urls false).
Proof.
  split; [|split; [|split]].
  - unfold analyze_weixin_article.
    calm_with ltac:(first [apply no_download_get_spider
                           |apply no_download_crawl]).
  - unfold summarize_weixin_article.
    calm_with ltac:(first [apply no_download_get_spider
                           |apply no_download_crawl]).
  - unfold compare_articles. apply no_download_try_except; [|intros e; calm].
    destruct (len urls <? 2); [calm|].
    destruct (len urls >? 5); [calm|].
    calm_with ltac:(first [apply no_download_get_spider
                           |apply no_download_compare_loop]).
  - unfold batch_crawl_articles. apply no_download_try_except; [|intros e; calm].
    apply no_download_bind; [apply no_download_get_spider|]. intros spider.
    apply no_download_bind; [apply no_download_batch_loop|].
    intros [results errors]. calm.
Qed.

End Tools.

Section ToolsSample.
Import Py Json Article Eff Sample WeixinSpider Server.

(** Two addresses, the second of which fails to load: one summary, and
    one error object that names the second address. *)
Lemma batch_crawl_report_witness :
  exists a w',
    @batch_crawl_articles (scripted (site_b_down (page_with 2))) (config true)
       [url_a; url_b] false (fresh_world _)
    = (Ok (JDict [("total", JInt 2);
                  ("success", JInt 1);
                  ("failed", JInt 1);
                  ("articles", JList [WeixinSpider.summarize_article a]);
                  ("errors",
                   JList [JDict [("url", JStr url_b);
                                 ("error",
                                  JStr (lit "net::ERR_CONNECTION_RESET"))]])]%string),
       w') /\
    url a = url_a.
Proof.
  set (O := scripted (site_b_down (page_with 2))).
  destruct (@get_spider O (fresh_world _)) as [[e|spider] w0] eqn:Es;
    [vm_compute in Es; discriminate Es|].
  destruct (@batch_crawl_report O (config true) [url_a; url_b] false
              _ _ _ Es) as (outs & w' & Ea & _ & Ho & E & _).
  vm_compute in Es. injection Es as <- <-.
  vm_compute in Ea. injection Ea as <- _.
  simpl in E. eexists. exists w'. split; [exact E|reflexivity].
Defined.

(** The start of the browser raises a [JSONDecodeError]: the analysis tool
    reports that class, the crawl tool reports a [ValueError]. *)
Lemma tools_never_raise_witness :
  fst (@analyze_weixin_article (failing_chrome manager_error) plain_text_re
         (config true) url_a (failing_chrome_world _))
  = Ok (JDict [("error", JStr (lit "Expecting value: line 1 column 1 (char 0)"));
               ("type", JStr (lit "JSONDecodeError"))]%string) /\
  fst (@crawl_weixin_article (failing_chrome manager_error)
         (config true) url_a true None (failing_chrome_world _))
  = Ok (JDict [("error", JStr (lit "Expecting value: line 1 column 1 (char 0)"));
               ("type", JStr (lit "ValueError"))]%string).
Proof.
  destruct (@get_spider (failing_chrome manager_error) (failing_chrome_world _))
    as [[e|s] w'] eqn:Es.
  - destruct (proj2 (@tools_never_raise (failing_chrome manager_error)
                       plain_text_re (config true)
                       url_a [] true None (failing_chrome_world _)) e w' Es)
      as (H1 & H2 & _).
    rewrite H1, H2. vm_compute in Es. injection Es as <- _.
    split; reflexivity.
  - vm_compute in Es. discriminate Es.
Defined.

Lemma analysis_tools_never_download_witness :
  existsb is_download
    (log (snd (@analyze_weixin_article (scripted (site_of (page_with 2)))
                 plain_text_re (config true) url_a (fresh_world _))))
  = false.
Proof.
  destruct (@analyze_weixin_article (scripted (site_of (page_with 2)))
              plain_text_re (config true) url_a (fresh_world _))
    as [r w'] eqn:E.
  destruct (proj1 (@analysis_tools_never_download
                     (scripted (site_of (page_with 2))) plain_text_re
                     (config true) url_a []) _ _ _ E)
    as (evs & Hl & Hn).
  simpl snd. rewrite Hl. exact Hn.
Defined.

End ToolsSample.

(** ** The output directory *)

Section OutputDirectory.
Import Py Json Article Eff Sample Server.

Lemma sanitize_path_shape name :
  exists c s, sanitize_path name = c :: s /\
              (List.length (c :: s) <= 100)%nat /\
              Forall (fun x => is_safe x = true) (c :: s).
Proof.
  assert (Hsafe : Forall (fun x => is_safe x = true) (sanitize_path name)).
  { apply Forall_forall. intros x. apply sanitize_path_chars. }
  unfold sanitize_path in *.
  destruct (re_sub_class _ [] _) as [|c s] eqn:E.
  - vm_compute in Hsafe |- *. eexists. eexists. split; [reflexivity|].
    split; [lia|exact Hsafe].
  - unfold slice_to in *.
    destruct (firstn 100 (c :: s)) as [|c' s'] eqn:Ef; [discriminate Ef|].
    exists c', s'. split; [reflexivity|]. split; [|exact Hsafe].
    rewrite <- Ef, length_firstn. lia.
Qed.

(** X11: a sanitized label is a fixed point of [sanitize_path], and the
    directory the tool builds from it is a direct child of [OUTPUT_DIR]:
    the root, a slash unless the root is empty or ends with one, and the
    label, which holds no slash, backslash or dot. *)
Theorem output_dir_confined (root name : pystr) :
  sanitize_path (sanitize_path name) = sanitize_path name /\
  (exists sep,
     (sep = [] \/ sep = lit "/") /\
     os_path_join root (sanitize_path name)
     = root ++ sep ++ sanitize_path name) /\
  Forall (fun c => c <> 46%N /\ c <> 47%N /\ c <> 92%N) (sanitize_path name).
Proof.
  destruct (sanitize_path_shape name) as (c & s & E & Hlen & Hsafe).
  rewrite E. split; [|split].
  - unfold sanitize_path.
    rewrite (re_sub_class_keep_all is_separator).
    + rewrite (re_sub_class_keep_all (fun x => negb (is_safe x))).
      * unfold slice_to. apply firstn_all2. exact Hlen.
      * rewrite Forall_forall in Hsafe. intros x Hx.
        now rewrite (Hsafe x Hx).
    + rewrite Forall_forall in Hsafe. intros x Hx.
      apply is_safe_not_separator, Hsafe, Hx.
  - assert (Hc : (47 =? c)%N = false).
    { inversion Hsafe as [|? ? Hc _]; subst.
      apply is_safe_not_separator in Hc. unfold is_separator in Hc.
      destruct (N.eqb_spec 47 c) as [<-|]; [discriminate Hc|reflexivity]. }
    unfold os_path_join.
    change (startswith (lit "/") (c :: s)) with ((47 =? c)%N && true).
    rewrite Hc. cbn [andb].
    destruct root as [|r root].
    + exists []. split; [now left|reflexivity].
    + destruct (endswith (lit "/") (r :: root)).
      * exists []. split; [now left|reflexivity].
      * exists (lit "/"). split; [now right|reflexivity].
  - eapply Forall_impl; [|exact Hsafe].
    intros x Hx. apply is_safe_not_separator in Hx. unfold is_separator in Hx.
    repeat split; intros ->; discriminate Hx.
Qed.

End OutputDirectory.

(** ** The shared instance *)

Section Singleton.
Import Py Json Article Eff Sample WeixinSpider.
Context {O : Outside}.

(** X12: [get_instance] creates the spider once.  After a call that
    returned, the class holds the spider returned, and a further call
    returns it again without touching the world.  When Chrome fails to
    start, the call raises, but the instance it had created stays in the
    class without a driver: the next call returns it as it is, with no new
    attempt to start Chrome, and every crawl of an allow-listed address
    with it raises [AttributeError]. *)
Theorem get_instance_once (w : World) :
  (forall s w1,
     get_instance w = (Ok s, w1) ->
     instance w1 = Some s /\ get_instance w1 = (Ok s, w1)) /\
  (forall e o,
     instance w = None ->
     chrome_start (outside w) = (Raise e, o) ->
     let broken := {| _driver := None; _initialized := false |} in
     let w1 := {| instance := Some broken; outside := o;
                  log := log w ++ [EvChromeStart] |} in
     get_instance w = (Raise e, w1) /\
     get_instance w1 = (Ok broken, w1) /\
     forall u dl dir wt,
       _is_valid_weixin_url u = Ok true ->
       fst (crawl broken u dl dir wt w1)
       = Raise (Exn AttributeError
                  (lit "'NoneType' object has no attribute 'get'"))).
Proof.
  split.
  - intros s w1. unfold get_instance.
    destruct (instance w) as [s0|] eqn:Ei.
    + intros [= <- <-]. rewrite Ei. auto.
    + unfold _init_browser. unfold bind, set_instance, call. cbn.
      destruct (chrome_start (outside w)) as [[e|[]] o]; [discriminate|].
      cbn. destruct (set_page_load_timeout PAGE_LOAD_TIMEOUT o) as [[e|[]] o'];
        [discriminate|].
      cbn. intros [= <- <-]. cbn. auto.
  - intros e o Hi Hc broken w1. split; [|split].
    + unfold get_instance. rewrite Hi.
      unfold _init_browser. unfold bind, set_instance, call. cbn.
      rewrite Hc. reflexivity.
    + reflexivity.
    + intros u dl dir wt Hv. unfold crawl. rewrite Hv. reflexivity.
Qed.

End Singleton.

Section SingletonSample.
Import Py Json Article Eff Sample WeixinSpider.

Lemma get_instance_once_witness :
  fst (@get_instance no_chrome
         (snd (@get_instance no_chrome no_chrome_world)))
  = Ok {| _driver := None; _initialized := false |}.
Proof.
  destruct (proj2 (@get_instance_once no_chrome no_chrome_world)
              (Exn (OtherException (lit "WebDriverException") [])
                   (lit "chrome not found")) tt eq_refl eq_refl)
    as (E1 & E2 & _).
  rewrite E1. exact (f_equal fst E2).
Defined.

End SingletonSample.

(** ** The analysis and the dictionary of an article *)

Section AnalysisFacts.
Import Py Json Article Eff Sample.
Context {RE : Regex}.

Lemma key_phrases_of_bounds limit matches :
  Forall (fun k => k <> [] /\ len k < limit /\ strip k = k)
    (Stats.key_phrases_of limit matches).
Proof.
  induction matches as [|m matches IH]; simpl; [constructor|].
  destruct (strip (re_sub "<[^>]+>" [] m)) as [|c k] eqn:E; [exact IH|].
  cbn [andb].
  destruct (Z.ltb_spec (len (c :: k)) limit) as [Hlt|_]; [|exact IH].
  constructor; [|exact IH].
  split; [discriminate|]. split; [exact Hlt|].
  rewrite <- E. apply strip_idempotent.
Qed.

(** X13: what an analysis holds, in both spider classes.  The word count is
    the one of the article, [char_count] the length of its text,
    [image_count] the number of its image entries.  There are at most 10
    key phrases, none empty, each shorter than 100 characters and without
    whitespace at either end.  An article without HTML has no paragraph and
    no key phrase. *)
Theorem analysis_contents (article : ArticleContent) (d : json) :
  WeixinSpider.analyze_article article = Ok d ->
  WeixinSpiderAB.analyze_article article = Ok d /\
  getitem d "word_count" = Ok (JInt (word_count article)) /\
  getitem d "char_count" = Ok (JInt (len (content_text article))) /\
  getitem d "image_count" = Ok (JInt (len (images article))) /\
  exists paragraphs phrases,
    getitem d "paragraph_count" = Ok (JInt paragraphs) /\
    getitem d "key_phrases" = Ok (JList (map JStr phrases)) /\
    0 <= paragraphs /\
    (List.length phrases <= 10)%nat /\
    Forall (fun k => k <> [] /\ len k < 100 /\ strip k = k) phrases /\
    (content_html article = [] -> paragraphs = 0 /\ phrases = []).
Proof.
  intros H. split; [exact H|].
  unfold WeixinSpider.analyze_article, Stats.analyze_article, rbind in H.
  destruct (truediv _ _) as [e|q]; [discriminate|]. injection H as <-.
  split; [reflexivity|]. split; [reflexivity|]. split; [reflexivity|].
  exists (if Stats.nonempty (content_html article)
          then len (re_findall "<p[^>]*>.*?</p>" (content_html article)
                      [DOTALL])
          else 0),
         (if Stats.nonempty (content_html article)
          then slice_to 10
                 (Stats.key_phrases_of WeixinSpider.MAX_KEY_PHRASE_LENGTH
                    (re_findall "<strong[^>]*>(.*?)</strong>"
                       (content_html article) [DOTALL]))
          else []).
  split; [reflexivity|]. split; [reflexivity|].
  destruct (content_html article) as [|c html]; cbn [Stats.nonempty].
  - split; [lia|]. split; [simpl; lia|]. split; [constructor|]. auto.
  - split; [apply len_nonneg|]. split.
    + unfold slice_to. rewrite length_firstn. lia.
    + split; [|discriminate].
      apply Forall_forall. intros k Hk. apply In_slice_to in Hk.
      pose proof (key_phrases_of_bounds WeixinSpider.MAX_KEY_PHRASE_LENGTH
                    (re_findall "<strong[^>]*>(.*?)</strong>" (c :: html)
                       [DOTALL])) as Hb.
      rewrite Forall_forall in Hb. exact (Hb k Hk).
Qed.

Lemma image_to_json_injective im1 im2 :
  image_to_json im1 = image_to_json im2 -> im1 = im2.
Proof.
  destruct im1 as [i1 u1 a1 p1], im2 as [i2 u2 a2 p2].
  unfold image_to_json. simpl.
  destruct p1, p2; intros [=]; subst; reflexivity.
Qed.

Lemma map_injective {A B} (f : A -> B) :
  (forall x y, f x = f y -> x = y) ->
  forall l1 l2, map f l1 = map f l2 -> l1 = l2.
Proof.
  intros Hf. induction l1 as [|x l1 IH]; intros [|y l2]; simpl;
    try discriminate; [reflexivity|].
  intros [= Hx Hl]. f_equal; [now apply Hf|now apply IH].
Qed.

(** X14: the dictionary of an article determines the article: two
    articles with the same [to_dict] are equal, field for field, image
    entries with their local paths included. *)
Theorem to_dict_injective (a b : ArticleContent) :
  to_dict a = to_dict b -> a = b.
Proof.
  destruct a, b. unfold to_dict. simpl. intros [=]. subst.
  f_equal. now apply (map_injective image_to_json image_to_json_injective).
Qed.

End AnalysisFacts.

Section AnalysisSample.
Import Py Json Article Eff Sample.

Lemma analysis_contents_witness :
  exists d,
    @WeixinSpider.analyze_article plain_text_re (article_of_length 7) = Ok d /\
    getitem d "char_count" = Ok (JInt 7).
Proof.
  destruct (@WeixinSpider.analyze_article plain_text_re (article_of_length 7))
    as [e|d] eqn:E; [vm_compute in E; discriminate E|].
  exists d. split; [reflexivity|].
  exact (proj1 (proj2 (proj2 (@analysis_contents plain_text_re _ _ E)))).
Defined.

Lemma to_dict_injective_witness :
  article_of_length 3
  = {| url := lit "https://mp.weixin.qq.com/s/abc";
       title := lit "t"; author := []; account_name := []; publish_date := [];
       content_html := []; content_text := lit "aaa";
       images := []; word_count := 3;
       crawl_timestamp := lit "2024-01-01T00:00:00" |}.
Proof. apply to_dict_injective. reflexivity. Defined.

End AnalysisSample.

(** ** The commands of the agent-browser spider *)

Section AgentCommands.
Import Py Json Article Eff Sample WeixinSpiderAB.
Context {G : Agent}.

Lemma runs_nothing {A} (c : M World A) :
  (forall w, snd (c w) = w) -> runs_at_most 0 c.
Proof.
  intros H w r w' E. exists []. rewrite app_nil_r.
  specialize (H w). rewrite E in H. simpl in H. subst.
  repeat split; [simpl; lia|constructor].
Qed.

Lemma runs_ret {A} (a : A) : runs_at_most 0 (ret a : M World A).
Proof. now apply runs_nothing. Qed.

Lemma runs_raise {A} e : runs_at_most 0 (raise e : M World A).
Proof. now apply runs_nothing. Qed.

Lemma runs_lift {A} (x : result A) : runs_at_most 0 (lift x : M World A).
Proof. now apply runs_nothing. Qed.

Lemma runs_weaken {A} n m (c : M World A) :
  (n <= m)%nat -> runs_at_most n c -> runs_at_most m c.
Proof.
  intros Hnm H w r w' E. destruct (H _ _ _ E) as (cmds & E1 & Hl & Hp).
  exists cmds. repeat split; [exact E1|lia|exact Hp].
Qed.

Lemma runs_bind {A B} n m (c : M World A) (k : A -> M World B) :
  runs_at_most n c -> (forall a, runs_at_most m (k a)) ->
  runs_at_most (n + m) (bind c k).
Proof.
  intros Hc Hk w r w' H. apply bind_inv in H.
  destruct H as [(e & H & _)|(a & w1 & H1 & H2)].
  - destruct (Hc _ _ _ H) as (cmds & E1 & Hl & Hp).
    exists cmds. repeat split; [exact E1|lia|exact Hp].
  - destruct (Hc _ _ _ H1) as (cmds1 & E1 & Hl1 & Hp1).
    destruct (Hk a _ _ _ H2) as (cmds2 & E2 & Hl2 & Hp2).
    exists (cmds1 ++ cmds2). rewrite E2, E1, app_assoc.
    repeat split; [rewrite length_app; lia|now apply Forall_app].
Qed.

Lemma run_cmd_outcome args timeout w :
  exists so,
    _run_cmd args timeout w
    = (Ok so,
       {| _state_loaded := _state_loaded w;
          outside := snd (subprocess_run (session_prefix ++ args) timeout
                            (outside w));
          log := log w ++ [session_prefix ++ args] |}) /\
    so = (succeeded_command
            (fst (subprocess_run (session_prefix ++ args) timeout (outside w))),
          if succeeded_command
               (fst (subprocess_run (session_prefix ++ args) timeout
                       (outside w)))
          then match fst (subprocess_run (session_prefix ++ args) timeout
                            (outside w)) with
               | Completed _ stdout _ => strip stdout
               | _ => []
               end
          else failure_output
                 (fst (subprocess_run (session_prefix ++ args) timeout
                         (outside w)))).
Proof.
  unfold _run_cmd.
  change ([AGENT_BROWSER_BIN; lit "--session"; _session_name; lit "--json"]
          ++ args) with (session_prefix ++ args).
  destruct (subprocess_run (session_prefix ++ args) timeout (outside w))
    as [[rc so se| |e] o]; simpl.
  - destruct (rc =? 0); eexists; split; reflexivity.
  - eexists; split; reflexivity.
  - eexists; split; reflexivity.
Qed.

Lemma runs_run_cmd args timeout : runs_at_most 1 (_run_cmd args timeout).
Proof.
  intros w r w' E.
  destruct (run_cmd_outcome args timeout w) as (so & E' & _).
  rewrite E' in E. injection E as _ <-. simpl.
  exists [session_prefix ++ args]. repeat split; [simpl; lia|].
  constructor; [reflexivity|constructor].
Qed.

Lemma runs_extract_text selector : runs_at_most 1 (_extract_text selector).
Proof.
  unfold _extract_text. apply (runs_bind 1 0); [apply runs_run_cmd|].
  intros [success output]. destruct success; [|apply runs_ret].
  destruct (has_key "text" _).
  - destruct (getitem _ "text") as [e|[]];
      first [apply runs_ret | apply runs_raise | apply runs_lift].
  - destruct (_parse_json output); apply runs_ret.
Qed.

Lemma runs_extract_html selector : runs_at_most 1 (_extract_html selector).
Proof.
  unfold _extract_html. apply (runs_bind 1 0); [apply runs_run_cmd|].
  intros [success output]. destruct success; [|apply runs_ret].
  destruct (has_key "html" _).
  - destruct (getitem _ "html") as [e|[]]; apply runs_ret.
  - destruct (_parse_json output); apply runs_ret.
Qed.

Lemma runs_image_entry i : runs_at_most 1 (image_entry i).
Proof.
  unfold image_entry. apply (runs_bind 1 0); [apply runs_run_cmd|].
  intros [success output]. destruct success; [|apply runs_ret].
  destruct (truthy _); [|apply runs_ret].
  destruct (if has_key "value" _ then _ else _);
    try apply runs_lift.
  destruct (negb _); apply runs_ret.
Qed.

Lemma runs_collect_images n : forall i acc,
  runs_at_most n (collect_images n i acc).
Proof.
  induction n as [|n IH]; intros i acc; simpl collect_images.
  - apply runs_ret.
  - apply (runs_bind 1 n); [apply runs_image_entry|].
    intros [im|]; apply IH.
Qed.

Lemma runs_extract_image_urls : runs_at_most 21 _extract_image_urls.
Proof.
  unfold _extract_image_urls. apply (runs_bind 1 20); [apply runs_run_cmd|].
  intros [success output]. destruct (negb success).
  - apply (runs_weaken 0); [lia|apply runs_ret].
  - destruct (rounds (count_of (_parse_json output))) as [e|n] eqn:En.
    + apply (runs_weaken 0); [lia|].
      apply runs_nothing. intros w. reflexivity.
    + pose proof (rounds_bound _ _ En) as Hn.
      change (runs_at_most 20 (collect_images (Z.to_nat n) 0 [])).
      apply (runs_weaken (Z.to_nat n)); [lia|apply runs_collect_images].
Qed.

Lemma runs_load_state : runs_at_most 1 load_state.
Proof.
  intros w r w'. unfold load_state.
  destruct (_ && _);
    [|intros [= _ <-]; exists []; rewrite app_nil_r;
      repeat split; [simpl; lia|constructor]].
  destruct (path_exists _ _);
    [|intros [= _ <-]; exists []; rewrite app_nil_r;
      repeat split; [simpl; lia|constructor]].
  unfold bind.
  destruct (run_cmd_outcome [lit "state"; lit "load"; BROWSER_STATE_FILE] 60 w)
    as (so & E & _).
  rewrite E. intros [= _ <-]. simpl.
  exists [session_prefix ++ [lit "state"; lit "load"; BROWSER_STATE_FILE]].
  repeat split; [simpl; lia|]. constructor; [reflexivity|constructor].
Qed.

(** X15: the agent-browser spider talks to its binary through a bounded
    number of commands, each on its own session: the image extraction runs
    at most 21 (the count and one per image up to 20), a whole crawl at
    most 33, whatever the page holds and whatever the binary answers. *)
Theorem agent_commands_bounded (u : pystr) (dl : bool) (dir : option pystr)
    (wt : Z) :
  runs_at_most 21 _extract_image_urls /\
  runs_at_most 33 (crawl u dl dir wt).
Proof.
  split; [apply runs_extract_image_urls|].
  unfold crawl.
  destruct (_is_valid_weixin_url u) as [e0|[|]]; cbn [negb];
    try (apply (runs_weaken 0); [lia|apply runs_raise]).
  apply (runs_bind 0 33).
  { apply runs_nothing. intros w. reflexivity. }
  intros stamp.
  apply (runs_bind 1 32); [apply runs_load_state|]. intros _.
  apply (runs_bind 1 31); [apply runs_run_cmd|]. intros [success output].
  destruct (negb success).
  { apply (runs_weaken 0); [lia|apply runs_raise]. }
  apply (runs_bind 1 30); [apply runs_run_cmd|]. intros _.
  apply (runs_bind 1 29); [apply runs_run_cmd|]. intros _.
  apply (runs_bind 1 28); [apply runs_extract_text|]. intros page_text.
  destruct (_ || _).
  { apply (runs_weaken 0); [lia|apply runs_raise]. }
  apply (runs_bind 1 27); [apply runs_extract_text|]. intros title.
  apply (runs_bind 1 26).
  { destruct (Stats.nonempty title);
      [apply (runs_weaken 0); [lia|apply runs_ret]|apply runs_extract_text]. }
  intros title'.
  apply (runs_bind 1 25); [apply runs_extract_text|]. intros account_name.
  apply (runs_bind 1 24); [apply runs_extract_text|]. intros author.
  apply (runs_bind 1 23); [apply runs_extract_text|]. intros publish_date.
  apply (runs_bind 1 22); [apply runs_extract_html|]. intros content_html.
  apply (runs_bind 1 21); [apply runs_extract_text|]. intros content_text.
  apply (runs_bind 21 0); [apply runs_extract_image_urls|]. intros images.
  apply runs_ret.
Qed.

(** X16: when the command that opens the page does not succeed, whether
    the binary hangs until the timeout, exits with an error or cannot be
    run, the crawl of the agent-browser spider raises [RuntimeError] with
    the message [Failed to open URL:] followed by the word [Timeout], the
    error output of the binary or the message of the exception. *)
Theorem crawl_open_failure (u : pystr) (dl : bool) (dir : option pystr)
    (wt : Z) (w : World) :
  _is_valid_weixin_url u = Ok true ->
  let w1 := snd (load_state w) in
  let answer := fst (subprocess_run (session_prefix ++ [lit "open"; u]) 60
                       (outside w1)) in
  succeeded_command answer = false ->
  fst (crawl u dl dir wt w)
  = Raise (Exn RuntimeError
             (lit "Failed to open URL: " ++ failure_output answer)).
Proof.
  intros Hv w1 answer Hfail.
  assert (Hload : load_state w = (Ok tt, w1)).
  { unfold w1, load_state.
    destruct (_ && _); [|reflexivity].
    destruct (path_exists _ _); [|reflexivity].
    unfold bind.
    destruct (run_cmd_outcome [lit "state"; lit "load"; BROWSER_STATE_FILE]
                60 w) as (so & E & _).
    rewrite E. reflexivity. }
  unfold crawl. rewrite Hv. cbn [negb].
  unfold bind at 1. cbn beta iota.
  unfold bind at 1. rewrite Hload.
  unfold bind at 1.
  destruct (run_cmd_outcome [lit "open"; u] 60 w1) as (so & E & Hso).
  rewrite E. fold answer in Hso. rewrite Hfail in Hso. subst so.
  reflexivity.
Qed.

End AgentCommands.

Section AgentCommandsSample.
Import Py Json Article Eff Sample WeixinSpiderAB.

Lemma agent_commands_bounded_witness :
  (List.length
     (log (snd (@crawl (scripted_agent (ab_page (lit "hi") 25 all_lazy))
                  url_a false None 10 (ab_world _)))) <= 33)%nat.
Proof.
  destruct (@crawl (scripted_agent (ab_page (lit "hi") 25 all_lazy))
              url_a false None 10 (ab_world _)) as [r w'] eqn:E.
  destruct (proj2 (@agent_commands_bounded
                     (scripted_agent (ab_page (lit "hi") 25 all_lazy))
                     url_a false None 10) _ _ _ E)
    as (cmds & Hl & Hn & _).
  simpl snd. rewrite Hl. simpl. exact Hn.
Defined.

Lemma crawl_open_failure_witness :
  fst (@crawl (scripted_agent ab_hangs) url_a false None 10 (ab_world _))
  = Raise (Exn RuntimeError (lit "Failed to open URL: Timeout")).
Proof.
  apply (@crawl_open_failure (scripted_agent ab_hangs) url_a false None 10
           (ab_world _) eq_refl eq_refl).
Defined.

End AgentCommandsSample.

(** ** Failures of the browser seen through the tool *)

Section ToolFailures.
Import Py Json Article Eff Sample WeixinSpider Server.
Context {O : Outside} {C : Config}.

(** X17: a Selenium crawl whose page cannot be loaded, or whose content
    never appears, fails with the exception of the driver, and the tool
    reports it: its message, and its own class name (a wait that runs out
    is a [TimeoutException]) unless the class derives from [ValueError],
    which the tool reports as [ValueError]; nothing is extracted or
    downloaded after the failure. *)
Theorem crawl_tool_driver_failure (u : pystr) (download_images : bool)
    (label : option pystr) (w : World) (self : Spider) (e : pyexn) :
  instance w = Some self ->
  _driver self = Some tt ->
  _is_valid_weixin_url u = Ok true ->
  (forall o,
     driver_get u (outside w) = (Raise e, o) ->
     crawl_weixin_article u download_images label w
     = (Ok (crawl_error_report e),
        {| instance := instance w; outside := o;
           log := log w ++ [EvGet u] |})) /\
  (forall o1 o2,
     driver_get u (outside w) = (Ok tt, o1) ->
     wait_js_content WAIT_TIME o1 = (Raise e, o2) ->
     crawl_weixin_article u download_images label w
     = (Ok (crawl_error_report e),
        {| instance := instance w; outside := o2;
           log := (log w ++ [EvGet u]) ++ [EvWait] |})) /\
  (isinstance e ValueError = false -> crawl_error_report e = error_object e).
Proof.
  intros Hi Hd Hv.
  assert (Hh : forall w',
            (if isinstance e ValueError
             then ret (JDict [("error", JStr (exn_str e));
                              ("type", JStr (lit "ValueError"))]%string)
             else ret (error_object e)) w'
            = (Ok (crawl_error_report e), w' : World)).
  { intros w'. unfold crawl_error_report, error_object.
    destruct (isinstance e ValueError); reflexivity. }
  split; [|split].
  - intros o Hg.
    unfold crawl_weixin_article, try_except, bind, get_spider, get_instance.
    rewrite Hi. unfold crawl. rewrite Hv. cbn [negb].
    unfold bind, read, with_driver, call. rewrite Hd. cbn. rewrite Hg.
    rewrite ?Hi. apply Hh.
  - intros o1 o2 Hg Hw.
    unfold crawl_weixin_article, try_except, bind, get_spider, get_instance.
    rewrite Hi. unfold crawl. rewrite Hv. cbn [negb].
    unfold bind, read, with_driver, call. rewrite Hd. cbn. rewrite Hg.
    cbn. rewrite Hw. rewrite ?Hi. apply Hh.
  - intros H. unfold crawl_error_report, error_object. now rewrite H.
Qed.

End ToolFailures.

Section ToolFailuresSample.
Import Py Json Article Eff Sample WeixinSpider Server.

Lemma crawl_tool_driver_failure_witness :
  fst (@crawl_weixin_article never_ready (config true) url_a true None
         never_ready_world)
  = Ok (JDict [("error", JStr (lit "Message: "));
               ("type", JStr (lit "TimeoutException"))]%string).
Proof.
  rewrite (proj1 (proj2 (@crawl_tool_driver_failure never_ready (config true)
                           url_a true None never_ready_world running
                           (Exn TimeoutException (lit "Message: "))
                           eq_refl eq_refl eq_refl))
             tt tt eq_refl eq_refl).
  reflexivity.
Defined.

(** X18: [batch_crawl_articles] does not consult [DOWNLOAD_IMAGES] or
    [OUTPUT_DIR]: under two configurations with the same waiting time it
    does the same, so a batch that asks for downloads performs them with
    the flag off as well, into the directory named by the hash of each
    address. *)
Theorem batch_ignores_download_flag {O : Outside} (C1 C2 : Config)
    (urls : list pystr) (download_images : bool) (w : World) :
  @WAIT_TIME C1 = @WAIT_TIME C2 ->
  @batch_crawl_articles O C1 urls download_images w
  = @batch_crawl_articles O C2 urls download_images w.
Proof.
  intros Hw.
  assert (Hloop : forall spider l results errors w0,
            @batch_loop O C1 spider download_images l results errors w0
            = @batch_loop O C2 spider download_images l results errors w0).
  { intros spider l. induction l as [|x l IH]; intros results errors w0;
      [reflexivity|].
    simpl. unfold bind at 1 3. rewrite Hw.
    destruct (attempt _ w0) as [[e|[e|s]] w1]; [reflexivity|apply IH..]. }
  unfold batch_crawl_articles, try_except, bind.
  destruct (get_spider w) as [[e|spider] w0]; [reflexivity|].
  now rewrite Hloop.
Qed.

Lemma batch_ignores_download_flag_witness :
  filter is_download
    (log (snd (@batch_crawl_articles (scripted (site_of (page_with 1)))
                 (config false) [url_a] true (fresh_world _))))
  = [EvMkdir (lit "./downloads/01234567");
     EvHttpGet (png "p.png");
     EvWrite (lit "./downloads/01234567/image_000.png")].
Proof.
  rewrite (@batch_ignores_download_flag (scripted (site_of (page_with 1)))
             (config false) (config true) [url_a] true (fresh_world _)
             eq_refl).
  vm_compute. reflexivity.
Defined.

End ToolFailuresSample.

(** ** Where the downloaded files go *)

Section DownloadPaths.
Import Py Json Article Eff Sample WeixinSpider Server.
Context {O : Outside} {C : Config}.

Lemma stored_after_download dir images images' :
  Forall (fun im => local_path im = None) images ->
  Forall2 (downloaded dir) images images' ->
  Forall (stored_under dir) images'.
Proof.
  intros Hn H. induction H as [|im im' images images' Hd _ IH];
    [constructor|].
  inversion Hn as [|? ? Hp Hn']; subst.
  constructor; [|exact (IH Hn')].
  destruct Hd as (Hi & _ & _ & [Hl|(ext & He & Hl)]).
  - left. now rewrite Hl.
  - right. exists ext. split; [exact He|]. now rewrite Hi.
Qed.

Lemma returns_download_stored self u dir :
  returns (_extract_and_download_images self u (Some dir))
    (fun images => Forall (stored_under dir) images).
Proof.
  intros w images' w' H.
  unfold _extract_and_download_images in H. apply bind_ok in H.
  destruct H as (images & w1 & E & H).
  pose proof (extract_image_urls_no_path _ _ _ _ E) as Hn.
  destruct images as [|im images].
  - injection H as <- _. constructor.
  - apply bind_ok in H. destruct H as (d & w2 & Hdir & H).
    injection Hdir as <- <-.
    apply bind_ok in H. destruct H as ([] & w2 & _ & H).
    destruct (download_all_total dir (im :: images) w2)
      as (images2 & w3 & E2 & Hd).
    rewrite E2 in H. injection H as <- _.
    exact (stored_after_download _ _ _ Hn Hd).
Qed.

Lemma returns_crawl_stored self u dir wt :
  returns (crawl self u true (Some dir) wt)
    (fun a => Forall (stored_under dir) (images a)).
Proof.
  unfold crawl.
  destruct (_is_valid_weixin_url _) as [e0|[|]];
    try apply returns_raise; cbn [negb].
  do 10 (eapply returns_bind; [apply returns_any|]; intros ? _).
  eapply returns_bind; [apply returns_download_stored|].
  intros images H. apply returns_ret. exact H.
Qed.

(** X19: with the flag on, a download asked for and a label given, every
    file the tool stores is [image_NNN] with a known extension, [NNN]
    being the index of the entry, directly in the directory that
    [OUTPUT_DIR] and the sanitized label name: no local path of the result
    points elsewhere. *)
Theorem crawl_tool_download_paths (u label : pystr) (w w' : World) (j : json) :
  DOWNLOAD_IMAGES = true ->
  label <> [] ->
  crawl_weixin_article u true (Some label) w = (Ok j, w') ->
  has_key "error" j = true \/
  exists a,
    j = to_dict a /\
    Forall (stored_under (os_path_join OUTPUT_DIR (sanitize_path label)))
      (images a).
Proof.
  intros Hflag Hlabel.
  unfold crawl_weixin_article, try_except. rewrite Hflag. cbn [andb].
  destruct label as [|c label]; [now destruct Hlabel|]. cbn [Stats.nonempty].
  destruct (bind get_spider _ w) as [[e|j0] w1] eqn:E.
  - intros H. left.
    destruct (isinstance e ValueError); injection H as <- _; reflexivity.
  - intros [= <- <-]. right.
    apply bind_ok in E. destruct E as (spider & w2 & _ & E).
    apply bind_ok in E. destruct E as (a & w3 & Ea & E).
    injection E as <- _. exists a. split; [reflexivity|].
    exact (returns_crawl_stored _ _ _ _ _ _ _ Ea).
Qed.

End DownloadPaths.

Section DownloadPathsSample.
Import Py Json Article Eff Sample WeixinSpider Server.

Lemma crawl_tool_download_paths_witness :
  exists a w',
    @crawl_weixin_article (scripted (site_of (page_with 1))) (config true)
       url_a true (Some (lit "../x")) (fresh_world _) = (Ok (to_dict a), w') /\
    Forall (stored_under (lit "./downloads/___x")) (images a).
Proof.
  destruct (@crawl_weixin_article (scripted (site_of (page_with 1)))
              (config true) url_a true (Some (lit "../x")) (fresh_world _))
    as [[e|j] w'] eqn:E; [vm_compute in E; discriminate E|].
  destruct (@crawl_tool_download_paths (scripted (site_of (page_with 1)))
              (config true) url_a (lit "../x") _ _ _ eq_refl
              ltac:(discriminate) E) as [He|(a & -> & Ha)].
  - vm_compute in E. injection E as <- _. discriminate He.
  - exists a, w'. split; [reflexivity|exact Ha].
Defined.

End DownloadPathsSample.

(** * The page behind the entries, and the download gate *)

(** ** The image entries and the page *)

Section PagePositions.
Import Py Json Article Eff Sample.

Lemma expected_entries_at page : forall i n im,
  nth_error (expected_entries i page) n = Some im ->
  exists q a,
    index im = i + Z.of_nat q /\
    nth_error page q = Some a /\
    resolved_source a = Some (img_url im) /\
    is_kept (Some (img_url im)) = true /\
    Z.of_nat q = Z.of_nat n + len (filter is_skipped (firstn q page)).
Proof.
  induction page as [|a page IH]; intros i n im H.
  - destruct n; discriminate H.
  - cbn [expected_entries] in H.
    assert (Hskip : is_skipped a = true ->
              nth_error (expected_entries (i + 1) page) n = Some im ->
              exists q a0,
                index im = i + Z.of_nat q /\
                nth_error (a :: page) q = Some a0 /\
                resolved_source a0 = Some (img_url im) /\
                is_kept (Some (img_url im)) = true /\
                Z.of_nat q
                = Z.of_nat n + len (filter is_skipped (firstn q (a :: page)))).
    { intros Hs Hn. destruct (IH _ _ _ Hn) as (q & a0 & Hi & Hq & Hr & Hk & Hc).
      exists (S q), a0. split; [lia|]. split; [exact Hq|].
      split; [exact Hr|]. split; [exact Hk|].
      cbn [firstn filter]. rewrite Hs. unfold len in *. simpl List.length. lia. }
    destruct (resolved_source a) as [s|] eqn:Er.
    + destruct (is_kept (Some s)) eqn:Ek.
      * destruct n as [|n].
        -- injection H as <-. exists O, a.
           split; [simpl; lia|]. split; [reflexivity|].
           split; [exact Er|]. split; [exact Ek|]. reflexivity.
        -- simpl in H.
           destruct (IH _ _ _ H) as (q & a0 & Hi & Hq & Hr & Hk & Hc).
           exists (S q), a0. split; [lia|]. split; [exact Hq|].
           split; [exact Hr|]. split; [exact Hk|].
           cbn [firstn filter]. unfold is_skipped at 1. rewrite Er, Ek.
           cbn [negb]. lia.
      * apply Hskip; [|exact H]. unfold is_skipped. now rewrite Er, Ek.
    + apply Hskip; [|exact H]. unfold is_skipped. now rewrite Er.
Qed.

Lemma at_position_expected page n im :
  nth_error (expected_entries 0 page) n = Some im -> at_position page n im.
Proof.
  intros H. destruct (expected_entries_at _ _ _ _ H) as (q & a & Hi & Hr).
  exists q, a. split; [lia|exact Hr].
Qed.

(** An entry of a part of the page read from the start is an entry of the
    page. *)
Lemma at_position_prefix page k n im :
  at_position (firstn k page) n im -> at_position page n im.
Proof.
  intros (q & a & Hi & Hq & Hr & Hk & Hc).
  rewrite nth_error_firstn in Hq.
  destruct (Nat.ltb_spec q k) as [Hlt|]; [|discriminate Hq].
  exists q, a. split; [exact Hi|]. split; [exact Hq|].
  split; [exact Hr|]. split; [exact Hk|].
  rewrite firstn_firstn in Hc. now replace (Nat.min q k) with q in Hc by lia.
Qed.

Lemma Forall2_nth_error {A B} (R : A -> B -> Prop) l l' :
  Forall2 R l l' ->
  forall n y, nth_error l' n = Some y ->
  exists x, nth_error l n = Some x /\ R x y.
Proof.
  induction 1 as [|x y l l' Hxy _ IH]; intros n z Hn.
  - destruct n; discriminate Hn.
  - destruct n as [|n]; simpl in Hn.
    + injection Hn as <-. exists x. split; [reflexivity|exact Hxy].
    + exact (IH _ _ Hn).
Qed.

(** The entries keep their index and their address through a download. *)
Lemma at_position_same page images images' :
  Forall2 (fun im im' => index im' = index im /\ img_url im' = img_url im)
    images images' ->
  (forall n im, nth_error images n = Some im -> at_position page n im) ->
  forall n im', nth_error images' n = Some im' -> at_position page n im'.
Proof.
  intros HF Hp n im' Hn.
  destruct (Forall2_nth_error _ _ _ HF _ _ Hn) as (im & Hn0 & Hi & Hu).
  destruct (Hp _ _ Hn0) as (q & a & H). exists q, a. now rewrite Hi, Hu.
Qed.

(** *** The Selenium extractor *)

Lemma selenium_entry_expected i el r rest :
  WeixinSpider.image_entry i el = Ok r ->
  expected_entries i (attributes_of el :: rest)
  = match r with
    | Some im => im :: expected_entries (i + 1) rest
    | None => expected_entries (i + 1) rest
    end.
Proof.
  unfold WeixinSpider.image_entry, attributes_of, rbind.
  destruct (WeixinSpider.get_data_src el) as [e|[[|c s]|]]; [discriminate|..];
    cbn [WeixinSpider.attr_truthy read_value].
  - destruct (WeixinSpider.get_src el) as [e|[[|c s]|]]; [discriminate|..];
      cbn [WeixinSpider.attr_truthy read_value andb].
    + intros [= <-]. reflexivity.
    + cbn [expected_entries resolved_source is_kept].
      destruct (negb _); [|intros [= <-]; reflexivity].
      destruct (WeixinSpider.get_alt el) as [e|al]; [discriminate|].
      intros [= <-]. reflexivity.
    + intros [= <-]. reflexivity.
  - cbn [expected_entries resolved_source is_kept andb].
    destruct (negb _); [|intros [= <-]; reflexivity].
    destruct (WeixinSpider.get_alt el) as [e|al]; [discriminate|].
    intros [= <-]. reflexivity.
  - destruct (WeixinSpider.get_src el) as [e|[[|c s]|]]; [discriminate|..];
      cbn [WeixinSpider.attr_truthy read_value andb].
    + intros [= <-]. reflexivity.
    + cbn [expected_entries resolved_source is_kept].
      destruct (negb _); [|intros [= <-]; reflexivity].
      destruct (WeixinSpider.get_alt el) as [e|al]; [discriminate|].
      intros [= <-]. reflexivity.
    + intros [= <-]. reflexivity.
Qed.

(** The loop returns the entries of the elements it went through: all of
    them, or those before the first one whose read raised. *)
Lemma selenium_collect_prefix els : forall i acc,
  exists k,
    WeixinSpider.collect_images i els acc
    = acc ++ expected_entries i (map attributes_of (firstn k els)).
Proof.
  induction els as [|el els IH]; intros i acc.
  - exists O. simpl. now rewrite app_nil_r.
  - cbn [WeixinSpider.collect_images].
    destruct (WeixinSpider.image_entry i el) as [e|r] eqn:E.
    + exists O. simpl. now rewrite app_nil_r.
    + destruct r as [im|].
      * destruct (IH (i + 1) (acc ++ [im])) as (k & Hk). exists (S k).
        cbn [firstn map].
        rewrite (selenium_entry_expected _ _ _ _ E), Hk, <- app_assoc.
        reflexivity.
      * destruct (IH (i + 1) acc) as (k & Hk). exists (S k).
        cbn [firstn map].
        rewrite (selenium_entry_expected _ _ _ _ E), Hk. reflexivity.
Qed.

Lemma selenium_extract_page {O : WeixinSpider.Outside} self w images w' :
  WeixinSpider._extract_image_urls self w = (Ok images, w') ->
  w' = w /\
  (images = [] \/
   exists c els,
     WeixinSpider.find_js_content (WeixinSpider.outside w) = Ok c /\
     WeixinSpider.find_img_elements c = Ok els /\
     forall n im, nth_error images n = Some im ->
                  at_position (map attributes_of els) n im).
Proof.
  unfold WeixinSpider._extract_image_urls, try_except, bind,
    WeixinSpider.with_driver, WeixinSpider.read, lift, raise, ret.
  destruct (WeixinSpider._driver self); [|intros [= <- <-]; auto].
  destruct (WeixinSpider.find_js_content (WeixinSpider.outside w))
    as [e|c] eqn:Ec; [intros [= <- <-]; auto|].
  destruct (WeixinSpider.find_img_elements c) as [e|els] eqn:Ee;
    [intros [= <- <-]; auto|].
  intros [= <- <-]. split; [reflexivity|]. right. exists c, els.
  split; [reflexivity|]. split; [exact Ee|].
  destruct (selenium_collect_prefix els 0 []) as (k & ->). cbn [app].
  intros n im Hn. rewrite <- firstn_map in Hn.
  eapply at_position_prefix, at_position_expected, Hn.
Qed.

Lemma selenium_download_page {O : WeixinSpider.Outside} self u dir w images' w' :
  WeixinSpider._extract_and_download_images self u dir w = (Ok images', w') ->
  exists images,
    WeixinSpider._extract_image_urls self w = (Ok images, w) /\
    Forall2 (fun im im' => index im' = index im /\ img_url im' = img_url im)
      images images'.
Proof.
  intros H. unfold WeixinSpider._extract_and_download_images in H.
  apply bind_ok in H. destruct H as (images & w1 & E & H).
  destruct (selenium_extract_page _ _ _ _ E) as [-> _].
  exists images. split; [exact E|].
  destruct images as [|im images].
  - injection H as <- _. constructor.
  - apply bind_ok in H. destruct H as (d & w2 & _ & H).
    apply bind_ok in H. destruct H as ([] & w3 & _ & H).
    destruct (download_all_total d (im :: images) w3)
      as (images2 & w4 & E2 & Hd).
    rewrite E2 in H. injection H as <- _.
    eapply Forall2_impl; [|exact Hd].
    intros x y (Hi & Hu & _). auto.
Qed.

(** The extractors of the texts return and leave the world as it is. *)
Lemma selenium_texts_total {O : WeixinSpider.Outside} self w :
  exists title author account_name publish_date content_html content_text,
    WeixinSpider._extract_title self w = (Ok title, w) /\
    WeixinSpider._extract_author self w = (Ok author, w) /\
    WeixinSpider._extract_account_name self w = (Ok account_name, w) /\
    WeixinSpider._extract_publish_date self w = (Ok publish_date, w) /\
    WeixinSpider._extract_content_html self w = (Ok content_html, w) /\
    WeixinSpider._extract_content_text self w = (Ok content_text, w).
Proof.
  destruct (extracts_first_selectors self w title_selectors) as (t1 & E1 & _).
  destruct (extracts_first_selectors self w author_selectors) as (t2 & E2 & _).
  destruct (extracts_first_selectors self w account_name_selectors)
    as (t3 & E3 & _).
  destruct (extracts_first_selectors self w publish_date_selectors)
    as (t4 & E4 & _).
  assert (H5 : exists t, WeixinSpider._extract_content_html self w = (Ok t, w)).
  { unfold WeixinSpider._extract_content_html, try_except, bind,
      WeixinSpider.with_driver, WeixinSpider.read, lift, raise, ret.
    destruct (WeixinSpider._driver self); [|eexists; reflexivity].
    destruct (WeixinSpider.find_js_content _) as [e|c]; [eexists; reflexivity|].
    destruct (WeixinSpider.get_innerHTML c); eexists; reflexivity. }
  assert (H6 : exists t, WeixinSpider._extract_content_text self w = (Ok t, w)).
  { unfold WeixinSpider._extract_content_text, try_except, bind,
      WeixinSpider.with_driver, WeixinSpider.read, lift, raise, ret.
    destruct (WeixinSpider._driver self); [|eexists; reflexivity].
    destruct (WeixinSpider.find_js_content _) as [e|c]; [eexists; reflexivity|].
    destruct (WeixinSpider.get_text c); eexists; reflexivity. }
  destruct H5 as (t5 & E5). destruct H6 as (t6 & E6).
  exists t1, t2, t3, t4, t5, t6. auto 10.
Qed.

(** A crawl whose page loads is the extraction of the images in the world
    left by the load, around the texts read in that world. *)
Lemma selenium_crawl_loaded {O : WeixinSpider.Outside} self u dl dir wt w o1 o2 :
  WeixinSpider._driver self = Some tt ->
  WeixinSpider._is_valid_weixin_url u = Ok true ->
  WeixinSpider.driver_get u (WeixinSpider.outside w) = (Ok tt, o1) ->
  WeixinSpider.wait_js_content wt o1 = (Ok tt, o2) ->
  exists title author account_name publish_date content_html content_text,
    WeixinSpider.crawl self u dl dir wt w
    = match (if dl
             then WeixinSpider._extract_and_download_images self u dir
             else WeixinSpider._extract_image_urls self) (loaded w u o2) with
      | (Raise e, w') => (Raise e, w')
      | (Ok images, w') =>
          (Ok {| url := u; title := title; author := author;
                 account_name := account_name;
                 publish_date := publish_date;
                 content_html := content_html;
                 content_text := content_text;
                 images := images;
                 word_count := len content_text;
                 crawl_timestamp :=
                   WeixinSpider.now_isoformat (WeixinSpider.outside w) |},
           w')
      end.
Proof.
  intros Hd Hv Hg Hw.
  destruct (selenium_texts_total self (loaded w u o2))
    as (t1 & t2 & t3 & t4 & t5 & t6 & E1 & E2 & E3 & E4 & E5 & E6).
  exists t1, t2, t3, t4, t5, t6.
  unfold WeixinSpider.crawl. rewrite Hv. cbn [negb].
  unfold bind at 1. unfold WeixinSpider.read at 1. cbn beta iota.
  unfold bind at 1. unfold WeixinSpider.with_driver. rewrite Hd.
  unfold WeixinSpider.call at 1. rewrite Hg.
  unfold bind at 1. unfold WeixinSpider.call at 1. cbn [WeixinSpider.outside].
  rewrite Hw.
  unfold bind at 1. unfold WeixinSpider.call at 1.
  cbn [WeixinSpider.outside WeixinSpider.instance WeixinSpider.log].
  fold (loaded w u o2).
  unfold bind at 1. rewrite E1.
  unfold bind at 1. rewrite E2.
  unfold bind at 1. rewrite E3.
  unfold bind at 1. rewrite E4.
  unfold bind at 1. rewrite E5.
  unfold bind at 1. rewrite E6.
  unfold bind at 1.
  destruct dl;
    [destruct (WeixinSpider._extract_and_download_images self u dir
                 (loaded w u o2)) as [[e|images] w']
    |destruct (WeixinSpider._extract_image_urls self (loaded w u o2))
       as [[e|images] w']];
    reflexivity.
Qed.

Lemma selenium_crawl_inv {O : WeixinSpider.Outside} self u dl dir wt w a w' :
  WeixinSpider.crawl self u dl dir wt w = (Ok a, w') ->
  exists o1 o2,
    WeixinSpider._driver self = Some tt /\
    WeixinSpider._is_valid_weixin_url u = Ok true /\
    WeixinSpider.driver_get u (WeixinSpider.outside w) = (Ok tt, o1) /\
    WeixinSpider.wait_js_content wt o1 = (Ok tt, o2) /\
    (if dl
     then WeixinSpider._extract_and_download_images self u dir
     else WeixinSpider._extract_image_urls self) (loaded w u o2)
    = (Ok (images a), w').
Proof.
  intros H.
  destruct (WeixinSpider._is_valid_weixin_url u) as [e|[|]] eqn:Hv;
    [unfold WeixinSpider.crawl in H; rewrite Hv in H; discriminate H| |
     unfold WeixinSpider.crawl in H; rewrite Hv in H; discriminate H].
  destruct (WeixinSpider._driver self) as [[]|] eqn:Hd;
    [|unfold WeixinSpider.crawl in H; rewrite Hv in H;
      unfold bind, WeixinSpider.read, WeixinSpider.with_driver in H;
      rewrite Hd in H; discriminate H].
  destruct (WeixinSpider.driver_get u (WeixinSpider.outside w))
    as [[e|[]] o1] eqn:Hg;
    [unfold WeixinSpider.crawl in H; rewrite Hv in H; cbn [negb] in H;
     unfold bind, WeixinSpider.read, WeixinSpider.with_driver,
       WeixinSpider.call in H;
     rewrite Hd in H; cbn in H; rewrite Hg in H; discriminate H|].
  destruct (WeixinSpider.wait_js_content wt o1) as [[e|[]] o2] eqn:Hw;
    [unfold WeixinSpider.crawl in H; rewrite Hv in H; cbn [negb] in H;
     unfold bind, WeixinSpider.read, WeixinSpider.with_driver,
       WeixinSpider.call in H;
     rewrite Hd in H; cbn in H; rewrite Hg in H; cbn in H;
     rewrite Hw in H; discriminate H|].
  destruct (selenium_crawl_loaded self u dl dir wt w o1 o2 Hd Hv Hg Hw)
    as (t1 & t2 & t3 & t4 & t5 & t6 & E).
  rewrite E in H. exists o1, o2. repeat split; auto.
  destruct dl;
    [destruct (WeixinSpider._extract_and_download_images self u dir
                 (loaded w u o2)) as [[e|images] w1]
    |destruct (WeixinSpider._extract_image_urls self (loaded w u o2))
       as [[e|images] w1]];
    try discriminate H; injection H as <- <-; reflexivity.
Qed.

(** *** The agent-browser extractor *)

Lemma ab_entry_reported {G : WeixinSpiderAB.Agent} i w entry w1 :
  WeixinSpiderAB.image_entry i w = (Ok entry, w1) ->
  WeixinSpiderAB.outside w1
  = snd (WeixinSpiderAB.subprocess_run (attr_command i) 60
           (WeixinSpiderAB.outside w)) /\
  forall rest,
    expected_entries i
      ((reported (fst (WeixinSpiderAB.subprocess_run (attr_command i) 60
                         (WeixinSpiderAB.outside w))), None, None) :: rest)
    = match entry with
      | Some im => im :: expected_entries (i + 1) rest
      | None => expected_entries (i + 1) rest
      end.
Proof.
  unfold WeixinSpiderAB.image_entry, bind, WeixinSpiderAB._run_cmd.
  change ([WeixinSpiderAB.AGENT_BROWSER_BIN; lit "--session";
           WeixinSpiderAB._session_name; lit "--json"]
          ++ [lit "get"; lit "attr";
              lit "#js_content img:nth-child(" ++ str_of_int (i + 1) ++ lit ")";
              lit "data-src"])
    with (attr_command i).
  destruct (WeixinSpiderAB.subprocess_run (attr_command i) 60
              (WeixinSpiderAB.outside w)) as [[rc so se| |e] o];
    cbn [fst snd reported];
    try (intros [= <- <-]; split; reflexivity).
  destruct (rc =? 0); [|intros [= <- <-]; split; reflexivity].
  set (src := if has_key "value" _ then _ else _).
  destruct src as [|b|z|f|s|l|d]; cbn [truthy].
  - intros [= <- <-]. split; reflexivity.
  - destruct b; [discriminate|]. intros [= <- <-]. split; reflexivity.
  - destruct (negb (z =? 0)); [discriminate|].
    intros [= <- <-]. split; reflexivity.
  - destruct f; try discriminate. intros [= <- <-]. split; reflexivity.
  - destruct s as [|c s]; [intros [= <- <-]; split; reflexivity|].
    cbn [expected_entries resolved_source is_kept snd].
    destruct (negb _); intros [= <- <-]; split; reflexivity.
  - destruct l; [|discriminate]. intros [= <- <-]. split; reflexivity.
  - destruct d; [|discriminate]. intros [= <- <-]. split; reflexivity.
Qed.

Lemma ab_collect_answers {G : WeixinSpiderAB.Agent} n : forall i acc w images w',
  WeixinSpiderAB.collect_images n i acc w = (Ok images, w') ->
  images
  = acc ++ expected_entries i
             (map (fun a => (reported a, None, None))
                (attr_answers n i (WeixinSpiderAB.outside w))).
Proof.
  induction n as [|n IH]; intros i acc w images w' H.
  - injection H as <- _. simpl. now rewrite app_nil_r.
  - cbn [WeixinSpiderAB.collect_images] in H. apply bind_ok in H.
    destruct H as (entry & w1 & He & H).
    destruct (ab_entry_reported _ _ _ _ He) as (Ho & Hexp).
    cbn [attr_answers].
    destruct (WeixinSpiderAB.subprocess_run (attr_command i) 60
                (WeixinSpiderAB.outside w)) as [c o'].
    cbn [fst snd] in Ho, Hexp. cbn [map]. rewrite Hexp, <- Ho.
    destruct entry as [im|].
    + rewrite (IH _ _ _ _ _ H), <- app_assoc. reflexivity.
    + exact (IH _ _ _ _ _ H).
Qed.

Lemma ab_extract_page {G : WeixinSpiderAB.Agent} w images w' :
  WeixinSpiderAB._extract_image_urls w = (Ok images, w') ->
  images = expected_entries 0 (asked_page (WeixinSpiderAB.outside w)).
Proof.
  unfold WeixinSpiderAB._extract_image_urls, bind at 1,
    WeixinSpiderAB._run_cmd, asked_page.
  change ([WeixinSpiderAB.AGENT_BROWSER_BIN; lit "--session";
           WeixinSpiderAB._session_name; lit "--json"]
          ++ [lit "get"; lit "count"; lit "#js_content img"])
    with count_command.
  destruct (WeixinSpiderAB.subprocess_run count_command 60
              (WeixinSpiderAB.outside w)) as [[rc so se| |e] o];
    cbn [asked_children negb];
    try (intros [= <- _]; reflexivity).
  destruct (rc =? 0); cbn [negb]; [|intros [= <- _]; reflexivity].
  intros H. apply bind_ok in H. destruct H as (n & w1 & Hn & H).
  unfold lift in Hn. injection Hn as Hn <-. rewrite Hn.
  exact (ab_collect_answers _ _ _ _ _ _ H).
Qed.

Lemma bind_ok_runs {G : WeixinSpiderAB.Agent} {A B} n
    (c : M WeixinSpiderAB.World A) (k : A -> M WeixinSpiderAB.World B) w b w' :
  runs_at_most n c ->
  bind c k w = (Ok b, w') ->
  exists a w1 cmds,
    WeixinSpiderAB.log w1 = WeixinSpiderAB.log w ++ cmds /\
    k a w1 = (Ok b, w').
Proof.
  intros Hc H. apply bind_ok in H. destruct H as (a & w1 & E & H).
  destruct (Hc _ _ _ E) as (cmds & Hl & _). eauto.
Qed.

(** One more step of a crawl, [L] holding the commands run so far. *)
Ltac ab_next H L lem :=
  apply (bind_ok_runs _ _ _ _ _ _ lem) in H;
  let cmds := fresh "cmds" in
  let Hl := fresh "Hl" in
  destruct H as (? & ? & cmds & Hl & H);
  rewrite L, <- app_assoc in Hl; clear L; rename Hl into L.

(** The images of a crawl are extracted last, in a world reached by the
    commands of the crawl. *)
Lemma ab_crawl_inv {G : WeixinSpiderAB.Agent} u dl dir wt w a w' :
  WeixinSpiderAB.crawl u dl dir wt w = (Ok a, w') ->
  exists w1 cmds,
    WeixinSpiderAB.log w1 = WeixinSpiderAB.log w ++ cmds /\
    WeixinSpiderAB._extract_image_urls w1 = (Ok (images a), w').
Proof.
  unfold WeixinSpiderAB.crawl.
  destruct (WeixinSpiderAB._is_valid_weixin_url u) as [e|[|]];
    try discriminate. cbn [negb].
  intros H.
  assert (L : WeixinSpiderAB.log w = WeixinSpiderAB.log w ++ [])
    by now rewrite app_nil_r.
  ab_next H L (runs_nothing
                 (fun w0 => (Ok (WeixinSpiderAB.now_isoformat
                                   (WeixinSpiderAB.outside w0)), w0))
                 (fun _ => eq_refl)).
  ab_next H L runs_load_state.
  ab_next H L (runs_run_cmd [lit "open"; u] 60).
  match type of H with
  | context [let (_, _) := ?so in _] => destruct so as [success output]
  end.
  destruct (negb success); [discriminate H|].
  ab_next H L (runs_run_cmd [lit "wait"; str_of_int (wt * 1000)] 60).
  ab_next H L (runs_run_cmd [lit "wait"; lit "#js_content"] (wt + 10)).
  ab_next H L (runs_extract_text (lit "body")).
  destruct (_ || _); [discriminate H|].
  ab_next H L (runs_extract_text (lit "h1.rich_media_title")).
  match type of H with
  | context [Stats.nonempty ?t] =>
      destruct (Stats.nonempty t);
        [ab_next H L (@runs_ret G pystr t)
        |ab_next H L (runs_extract_text (lit "#activity-name"))]
  end;
  (ab_next H L (runs_extract_text (lit "#js_name"));
   ab_next H L (runs_extract_text (lit ".rich_media_meta_text"));
   ab_next H L (runs_extract_text (lit "#publish_time"));
   ab_next H L (runs_extract_html (lit "#js_content"));
   ab_next H L (runs_extract_text (lit "#js_content"));
   apply bind_ok in H; destruct H as (images & w1 & E & H);
   injection H as <- <-; eexists; eexists; split; [exact L|exact E]).
Qed.

(** C7, as the code has it: in an article returned by a crawl of either
    backend the indexes of the image entries are non-negative and strictly
    increasing, and the entry at position [n] has an index of at least [n]
    (and below 20 in the agent-browser backend).  Each index is the
    position of the element on the page: the element at that position has
    the address of the entry, and the index is [n] plus the number of
    elements skipped before it, so that the indexes are contiguous from 0
    exactly as far as no element was skipped.  The page is the one shown
    after the navigation, the wait and the pause (Selenium), the one the
    binary reports child by child during the extraction, which starts in
    a world reached by the commands of the crawl (agent-browser). *)
Theorem crawl_image_indexes {O : WeixinSpider.Outside} {G : WeixinSpiderAB.Agent} :
  (forall self u dl dir wt w a w',
     WeixinSpider.crawl self u dl dir wt w = (Ok a, w') ->
     StronglySorted Z.lt (indexes (images a)) /\
     (forall n im, nth_error (images a) n = Some im ->
                   Z.of_nat n <= index im) /\
     exists o1 o2,
       WeixinSpider.driver_get u (WeixinSpider.outside w) = (Ok tt, o1) /\
       WeixinSpider.wait_js_content wt o1 = (Ok tt, o2) /\
       (images a = [] \/
        exists c els,
          WeixinSpider.find_js_content
            (WeixinSpider.sleep WeixinSpider.DYNAMIC_CONTENT_WAIT o2) = Ok c /\
          WeixinSpider.find_img_elements c = Ok els /\
          forall n im, nth_error (images a) n = Some im ->
                       at_position (map attributes_of els) n im)) /\
  (forall u dl dir wt w a w',
     WeixinSpiderAB.crawl u dl dir wt w = (Ok a, w') ->
     StronglySorted Z.lt (indexes (images a)) /\
     (forall n im, nth_error (images a) n = Some im ->
                   Z.of_nat n <= index im < 20) /\
     exists w1 cmds,
       WeixinSpiderAB.log w1 = WeixinSpiderAB.log w ++ cmds /\
       WeixinSpiderAB._extract_image_urls w1 = (Ok (images a), w') /\
       forall n im, nth_error (images a) n = Some im ->
                    at_position (asked_page (WeixinSpiderAB.outside w1)) n im).
Proof.
  split.
  - intros self u dl dir wt w a w' H.
    pose proof (returns_selenium_crawl _ _ _ _ _ _ _ _ H) as [hi Hs].
    split; [exact (proj1 Hs)|]. split.
    { intros n im Hn.
      pose proof (increasing_nth_ge 0 hi _ Hs n (index im)) as Hge.
      unfold indexes in Hge. rewrite nth_error_map, Hn in Hge.
      specialize (Hge eq_refl). lia. }
    destruct (selenium_crawl_inv _ _ _ _ _ _ _ _ H)
      as (o1 & o2 & _ & _ & Hg & Hw & E).
    exists o1, o2. split; [exact Hg|]. split; [exact Hw|].
    destruct dl.
    + destruct (selenium_download_page _ _ _ _ _ _ E) as (images0 & E0 & HF).
      destruct (selenium_extract_page _ _ _ _ E0) as [_ [Hnil|Hp]].
      * left. subst images0. now inversion HF.
      * right. destruct Hp as (c & els & Hc & He & Hp). exists c, els.
        split; [exact Hc|]. split; [exact He|].
        exact (at_position_same _ _ _ HF Hp).
    + destruct (selenium_extract_page _ _ _ _ E) as [_ [Hnil|Hp]];
        [now left|now right].
  - intros u dl dir wt w a w' H.
    pose proof (returns_ab_crawl _ _ _ _ _ _ _ H) as [Hs _].
    split; [exact (proj1 Hs)|]. split.
    { intros n im Hn.
      pose proof (increasing_nth_ge 0 20 _ Hs n (index im)) as Hge.
      unfold indexes in Hge. rewrite nth_error_map, Hn in Hge.
      specialize (Hge eq_refl). lia. }
    destruct (ab_crawl_inv _ _ _ _ _ _ _ H) as (w1 & cmds & L & E).
    exists w1, cmds. split; [exact L|]. split; [exact E|].
    intros n im Hn. apply at_position_expected.
    now rewrite <- (ab_extract_page _ _ _ E).
Qed.

End PagePositions.

Section PagePositionsSample.
Import Py Json Article Eff Sample.

(** A page whose first image is an inline placeholder: the one entry has
    the index 1, the position of the second element, after one element
    skipped. *)
Lemma crawl_image_indexes_witness :
  match @WeixinSpider.crawl (scripted (site_of page_with_placeholder))
          running url_a false None 10 (running_world _) with
  | (Ok a, _) =>
      indexes (images a) = [1] /\ StronglySorted Z.lt (indexes (images a)) /\
      forall n im, nth_error (images a) n = Some im ->
        at_position [(None, Some placeholder, None);
                     (Some (png "b.png"), None, None)] n im
  | (Raise _, _) => False
  end.
Proof.
  destruct (WeixinSpider.crawl _ _ _ _ _ _) as [[e|a] w'] eqn:E.
  - vm_compute in E. discriminate E.
  - destruct (proj1 (@crawl_image_indexes
                       (scripted (site_of page_with_placeholder))
                       (scripted_agent ab_down))
                _ _ _ _ _ _ _ _ E)
      as (Hs & _ & o1 & o2 & Hg & Hw & Hp).
    split; [vm_compute in E; injection E as <- _; reflexivity|].
    split; [exact Hs|].
    destruct Hp as [Hnil|(c & els & Hc & He & Hp)].
    + intros n im Hn. rewrite Hnil in Hn. destruct n; discriminate Hn.
    + cbv in Hc. injection Hc as <-. cbv in He. injection He as <-.
      exact Hp.
Defined.

End PagePositionsSample.

(** ** The download gate of the crawl tool *)

Section DownloadGate.
Import Py Json Article Eff Sample WeixinSpider Server.
Context {O : Outside} {C : Config}.

(** Unless the argument and the flag are both true, the tool is the call
    that asks for no download and gives no label. *)
Lemma crawl_tool_gate_closed u download_images custom_filename :
  download_images && DOWNLOAD_IMAGES = false ->
  crawl_weixin_article u download_images custom_filename
  = crawl_weixin_article u false None.
Proof.
  intros H. unfold crawl_weixin_article. rewrite H.
  destruct custom_filename as [name|]; [|reflexivity].
  destruct (download_images && Stats.nonempty name); reflexivity.
Qed.

Lemma crawl_tool_quiet u w :
  exists j w',
    crawl_weixin_article u false None w = (Ok j, w') /\
    (exists evs, log w' = log w ++ evs /\ existsb is_download evs = false) /\
    (has_key "error" j = true \/
     exists a, j = to_dict a /\
               Forall (fun im => local_path im = None) (images a)).
Proof.
  unfold crawl_weixin_article. cbn [andb].
  set (body := (spider <- get_spider ;;
                article <- crawl spider u false None WAIT_TIME ;;
                ret (to_dict article))%eff).
  set (handler := fun e : pyexn => _).
  assert (Hq : no_download (try_except body handler)).
  { apply no_download_try_except.
    - unfold body. apply no_download_bind; [apply no_download_get_spider|].
      intros spider. apply no_download_bind; [apply no_download_crawl|].
      intros a. apply no_download_ret.
    - intros e. unfold handler.
      destruct (isinstance e ValueError); apply no_download_ret. }
  destruct (try_except body handler w) as [r w'] eqn:Er.
  pose proof (Hq _ _ _ Er) as Hlog.
  unfold try_except in Er.
  destruct (body w) as [[e|j] w1] eqn:Eb.
  - unfold handler, ret in Er.
    destruct (isinstance e ValueError); injection Er as <- <-;
      (eexists; eexists; split; [reflexivity|]; split; [exact Hlog|]; left;
       reflexivity).
  - injection Er as <- <-. exists j, w1.
    split; [reflexivity|]. split; [exact Hlog|]. right.
    unfold body in Eb. apply bind_ok in Eb.
    destruct Eb as (spider & w2 & _ & Eb). apply bind_ok in Eb.
    destruct Eb as (a & w3 & Ea & Eb). injection Eb as <- _.
    exists a. split; [reflexivity|].
    eapply returns_crawl_no_path, Ea.
Qed.

(** The download of one entry asks for its address once. *)
Lemma download_one_fetch dir im w :
  exists evs,
    log (snd (download_one dir im w)) = log w ++ evs /\
    filter is_fetch evs = [EvHttpGet (img_url im)].
Proof.
  unfold download_one, try_except, bind, call, ret.
  destruct (requests_get (img_url im) (outside w)) as [[e|r] o];
    [exists [EvHttpGet (img_url im)]; split; reflexivity|].
  destruct (status_code r =? 200);
    [|exists [EvHttpGet (img_url im)]; split; reflexivity].
  cbn [outside log].
  destruct (write_file _ _ o) as [[e|[]] o'];
    (eexists [EvHttpGet (img_url im); EvWrite _]; split;
     [cbn [snd log]; rewrite <- app_assoc; reflexivity|reflexivity]).
Qed.

Lemma download_all_fetches dir images : forall w,
  exists evs,
    log (snd (download_all dir images w)) = log w ++ evs /\
    filter is_fetch evs = map (fun im => EvHttpGet (img_url im)) images.
Proof.
  induction images as [|im images IH]; intros w; simpl.
  - exists []. split; [now rewrite app_nil_r|reflexivity].
  - destruct (download_one_total dir im w) as (im' & w1 & E1 & _).
    destruct (download_one_fetch dir im w) as (evs1 & L1 & F1).
    rewrite E1 in L1. cbn [snd] in L1.
    destruct (download_all_total dir images w1) as (rest & w2 & E2 & _).
    destruct (IH w1) as (evs2 & L2 & F2).
    rewrite E2 in L2. cbn [snd] in L2.
    unfold bind. rewrite E1, E2. cbn [ret snd].
    exists (evs1 ++ evs2). split.
    + now rewrite L2, L1, app_assoc.
    + now rewrite filter_app, F1, F2.
Qed.

(** The extraction on a page whose container is found and whose
    attributes are read. *)
Lemma selenium_extract_expected self w c page :
  _driver self = Some tt ->
  find_js_content (outside w) = Ok c ->
  find_img_elements c = Ok (map element page) ->
  _extract_image_urls self w = (Ok (expected_entries 0 page), w).
Proof.
  intros Hd Hc Hi.
  unfold _extract_image_urls, try_except, bind, with_driver, read, lift.
  rewrite Hd, Hc, Hi. unfold ret.
  now rewrite selenium_collect_expected.
Qed.

(** C10: [crawl_weixin_article] downloads only when the argument and the
    environment flag are both true.  Unless both are, the call behaves in
    every respect as the call that asks for no download and gives no label
    (so with the flag off an argument that is true changes nothing, and
    with an argument that is false the label changes nothing): it returns
    an object, adds no fetch, directory or write to the log, and the object
    is an error object or the dictionary of an article whose image entries
    have no [local_path].  On a page that loads, with a spider at hand,
    such a call returns the entries of the page and the log gains the
    navigation, the wait and the pause only; and when both are true the
    directory named by the label (or by the hash of the address) is
    created and every entry is fetched, in order, the entries coming back
    the same but for their local paths. *)
Theorem crawl_tool_download_gate (u : pystr) (download_images : bool)
    (custom_filename : option pystr) (w : World) :
  (download_images && DOWNLOAD_IMAGES = false ->
   crawl_weixin_article u download_images custom_filename w
   = crawl_weixin_article u false None w /\
   exists j w',
     crawl_weixin_article u download_images custom_filename w = (Ok j, w') /\
     (exists evs, log w' = log w ++ evs /\ existsb is_download evs = false) /\
     (has_key "error" j = true \/
      exists a, j = to_dict a /\
                Forall (fun im => local_path im = None) (images a))) /\
  (forall self o1 o2 c page,
     instance w = Some self ->
     _driver self = Some tt ->
     _is_valid_weixin_url u = Ok true ->
     driver_get u (outside w) = (Ok tt, o1) ->
     wait_js_content WAIT_TIME o1 = (Ok tt, o2) ->
     find_js_content (sleep DYNAMIC_CONTENT_WAIT o2) = Ok c ->
     find_img_elements c = Ok (map element page) ->
     (download_images && DOWNLOAD_IMAGES = false ->
      exists a w',
        crawl_weixin_article u download_images custom_filename w
        = (Ok (to_dict a), w') /\
        images a = expected_entries 0 page /\
        log w' = log w ++ [EvGet u; EvWait; EvSleep]) /\
     (download_images && DOWNLOAD_IMAGES = true ->
      expected_entries 0 page <> [] ->
      forall dir o3,
        download_dir u (label_dir custom_filename) = Ok dir ->
        mkdir_parents dir (sleep DYNAMIC_CONTENT_WAIT o2) = (Ok tt, o3) ->
        exists a w' evs,
          crawl_weixin_article u download_images custom_filename w
          = (Ok (to_dict a), w') /\
          map without_path (images a) = expected_entries 0 page /\
          log w' = log w ++ [EvGet u; EvWait; EvSleep; EvMkdir dir] ++ evs /\
          filter is_fetch evs
          = map (fun im => EvHttpGet (img_url im)) (expected_entries 0 page))).
Proof.
  split.
  - intros H. rewrite (crawl_tool_gate_closed _ _ _ H).
    split; [reflexivity|apply crawl_tool_quiet].
  - intros self o1 o2 c page Hi Hd Hv Hg Hw Hc He.
    assert (Hx : _extract_image_urls self (loaded w u o2)
                 = (Ok (expected_entries 0 page), loaded w u o2))
      by (apply (selenium_extract_expected self _ c); assumption).
    assert (Hs : get_spider w = (Ok self, w))
      by (unfold get_spider, get_instance; now rewrite Hi).
    split.
    + intros H. rewrite (crawl_tool_gate_closed _ _ _ H).
      destruct (selenium_crawl_loaded self u false None WAIT_TIME w o1 o2
                  Hd Hv Hg Hw) as (t1 & t2 & t3 & t4 & t5 & t6 & E).
      rewrite Hx in E.
      eexists. exists (loaded w u o2). split; [|split].
      * unfold crawl_weixin_article, try_except, bind. rewrite Hs.
        cbn [andb]. rewrite E. reflexivity.
      * reflexivity.
      * unfold loaded. cbn [log]. now rewrite <- !app_assoc.
    + intros H Hne dir o3 Hdir Hm.
      apply andb_true_iff in H. destruct H as [-> Hflag].
      destruct (selenium_crawl_loaded self u true (label_dir custom_filename)
                  WAIT_TIME w o1 o2 Hd Hv Hg Hw)
        as (t1 & t2 & t3 & t4 & t5 & t6 & E).
      pose proof (extract_image_urls_no_path _ _ _ _ Hx) as Hn.
      destruct (expected_entries 0 page) as [|im images] eqn:Ep;
        [now destruct Hne|].
      rewrite (download_run self u (label_dir custom_filename) _ _ _ Hx),
        Hdir in E.
      unfold bind at 1 in E. unfold call at 1 in E.
      replace (outside (loaded w u o2))
        with (sleep DYNAMIC_CONTENT_WAIT o2) in E by reflexivity.
      rewrite Hm in E.
      set (w4 := {| instance := instance (loaded w u o2); outside := o3;
                    log := log (loaded w u o2) ++ [EvMkdir dir] |}) in E.
      destruct (download_all_total dir (im :: images) w4)
        as (images' & w' & Ed & HF).
      destruct (download_all_fetches dir (im :: images) w4)
        as (evs & Hl & Hf).
      rewrite Ed in E, Hl. cbn [snd] in Hl.
      eexists. exists w', evs. split; [|split; [|split]].
      * unfold crawl_weixin_article, try_except, bind. rewrite Hs, Hflag.
        cbn [andb].
        replace (match custom_filename with
                 | Some name =>
                     if Stats.nonempty name
                     then Some (os_path_join OUTPUT_DIR (sanitize_path name))
                     else None
                 | None => None
                 end) with (label_dir custom_filename)
          by (destruct custom_filename as [[|x name]|]; reflexivity).
        rewrite E. reflexivity.
      * cbn [Article.images]. exact (without_path_downloaded _ _ _ Hn HF).
      * rewrite Hl. unfold w4, loaded. cbn [log].
        now rewrite <- !app_assoc.
      * exact Hf.
Qed.

End DownloadGate.

Section DownloadGateSample.
Import Py Json Article Eff Sample WeixinSpider Server.

(** The flag is off and the caller asks for a download with a label: the
    article comes back with its two image entries, and the log holds the
    navigation, the wait and the pause.  The flag is on: the directory of
    the label is made and the picture is fetched. *)
Lemma crawl_tool_download_gate_witness :
  (exists a w',
     @crawl_weixin_article (scripted (site_of (page_with 2))) (config false)
        url_a true (Some (lit "../x")) (running_world _) = (Ok (to_dict a), w') /\
     images a = expected_entries 0 (repeat (Some (png "p.png"), None, None) 2) /\
     log w' = [EvGet url_a; EvWait; EvSleep]) /\
  (exists a w' evs,
     @crawl_weixin_article (scripted (site_of (page_with 1))) (config true)
        url_a true (Some (lit "../x")) (running_world _) = (Ok (to_dict a), w') /\
     map without_path (images a)
     = expected_entries 0 (repeat (Some (png "p.png"), None, None) 1) /\
     log w' = [EvGet url_a; EvWait; EvSleep; EvMkdir (lit "./downloads/___x")]
              ++ evs /\
     filter is_fetch evs = [EvHttpGet (png "p.png")]).
Proof.
  split.
  - apply (proj1 (proj2 (@crawl_tool_download_gate
                           (scripted (site_of (page_with 2))) (config false)
                           url_a true (Some (lit "../x")) (running_world _))
                    running url_a url_a (page_with 2)
                    (repeat (Some (png "p.png"), None, None) 2)
                    eq_refl eq_refl eq_refl eq_refl eq_refl eq_refl eq_refl)
             eq_refl).
  - apply (proj2 (proj2 (@crawl_tool_download_gate
                           (scripted (site_of (page_with 1))) (config true)
                           url_a true (Some (lit "../x")) (running_world _))
                    running url_a url_a (page_with 1)
                    (repeat (Some (png "p.png"), None, None) 1)
                    eq_refl eq_refl eq_refl eq_refl eq_refl eq_refl eq_refl)
             eq_refl ltac:(discriminate)
             (lit "./downloads/___x") url_a eq_refl eq_refl).
Defined.

End DownloadGateSample.
